(** * docShadow: the structure extractor and the snapshot orchestrator

    A shallow embedding of [docshadow/generator.py] and [docshadow/utils.py].

    - Python values that end up in the JSON artefacts are the type [value];
      a [dict] is an association list in insertion order, which is the order
      [json.dump] writes.
    - The syntax tree of the [ast] module is the type [node]; an
      [isinstance] test is a match on the constructor.
    - Exceptions are explicit: a computation returns [Ok] or [Raise].
    - The file system, the clock and the git repository are an explicit
      environment [Env]; the console and the files written are a [State]
      that the orchestrator threads through its calls.
    - The extractor's methods are functions that give what the method
      returns. The exceptions with which the Python runtime can stop them
      (the recursion limit, the digit limit of [repr] on integers) are part
      of the environment, [runtime_error], and take effect inside the [try]
      of [extract_from_file]. *)

From Stdlib Require Import List String Ascii ZArith Lia Bool Arith Permutation DecimalString.
Import ListNotations.
Local Open Scope string_scope.
Local Open Scope list_scope.
Local Open Scope Z_scope.

Set Implicit Arguments.
Set Warnings "-register-all".

(** ** Python values *)

Inductive value : Type :=
| VNone
| VBool (b : bool)
| VInt (z : Z)
| VStr (s : string)
| VList (items : list value)
| VDict (entries : list (string * value)).

Definition dict := list (string * value).

(** [d[k]] as a lookup, [None] for a missing key. *)
Fixpoint dict_get (k : string) (d : dict) : option value :=
  match d with
  | [] => None
  | (k', v) :: rest => if String.eqb k k' then Some v else dict_get k rest
  end.

(** [k in d] *)
Definition dict_has (k : string) (d : dict) : bool :=
  match dict_get k d with Some _ => true | None => false end.

(** [d[k] = v]: an existing key keeps its position, a new key goes last. *)
Fixpoint dict_set (k : string) (v : value) (d : dict) : dict :=
  match d with
  | [] => [(k, v)]
  | (k', v') :: rest =>
      if String.eqb k k' then (k', v) :: rest else (k', v') :: dict_set k v rest
  end.

Definition dict_keys (d : dict) : list string := map fst d.

(** The dict without one key (used to compare records up to a field). *)
Definition dict_remove (k : string) (d : dict) : dict :=
  filter (fun kv => negb (String.eqb k (fst kv))) d.

Definition entries_of (v : value) : dict :=
  match v with VDict d => d | _ => [] end.

Definition field (k : string) (v : value) : option value := dict_get k (entries_of v).

Definition keys_of (v : value) : list string := dict_keys (entries_of v).

Definition opt_str (o : option string) : value :=
  match o with Some s => VStr s | None => VNone end.

(** ** Exceptions *)

Inductive exn_class : Type :=
| OSError | UnicodeDecodeError | SyntaxError | ValueError | IndexError
| TypeError | AttributeError | RecursionError | MemoryError
| KeyError | BadName | InvalidGitRepositoryError | NoSuchPathError | GitCommandError.

Record exn : Type := mk_exn { exn_kind : exn_class; exn_msg : string }.

Inductive result (A : Type) : Type :=
| Ok (a : A)
| Raise (e : exn).
Arguments Ok {A} a.
Arguments Raise {A} e.

Definition bind {A B} (m : result A) (k : A -> result B) : result B :=
  match m with Ok a => k a | Raise e => Raise e end.

Notation "x <- m ;; k" := (bind m (fun x => k))
  (at level 61, m at next level, right associativity).

(** A [for] loop whose body may raise and that carries the loop's variables
    in [s]. *)
Fixpoint for_each {X S} (l : list X) (s : S) (body : S -> X -> result S) : result S :=
  match l with
  | [] => Ok s
  | x :: rest => s' <- body s x ;; for_each rest s' body
  end.

(** ** The syntax tree of the [ast] module *)

Inductive constant : Type :=
| CNone
| CBool (b : bool)
| CInt (z : Z)
| CStr (s : string)
| CBytes (s : string)
| CFloat (literal : string)
| CComplex (literal : string)
| CEllipsis.

Record alias : Type := mk_alias { alias_name : string; asname : option string }.

(** [ast.arg] and [ast.arguments], over the type of expression nodes. *)
Record arg_ (N : Type) : Type := mk_arg { arg : string; annotation : option N }.

Record arguments_ (N : Type) : Type := mk_arguments {
  posonlyargs : list (arg_ N);
  args : list (arg_ N);
  vararg : option (arg_ N);
  kwonlyargs : list (arg_ N);
  kw_defaults : list (option N);
  kwarg : option (arg_ N);
  defaults : list N
}.

(** The node kinds the program tests for, each with the fields of the [ast]
    class, in the order of its [_fields]. [Other] is every other node kind
    (statements such as [If] or [Try], handlers, expressions such as [Call]):
    its child nodes in field order. [Arguments], [Arg] and [Alias] are the
    [arguments], [arg] and [alias] objects seen as nodes of the tree.
    Left out: positions other than the [lineno] the program reads, type
    comments, and the expression context [ctx] ([Load], [Store], [Del]) of
    names, attributes, lists and tuples, a leaf node that no test of the
    program selects. *)
Inductive node : Type :=
| Module (body : list node)
| FunctionDef (name : string) (a : arguments_ node) (body : list node)
    (decorator_list : list node) (returns : option node) (lineno : Z)
| AsyncFunctionDef (name : string) (a : arguments_ node) (body : list node)
    (decorator_list : list node) (returns : option node) (lineno : Z)
| ClassDef (name : string) (bases : list node) (keywords : list node)
    (body : list node) (decorator_list : list node) (lineno : Z)
| Import (names : list alias) (lineno : Z)
| ImportFrom (module : option string) (names : list alias) (level : Z) (lineno : Z)
| Assign (targets : list node) (val : node) (lineno : Z)
| Expr (val : node)
| Name (id : string)
| Attribute (val : node) (attr : string)
| Constant (c : constant)
| List_ (elts : list node)
| Dict_ (keys : list (option node)) (values : list node)
| Tuple (elts : list node)
| Arguments (a : arguments_ node)
| Arg (a : arg_ node)
| Alias (a : alias)
| Other (kind : string) (children : list node).

Definition arguments : Type := arguments_ node.

(** The nodes of a list field: [None] items are skipped. *)
Definition some_nodes {A} (l : list (option A)) : list A :=
  flat_map (fun o => match o with Some x => [x] | None => [] end) l.

Definition opt_node {A} (o : option A) : list A :=
  match o with Some x => [x] | None => [] end.

(** [ast.iter_child_nodes]: the nodes of each field, in field order. *)
Definition iter_child_nodes (n : node) : list node :=
  match n with
  | Module body => body
  | FunctionDef _ a body decs ret _
  | AsyncFunctionDef _ a body decs ret _ =>
      Arguments a :: body ++ decs ++ opt_node ret
  | ClassDef _ bases kws body decs _ => bases ++ kws ++ body ++ decs
  | Import names _ => map Alias names
  | ImportFrom _ names _ _ => map Alias names
  | Assign targets v _ => targets ++ [v]
  | Expr v => [v]
  | Name _ => []
  | Attribute v _ => [v]
  | Constant _ => []
  | List_ elts => elts
  | Dict_ ks vs => some_nodes ks ++ vs
  | Tuple elts => elts
  | Arguments a =>
      map (@Arg) (posonlyargs a) ++ map (@Arg) (args a)
        ++ map (@Arg) (opt_node (vararg a)) ++ map (@Arg) (kwonlyargs a)
        ++ some_nodes (kw_defaults a) ++ map (@Arg) (opt_node (kwarg a))
        ++ defaults a
  | Arg a => opt_node (annotation a)
  | Alias _ => []
  | Other _ children => children
  end.

(** Every node of a tree, the root first (depth first). This is what
    "anywhere in the tree" means; [walk] below is how the program visits it. *)
Fixpoint subnodes (n : node) : list node :=
  let list_sub := fun l => flat_map subnodes l in
  let opt_sub := fun o => match o with Some x => subnodes x | None => [] end in
  let arg_sub := fun (x : arg_ node) => Arg x :: opt_sub (annotation x) in
  let optarg_sub := fun o => match o with Some x => arg_sub x | None => [] end in
  let args_sub := fun (a : arguments_ node) =>
    Arguments a ::
      flat_map arg_sub (posonlyargs a) ++ flat_map arg_sub (args a)
      ++ optarg_sub (vararg a) ++ flat_map arg_sub (kwonlyargs a)
      ++ flat_map opt_sub (kw_defaults a) ++ optarg_sub (kwarg a)
      ++ list_sub (defaults a) in
  match n with
  | Module body => n :: list_sub body
  | FunctionDef _ a body decs ret _
  | AsyncFunctionDef _ a body decs ret _ =>
      n :: args_sub a ++ list_sub body ++ list_sub decs ++ opt_sub ret
  | ClassDef _ bases kws body decs _ =>
      n :: list_sub bases ++ list_sub kws ++ list_sub body ++ list_sub decs
  | Import names _ => n :: map Alias names
  | ImportFrom _ names _ _ => n :: map Alias names
  | Assign targets v _ => n :: list_sub targets ++ subnodes v
  | Expr v => n :: subnodes v
  | Name _ => [n]
  | Attribute v _ => n :: subnodes v
  | Constant _ => [n]
  | List_ elts => n :: list_sub elts
  | Dict_ ks vs => n :: flat_map opt_sub ks ++ list_sub vs
  | Tuple elts => n :: list_sub elts
  | Arguments a => args_sub a
  | Arg x => arg_sub x
  | Alias _ => [n]
  | Other _ children => n :: list_sub children
  end.

(** The number of nodes of a tree. *)
Definition node_size (n : node) : nat := List.length (subnodes n).

(** [ast.walk]: a queue of nodes still to visit; each node taken from the
    front is yielded and its children are put at the back. The loop runs at
    most once per node of the tree, which is the fuel. *)
Fixpoint walk_loop (fuel : nat) (todo : list node) : list node :=
  match fuel with
  | O => []
  | S fuel' =>
      match todo with
      | [] => []
      | n :: rest => n :: walk_loop fuel' (rest ++ iter_child_nodes n)
      end
  end.

Definition walk (n : node) : list node := walk_loop (node_size n) [n].

(** [isinstance] tests *)
Definition is_FunctionDef (n : node) : bool :=
  match n with FunctionDef _ _ _ _ _ _ => true | _ => false end.

Definition is_AsyncFunctionDef (n : node) : bool :=
  match n with AsyncFunctionDef _ _ _ _ _ _ => true | _ => false end.

Definition is_ClassDef (n : node) : bool :=
  match n with ClassDef _ _ _ _ _ _ => true | _ => false end.

(** ** Strings *)

Definition is_ascii_upper (c : ascii) : bool :=
  let k := nat_of_ascii c in (65 <=? k)%nat && (k <=? 90)%nat.

Definition is_ascii_lower (c : ascii) : bool :=
  let k := nat_of_ascii c in (97 <=? k)%nat && (k <=? 122)%nat.

(** A string of ASCII characters only. Strings are sequences of bytes; a
    character beyond ASCII is the bytes of its UTF-8 encoding, all of them
    above 127. *)
Definition is_ascii (s : string) : bool :=
  forallb (fun c => (nat_of_ascii c <? 128)%nat) (list_ascii_of_string s).

(** [str.isupper] on an ASCII string: no cased character is lower-case and
    there is at least one cased character; the cased characters of ASCII are
    the letters. *)
Definition isupper_ascii (s : string) : bool :=
  let cs := list_ascii_of_string s in
  negb (existsb is_ascii_lower cs) && existsb is_ascii_upper cs.

(** [s.startswith(p)] *)
Definition startswith (s p : string) : bool := String.prefix p s.

(** [list(enumerate(l))] *)
Fixpoint enumerate_from {X} (i : Z) (l : list X) : list (Z * X) :=
  match l with
  | [] => []
  | x :: rest => (i, x) :: enumerate_from (i + 1) rest
  end.

Definition enumerate {X} (l : list X) : list (Z * X) := enumerate_from 0 l.

Definition len {X} (l : list X) : Z := Z.of_nat (List.length l).

(** [l[i]]: a negative index counts from the end, an index outside the list
    raises [IndexError]. *)
Definition list_getitem {X} (l : list X) (i : Z) : result X :=
  let j := if i <? 0 then i + len l else i in
  if j <? 0 then Raise (mk_exn IndexError "list index out of range")
  else match nth_error l (Z.to_nat j) with
       | Some x => Ok x
       | None => Raise (mk_exn IndexError "list index out of range")
       end.

(** ** The Python runtime the extractor calls

    [repr] and [str] on literal values, [ast.dump] and [inspect.cleandoc]
    are library code; the extractor only passes their results on. The
    functions here are what these calls return. A call can also stop with an
    exception ([repr] and [str] raise [ValueError] on an integer beyond the
    digit limit of the conversion, [ast.dump] raises [RecursionError] on a
    deep tree); when that happens is [runtime_error] of the world below,
    which [extract_from_file] consults inside its [try].

    [unicode_isupper] is [str.isupper] on a string with characters beyond
    ASCII, where the answer comes from the Unicode database. *)
Class PyLib : Type := {
  py_repr : constant -> string;
  py_str : constant -> string;
  ast_dump : node -> string;
  inspect_cleandoc : string -> string;
  unicode_isupper : string -> bool
}.

(** [str.isupper] *)
Definition isupper `{PyLib} (s : string) : bool :=
  if is_ascii s then isupper_ascii s else unicode_isupper s.

Definition attribute_error (what : string) : exn :=
  mk_exn AttributeError ("object has no attribute " ++ what).

(** [ast.get_docstring(node)] with [clean=True]. *)
Definition docstring_of_body `{PyLib} (body : list node) : option string :=
  match body with
  | Expr (Constant (CStr text)) :: _ => Some (inspect_cleandoc text)
  | _ => None
  end.

Definition get_docstring `{PyLib} (n : node) : result (option string) :=
  match n with
  | Module body
  | FunctionDef _ _ body _ _ _
  | AsyncFunctionDef _ _ body _ _ _
  | ClassDef _ _ _ body _ _ => Ok (docstring_of_body body)
  | _ => Raise (mk_exn TypeError "node can't have docstrings")
  end.

(** [node.body] *)
Definition body_of (n : node) : result (list node) :=
  match n with
  | Module body
  | FunctionDef _ _ body _ _ _
  | AsyncFunctionDef _ _ body _ _ _
  | ClassDef _ _ _ body _ _ => Ok body
  | _ => Raise (attribute_error "body")
  end.

(** ** [PythonDocumentationExtractor] *)

Section Extractor.
Context {lib : PyLib}.

(** [_get_name]: the string the method returns. The method calls itself
    once for each level of an attribute chain, and the interpreter stops a
    chain that is deeper than its recursion limit allows with
    [RecursionError]; that, too, is [runtime_error] of the world below. *)
Fixpoint _get_name (n : node) : string :=
  match n with
  | Name id => id
  | Attribute v attr => _get_name v ++ "." ++ attr
  | Constant c => py_str c
  | _ => ast_dump n
  end.

(** [_get_annotation] *)
Definition _get_annotation (annotation : option node) : option string :=
  match annotation with
  | None => None
  | Some n => Some (_get_name n)
  end.

(** [_get_return_annotation]: the [returns] field of the definition. *)
Definition _get_return_annotation (returns : option node) : option string :=
  match returns with
  | Some n => Some (_get_name n)
  | None => None
  end.

(** [_get_value_repr] *)
Definition _get_value_repr (n : node) : string :=
  match n with
  | Constant c => py_repr c
  | Name id => id
  | List_ _ => "[...]"
  | Dict_ _ _ => "{...}"
  | _ => ast_dump n
  end.

(** [_get_default_value] *)
Definition _get_default_value (n : node) : string := _get_value_repr n.

(** The body of the loop over [enumerate(args.args)] in
    [_extract_arguments]: the entry of the [i]-th plain parameter. *)
Definition regular_argument (a : arguments) (i : Z) (x : arg_ node) : result value :=
  let has_default := len (args a) - len (defaults a) <=? i in
  let arg_info :=
    [("name", VStr (arg x));
     ("type", opt_str (_get_annotation (annotation x)));
     ("has_default", VBool has_default);
     ("default", VNone)] in
  arg_info <-
    (if has_default then
       let default_idx := i - (len (args a) - len (defaults a)) in
       if 0 <=? default_idx then
         d <- list_getitem (defaults a) default_idx ;;
         Ok (dict_set "default" (VStr (_get_default_value d)) arg_info)
       else Ok arg_info
     else Ok arg_info) ;;
  Ok (VDict arg_info).

Definition vararg_entry (v : arg_ node) : value :=
  VDict [("name", VStr ("*" ++ arg v));
         ("type", opt_str (_get_annotation (annotation v)));
         ("is_vararg", VBool true)].

Definition kwarg_entry (k : arg_ node) : value :=
  VDict [("name", VStr ("**" ++ arg k));
         ("type", opt_str (_get_annotation (annotation k)));
         ("is_kwarg", VBool true)].

(** [_extract_arguments] *)
Definition _extract_arguments (a : arguments) : result (list value) :=
  arguments <-
    for_each (enumerate (args a)) []
      (fun arguments ix =>
         arg_info <- regular_argument a (fst ix) (snd ix) ;;
         Ok (arguments ++ [arg_info])) ;;
  let arguments :=
    match vararg a with
    | Some v => arguments ++ [vararg_entry v]
    | None => arguments
    end in
  let arguments :=
    match kwarg a with
    | Some k => arguments ++ [kwarg_entry k]
    | None => arguments
    end in
  Ok arguments.

Definition decorator_names (decs : list node) : value :=
  VList (map (fun dec => VStr (_get_name dec)) decs).

(** [_extract_function_info]: [node] is a (possibly async) function
    definition; any other node has none of the attributes read here. *)
Definition _extract_function_info (n : node) (is_method : bool) : result value :=
  match n with
  | FunctionDef name a _ decs ret ln
  | AsyncFunctionDef name a _ decs ret ln =>
      args_info <- _extract_arguments a ;;
      docstring <- get_docstring n ;;
      let func_info :=
        [("name", VStr name);
         ("docstring", opt_str docstring);
         ("line_number", VInt ln);
         ("arguments", VList args_info);
         ("decorators", decorator_names decs);
         ("is_async", VBool (is_AsyncFunctionDef n));
         ("is_method", VBool is_method);
         ("returns", opt_str (_get_return_annotation ret))] in
      let func_info :=
        if is_method then
          let func_info :=
            dict_set "is_classmethod"
              (VBool (existsb (fun dec => String.eqb (_get_name dec) "classmethod") decs))
              func_info in
          let func_info :=
            dict_set "is_staticmethod"
              (VBool (existsb (fun dec => String.eqb (_get_name dec) "staticmethod") decs))
              func_info in
          dict_set "is_private" (VBool (startswith name "_")) func_info
        else func_info in
      Ok (VDict func_info)
  | _ => Raise (attribute_error "args")
  end.

(** [_extract_functions] *)
Definition _extract_functions (tree : node) : result (list value) :=
  body <- body_of tree ;;
  for_each body []
    (fun functions n =>
       if is_FunctionDef n then
         func_info <- _extract_function_info n false ;;
         Ok (functions ++ [func_info])
       else Ok functions).

(** [_extract_methods] *)
Definition _extract_methods (class_node : node) : result (list value) :=
  body <- body_of class_node ;;
  for_each body []
    (fun methods n =>
       if is_FunctionDef n then
         method_info <- _extract_function_info n true ;;
         Ok (methods ++ [method_info])
       else Ok methods).

(** The test on one decorator in [_extract_properties]. *)
Definition is_property_decorator (decorator : node) : bool :=
  match decorator with
  | Name id => String.eqb id "property"
  | Attribute _ attr => String.eqb attr "property"
  | _ => false
  end.

(** The loop over [node.decorator_list] in [_extract_properties]; it stops
    at the first property decorator ([break]). *)
Fixpoint scan_decorators (n : node) (name : string) (ln : Z) (decs : list node)
    (properties : list value) : result (list value) :=
  match decs with
  | [] => Ok properties
  | decorator :: rest =>
      if is_property_decorator decorator then
        docstring <- get_docstring n ;;
        let prop_info :=
          VDict [("name", VStr name);
                 ("docstring", opt_str docstring);
                 ("line_number", VInt ln);
                 ("type", VStr "property")] in
        Ok (properties ++ [prop_info])
      else scan_decorators n name ln rest properties
  end.

(** [_extract_properties] *)
Definition _extract_properties (class_node : node) : result (list value) :=
  body <- body_of class_node ;;
  for_each body []
    (fun properties n =>
       match n with
       | FunctionDef name _ _ decs _ ln => scan_decorators n name ln decs properties
       | _ => Ok properties
       end).

(** [_extract_classes] *)
Definition _extract_classes (tree : node) : result (list value) :=
  for_each (walk tree) []
    (fun classes n =>
       match n with
       | ClassDef name bases _ _ decs ln =>
           docstring <- get_docstring n ;;
           methods <- _extract_methods n ;;
           properties <- _extract_properties n ;;
           let class_info :=
             VDict [("name", VStr name);
                    ("docstring", opt_str docstring);
                    ("line_number", VInt ln);
                    ("bases", VList (map (fun base => VStr (_get_name base)) bases));
                    ("decorators", decorator_names decs);
                    ("methods", VList methods);
                    ("properties", VList properties)] in
           Ok (classes ++ [class_info])
       | _ => Ok classes
       end).

(** [_extract_imports] *)
Definition _extract_imports (tree : node) : list value :=
  fold_left
    (fun imports n =>
       match n with
       | Import names _ =>
           fold_left
             (fun imports al =>
                imports ++ [VDict [("type", VStr "import");
                                   ("module", VStr (alias_name al));
                                   ("alias", opt_str (asname al))]])
             names imports
       | ImportFrom module names _ _ =>
           fold_left
             (fun imports al =>
                imports ++ [VDict [("type", VStr "from_import");
                                   ("module", VStr (match module with
                                                    | Some m => if String.eqb m "" then "" else m
                                                    | None => ""
                                                    end));
                                   ("name", VStr (alias_name al));
                                   ("alias", opt_str (asname al))]])
             names imports
       | _ => imports
       end)
    (walk tree) [].

(** [_extract_constants] *)
Definition _extract_constants (tree : node) : result (list value) :=
  body <- body_of tree ;;
  Ok (fold_left
        (fun constants n =>
           match n with
           | Assign targets v ln =>
               fold_left
                 (fun constants target =>
                    match target with
                    | Name id =>
                        if isupper id then
                          constants ++ [VDict [("name", VStr id);
                                               ("line_number", VInt ln);
                                               ("value", VStr (_get_value_repr v))]]
                        else constants
                    | _ => constants
                    end)
                 targets constants
           | _ => constants
           end)
        body []).

End Extractor.

(** ** The world around the program *)

(** A compiled [pathspec.PathSpec]: the object and its [match_file]. *)
Record PathSpec : Type := mk_PathSpec { match_file : string -> bool }.

(** A [git.Commit], with the attributes [get_commit_info] reads. [stats] is
    computed by git when it is read, so reading it may fail. *)
Record Commit : Type := mk_Commit {
  hexsha : string;
  message : string;
  author : string;
  committed_datetime : string;
  stats_files : result (list string)
}.

(** A [git.Repo]: [repo.commit(rev)] and [repo.head.commit]. *)
Record Repo : Type := mk_Repo {
  repo_commit : string -> result Commit;
  head_commit : result Commit
}.

(** What [os.walk] lists for a directory: its files and its sub-directories. *)
Inductive dirtree : Type :=
| Dir (files : list string) (subdirs : list (string * dirtree)).

(** What the program reads and cannot change: the source files, the git
    repository, the clock, and the library calls on them. [ast.parse]
    returns an [ast.Module]; [ast_parse] gives its body.

    [runtime_error tree] is the exception, if any, with which the Python
    runtime stops the extractors while they work on [tree]: [RecursionError]
    when [_get_name] or [ast.dump] nests deeper than the interpreter's
    recursion limit leaves room for, [ValueError] when [repr] or [str] meets
    an integer beyond the digit limit of the conversion, [MemoryError]. The
    extractors of the section above give what the methods return when the
    runtime lets them finish. *)
Record Env : Type := mk_Env {
  git_Repo : result Repo;
  tree_here : dirtree;
  path_exists : string -> bool;
  read_text : string -> result string;
  ast_parse : string -> string -> result (list node);
  str_splitlines : string -> list string;
  str_strip : string -> string;
  PathSpec_from_lines : list string -> result PathSpec;
  clock : nat -> string;
  cwd_name : string;
  mkdir_error : string -> option exn;
  open_error : string -> option exn;
  runtime_error : node -> option exn
}.

(** What the program changes: the console, the snapshot directory, the
    number of clock readings so far, and the extractor's [current_file]. *)
Record State : Type := mk_State {
  console : list string;
  made_dirs : list string;
  written : list (string * value);
  ticks : nat;
  current_file : option string
}.

Definition initial_state : State := mk_State [] [] [] 0 None.

Definition IO (A : Type) : Type := State -> result A * State.

Definition ret {A} (a : A) : IO A := fun s => (Ok a, s).

Definition raise {A} (e : exn) : IO A := fun s => (Raise e, s).

Definition lift {A} (r : result A) : IO A := fun s => (r, s).

Definition io_bind {A B} (m : IO A) (k : A -> IO B) : IO B :=
  fun s => match m s with
           | (Ok a, s') => k a s'
           | (Raise e, s') => (Raise e, s')
           end.

Notation "x <~ m ;; k" := (io_bind m (fun x => k))
  (at level 61, m at next level, right associativity).
Notation "m ;;; k" := (io_bind m (fun _ => k))
  (at level 61, right associativity).

(** [try: m except Exception as e: handler e]; every exception class of the
    model derives from [Exception]. *)
Definition try_except {A} (m : IO A) (handler : exn -> IO A) : IO A :=
  fun s => match m s with
           | (Ok a, s') => (Ok a, s')
           | (Raise e, s') => handler e s'
           end.

(** [try: m except cls: handler]; another class goes on up. *)
Definition exn_class_eqb (c1 c2 : exn_class) : bool :=
  match c1, c2 with
  | OSError, OSError | UnicodeDecodeError, UnicodeDecodeError
  | SyntaxError, SyntaxError | ValueError, ValueError | IndexError, IndexError
  | TypeError, TypeError | AttributeError, AttributeError
  | RecursionError, RecursionError | MemoryError, MemoryError
  | KeyError, KeyError
  | BadName, BadName | InvalidGitRepositoryError, InvalidGitRepositoryError
  | NoSuchPathError, NoSuchPathError | GitCommandError, GitCommandError => true
  | _, _ => false
  end.

Definition try_except_class {A} (m : IO A) (cls : exn_class) (handler : IO A) : IO A :=
  fun s => match m s with
           | (Ok a, s') => (Ok a, s')
           | (Raise e, s') =>
               if exn_class_eqb (exn_kind e) cls then handler s' else (Raise e, s')
           end.

(** A [for] loop in [IO]. *)
Fixpoint for_io {X S} (l : list X) (acc : S) (body : S -> X -> IO S) : IO S :=
  match l with
  | [] => ret acc
  | x :: rest => acc' <~ body acc x ;; for_io rest acc' body
  end.

(** [click.echo] *)
Definition echo (msg : string) : IO unit :=
  fun s => (Ok tt, mk_State (console s ++ [msg]) (made_dirs s) (written s)
                     (ticks s) (current_file s)).

(** [d[k]] on a dict, [KeyError] for a missing key. *)
Definition getitem (v : value) (k : string) : result value :=
  match field k v with
  | Some x => Ok x
  | None => Raise (mk_exn KeyError k)
  end.

(** A value inside an f-string. *)
Definition format_value (v : value) : string :=
  match v with
  | VStr s => s
  | VNone => "None"
  | VBool true => "True"
  | VBool false => "False"
  | _ => "..."
  end.

(** ** Paths and numbers *)

(** [str(n)] for a count *)
Definition string_of_nat (n : nat) : string :=
  DecimalString.NilZero.string_of_uint (Nat.to_uint n).


(** [s.endswith(suffix)] *)
Definition endswith (s suffix : string) : bool :=
  let n := String.length s in
  let k := String.length suffix in
  (k <=? n)%nat && String.eqb (substring (n - k) k s) suffix.

(** [s.split("/")] *)
Fixpoint split_slash (s : string) : list string :=
  match s with
  | EmptyString => [""]
  | String c rest =>
      if Ascii.eqb c "/" then "" :: split_slash rest
      else match split_slash rest with
           | [] => [String c ""]
           | seg :: segs => String c seg :: segs
           end
  end.

(** [Path(p).parts] for a relative path: empty and [.] segments vanish. *)
Definition path_parts (p : string) : list string :=
  filter (fun seg => negb (String.eqb seg "" || String.eqb seg ".")) (split_slash p).

(** [str(Path(p).parent)] for a relative path *)
Definition path_parent (p : string) : string :=
  match removelast (path_parts p) with
  | [] => "."
  | segs => String.concat "/" segs
  end.

(** [os.path.join(root, name)] for a plain [name] *)
Definition os_path_join (root name : string) : string := root ++ "/" ++ name.

(** [os.path.relpath(p)] for a path made by [os.walk(".")]: the leading
    [./] goes. *)
Definition os_path_relpath (p : string) : string :=
  if String.prefix "./" p then substring 2 (String.length p - 2) p else p.

(** ** [docshadow/utils.py] *)

Section Utils.
Variable env : Env.

(** [get_git_repo] *)
Definition get_git_repo : IO (option Repo) :=
  try_except_class
    (repo <~ lift (git_Repo env) ;; ret (Some repo))
    InvalidGitRepositoryError
    (ret None).

(** [load_docignore] *)
Definition load_docignore (docignore_path : string) : IO (option PathSpec) :=
  if negb (path_exists env docignore_path) then ret None
  else
    try_except
      (text <~ lift (read_text env docignore_path) ;;
       let patterns := str_splitlines env text in
       spec <~ lift (PathSpec_from_lines env patterns) ;;
       ret (Some spec))
      (fun e =>
         echo ("⚠️  Warning: Could not load " ++ docignore_path ++ ": " ++ exn_msg e) ;;;
         ret None).

(** [should_ignore_file] *)
Definition should_ignore_file (file_path : string) (docignore_spec : option PathSpec) : bool :=
  match docignore_spec with
  | None => false
  | Some spec => match_file spec file_path
  end.

(** [get_python_files]: [os.walk] from [root] over the listing [t], top
    down; hidden directories are removed from [dirs] before the walk goes
    into them. *)
Fixpoint python_files_under (root : string) (t : dirtree)
    (docignore_spec : option PathSpec) : list string :=
  match t with
  | Dir files dirs =>
      let here :=
        fold_left
          (fun python_files file =>
             if endswith file ".py" then
               let file_path := os_path_join root file in
               let relative_path := os_path_relpath file_path in
               if negb (should_ignore_file relative_path docignore_spec)
               then python_files ++ [relative_path]
               else python_files
             else python_files)
          files [] in
      let below :=
        (fix go (ds : list (string * dirtree)) : list string :=
           match ds with
           | [] => []
           | (d, sub) :: rest =>
               (if negb (startswith d ".")
                then python_files_under (os_path_join root d) sub docignore_spec
                else [])
               ++ go rest
           end) dirs in
      here ++ below
  end.

Definition get_python_files (docignore_spec : option PathSpec) : list string :=
  python_files_under "." (tree_here env) docignore_spec.

(** [ensure_directory] *)
Definition ensure_directory (path : string) : IO unit :=
  fun s =>
    match mkdir_error env path with
    | Some e => (Raise e, s)
    | None => (Ok tt, mk_State (console s) (made_dirs s ++ [path]) (written s)
                        (ticks s) (current_file s))
    end.

(** [get_commit_info] *)
Definition get_commit_info (repo : Repo) (commit_hash : option string) : IO (option value) :=
  let truthy := match commit_hash with
                | Some h => negb (String.eqb h "")
                | None => false
                end in
  found <~
    (if truthy then
       try_except_class
         (c <~ lift (repo_commit repo (match commit_hash with Some h => h | None => "" end)) ;;
          ret (Some c))
         BadName
         (echo ("❌ Error: Commit "
                  ++ match commit_hash with Some h => h | None => "" end
                  ++ " not found.") ;;;
          ret None)
     else c <~ lift (head_commit repo) ;; ret (Some c)) ;;
  match found with
  | None => ret None
  | Some commit =>
      files_changed <~
        lift (match stats_files commit with
              | Ok fs => Ok fs
              | Raise e =>
                  if exn_class_eqb (exn_kind e) AttributeError then Ok []
                  else Raise e
              end) ;;
      ret (Some (VDict [("hash", VStr (hexsha commit));
                        ("short_hash", VStr (substring 0 7 (hexsha commit)));
                        ("message", VStr (str_strip env (message commit)));
                        ("author", VStr (author commit));
                        ("date", VStr (committed_datetime commit));
                        ("files_changed", VList (map VStr files_changed))]))
  end.

End Utils.

(** ** [docshadow/generator.py]: one file, and the whole snapshot *)

Section Generator.
Context {lib : PyLib}.
Variable env : Env.

(** [datetime.now().isoformat()] *)
Definition now_isoformat : IO string :=
  fun s => (Ok (clock env (ticks s)),
            mk_State (console s) (made_dirs s) (written s) (S (ticks s)) (current_file s)).

Definition set_current_file (file_path : string) : IO unit :=
  fun s => (Ok tt, mk_State (console s) (made_dirs s) (written s) (ticks s) (Some file_path)).

(** [with open(path, "w") as f: json.dump(data, f, ...)] *)
Definition write_json (path : string) (data : value) : IO unit :=
  fun s =>
    match open_error env path with
    | Some e => (Raise e, s)
    | None => (Ok tt, mk_State (console s) (made_dirs s) (written s ++ [(path, data)])
                        (ticks s) (current_file s))
    end.

(** The runtime stops the extractors on [tree] with the exception that
    [runtime_error] names, or lets them run. *)
Definition interrupted (tree : node) : IO unit :=
  match runtime_error env tree with
  | Some e => raise e
  | None => ret tt
  end.

(** [extract_from_file]. Everything between [ast.parse] and the [return]
    is inside the [try]: an exception of the runtime during the extraction
    ends in the handler like a failure to read or to parse. *)
Definition extract_from_file (file_path : string) : IO value :=
  set_current_file file_path ;;;
  try_except
    (source_code <~ lift (read_text env file_path) ;;
     body <~ lift (ast_parse env source_code file_path) ;;
     let tree := Module body in
     interrupted tree ;;;
     module_docstring <~ lift (get_docstring tree) ;;
     let imports := _extract_imports tree in
     classes <~ lift (_extract_classes tree) ;;
     functions <~ lift (_extract_functions tree) ;;
     constants <~ lift (_extract_constants tree) ;;
     generated_at <~ now_isoformat ;;
     let doc_data :=
       VDict [("path", VStr file_path);
              ("module_docstring", opt_str module_docstring);
              ("imports", VList imports);
              ("classes", VList classes);
              ("functions", VList functions);
              ("constants", VList constants);
              ("generated_at", VStr generated_at)] in
     ret doc_data)
    (fun e =>
       echo ("⚠️  Warning: Could not parse " ++ file_path ++ ": " ++ exn_msg e) ;;;
       generated_at <~ now_isoformat ;;
       ret (VDict [("path", VStr file_path);
                   ("error", VStr (exn_msg e));
                   ("generated_at", VStr generated_at)])).

(** The walk down [structure] for one file in [_build_project_structure].
    [current] is the dict the loop stands in; the dict one level down is
    the same object as the entry of [current], so what is put into it shows
    in [current]: the entry is written back at its position. A string where
    a dict is expected raises [TypeError]. *)
Fixpoint add_file (parts : list string) (leaf : string) (current : dict) : result dict :=
  match parts with
  | [] => Raise (mk_exn IndexError "tuple index out of range")
  | [filename] => Ok (dict_set filename (VStr leaf) current)
  | part :: rest =>
      let current := if dict_has part current then current
                     else dict_set part (VDict []) current in
      match dict_get part current with
      | Some (VDict below) =>
          below' <- add_file rest leaf below ;;
          Ok (dict_set part (VDict below') current)
      | _ => Raise (mk_exn TypeError "string indices must be integers")
      end
  end.

(** [_build_project_structure] *)
Definition _build_project_structure (python_files : list string) : result value :=
  structure <-
    for_each python_files []
      (fun structure py_file =>
         add_file (path_parts py_file) (py_file ++ ".json") structure) ;;
  Ok (VDict structure).

(** [generate_documentation] *)
Definition generate_documentation (commit_hash : option string) : IO bool :=
  try_except
    (repo <~ get_git_repo env ;;
     match repo with
     | None => echo "❌ Error: Not in a Git repository." ;;; ret false
     | Some repo =>
         commit_info <~ get_commit_info env repo commit_hash ;;
         match commit_info with
         | None => ret false
         | Some commit_info =>
             short_hash <~ lift (getitem commit_info "short_hash") ;;
             echo ("📝 Generating documentation for commit "
                     ++ format_value short_hash ++ "...") ;;;
             docignore_spec <~ load_docignore env ".docignore" ;;
             let python_files := get_python_files env docignore_spec in
             match python_files with
             | [] => echo "⚠️  No Python files found to document." ;;; ret true
             | _ =>
                 ensure_directory env ".docshadow" ;;;
                 documented_files <~
                   for_io python_files []
                     (fun documented_files py_file =>
                        echo ("  📄 Processing " ++ py_file ++ "...") ;;;
                        doc_data <~ extract_from_file py_file ;;
                        let output_path := (".docshadow/" ++ py_file ++ ".json")%string in
                        ensure_directory env (path_parent output_path) ;;;
                        write_json output_path doc_data ;;;
                        ret (documented_files ++ [(py_file ++ ".json")%string])) ;;
                 hash <~ lift (getitem commit_info "hash") ;;
                 short_commit <~ lift (getitem commit_info "short_hash") ;;
                 date <~ lift (getitem commit_info "date") ;;
                 msg <~ lift (getitem commit_info "message") ;;
                 author <~ lift (getitem commit_info "author") ;;
                 let index_data :=
                   VDict [("commit", hash);
                          ("short_commit", short_commit);
                          ("date", date);
                          ("message", msg);
                          ("author", author);
                          ("files", VList (map VStr documented_files))] in
                 write_json ".docshadow/index.json" index_data ;;;
                 project_structure <~ lift (_build_project_structure python_files) ;;
                 generated_at <~ now_isoformat ;;
                 hash' <~ lift (getitem commit_info "hash") ;;
                 let docshadow_data :=
                   VDict [("project", VStr (cwd_name env));
                          ("generated_at", VStr generated_at);
                          ("commit", hash');
                          ("structure", project_structure)] in
                 write_json ".docshadow/docshadow.json" docshadow_data ;;;
                 echo "✅ Documentation generated successfully!" ;;;
                 echo ("   📁 " ++ string_of_nat (List.length documented_files)
                         ++ " files documented") ;;;
                 echo "   📋 Index: .docshadow/index.json" ;;;
                 echo "   🗺️  Structure: .docshadow/docshadow.json" ;;;
                 ret true
             end
         end
     end)
    (fun e => echo ("❌ Error generating documentation: " ++ exn_msg e) ;;; ret false).

End Generator.

(** ** Sample inputs

    A runtime whose [repr] and [str] print literals the way Python does for
    integers, booleans, [None] and quote-free strings, and a few trees as
    [ast.parse] builds them. *)

Definition sample_repr (c : constant) : string :=
  match c with
  | CNone => "None"
  | CBool true => "True"
  | CBool false => "False"
  | CInt z => NilZero.string_of_int (Z.to_int z)
  | CStr s => "'" ++ s ++ "'"
  | CBytes s => "b'" ++ s ++ "'"
  | CFloat l => l
  | CComplex l => l
  | CEllipsis => "Ellipsis"
  end.

Definition sample_str (c : constant) : string :=
  match c with
  | CStr s => s
  | _ => sample_repr c
  end.

(** The letters of the Latin-1 supplement, by code point: [U+00C0] to
    [U+00DE] are upper-case and [U+00DF] to [U+00FF] lower-case, the signs
    [U+00D7] and [U+00F7] apart; [U+00AA], [U+00B5] and [U+00BA] count as
    lower-case. *)
Definition is_latin1_upper (cp : nat) : bool :=
  ((192 <=? cp) && (cp <=? 222) && negb (cp =? 215))%nat.

Definition is_latin1_lower (cp : nat) : bool :=
  (((223 <=? cp) && (cp <=? 255) && negb (cp =? 247))
   || (cp =? 170) || (cp =? 181) || (cp =? 186))%nat.

(** One byte of a UTF-8 string: [lead] is the first byte of a two-byte
    character whose second byte comes next ([194] for [U+0080] to [U+00BF],
    [195] for [U+00C0] to [U+00FF]). *)
Definition sample_case_step (st : nat * bool * bool) (c : ascii) : nat * bool * bool :=
  let '(lead, upper, lower) := st in
  let byte := nat_of_ascii c in
  if ((lead =? 194) || (lead =? 195))%nat then
    let cp := if (lead =? 195)%nat then (byte + 64)%nat else byte in
    (O, upper || is_latin1_upper cp, lower || is_latin1_lower cp)
  else if ((byte =? 194) || (byte =? 195))%nat then (byte, upper, lower)
  else (O, upper || is_ascii_upper c, lower || is_ascii_lower c).

(** [str.isupper] for ASCII and the Latin-1 supplement; the cased
    characters beyond them are not in this sample. *)
Definition sample_unicode_isupper (s : string) : bool :=
  let '(_, upper, lower) :=
    fold_left sample_case_step (list_ascii_of_string s) (O, false, false) in
  negb lower && upper.

Definition sample_lib : PyLib :=
  {| py_repr := sample_repr;
     py_str := sample_str;
     ast_dump := fun _ => "<ast.dump>";
     inspect_cleandoc := fun s => s;
     unicode_isupper := sample_unicode_isupper |}.

Definition no_args : arguments := mk_arguments [] [] None [] [] None [].

Definition plain (name : string) : arg_ node := mk_arg name None.

Definition pass_stmt : node := Other "Pass" [].

(** [MAX = 1] *)
Definition assign_MAX : node := Assign [Name "MAX"] (Constant (CInt 1)) 1.

(** [MAX = MIN = 1]: two targets *)
Definition assign_chain : node :=
  Assign [Name "MAX"; Name "MIN"] (Constant (CInt 1)) 1.

(** [MAX, MIN = 1, 2]: one target, a tuple *)
Definition assign_tuple : node :=
  Assign [Tuple [Name "MAX"; Name "MIN"]]
         (Tuple [Constant (CInt 1); Constant (CInt 2)]) 1.

(** [max = 1] *)
Definition assign_lower : node := Assign [Name "max"] (Constant (CInt 1)) 1.

(** [def bar(self, x, y=1): pass] at line 3 *)
Definition def_bar : node :=
  FunctionDef "bar"
    (mk_arguments [] [plain "self"; plain "x"; plain "y"] None [] [] None
                  [Constant (CInt 1)])
    [pass_stmt] [] None 3.

(** [class Foo:] with a docstring and the method [bar] *)
Definition class_Foo : node :=
  ClassDef "Foo" [] [] [Expr (Constant (CStr "doc")); def_bar] [] 1.

(** ** What the loops compute, as single expressions

    Closed forms of the records the extractor builds; the properties below
    relate the loops of the program to them. *)

Section Records.
Context {lib : PyLib}.

(** The entry of the [i]-th plain parameter, as one expression. *)
Definition regular_entry (a : arguments) (i : Z) (x : arg_ node) : value :=
  let first_default := len (args a) - len (defaults a) in
  VDict [("name", VStr (arg x));
         ("type", opt_str (_get_annotation (annotation x)));
         ("has_default", VBool (first_default <=? i));
         ("default",
          if first_default <=? i then
            match nth_error (defaults a) (Z.to_nat (i - first_default)) with
            | Some d => VStr (_get_default_value d)
            | None => VNone
            end
          else VNone)].

(** The entries for [*args] and [**kwargs]. *)
Definition variadic_entries (a : arguments) : list value :=
  match vararg a with Some v => [vararg_entry v] | None => [] end
  ++ match kwarg a with Some k => [kwarg_entry k] | None => [] end.

(** The argument list of a function. *)
Definition arguments_record (a : arguments) : list value :=
  map (fun ix => regular_entry a (fst ix) (snd ix)) (enumerate (args a))
  ++ variadic_entries a.

(** The record of a function definition [n]. *)
Definition function_record (n : node) (is_method : bool) : value :=
  match n with
  | FunctionDef name a body decs ret ln
  | AsyncFunctionDef name a body decs ret ln =>
      VDict ([("name", VStr name);
              ("docstring", opt_str (docstring_of_body body));
              ("line_number", VInt ln);
              ("arguments", VList (arguments_record a));
              ("decorators", decorator_names decs);
              ("is_async", VBool (is_AsyncFunctionDef n));
              ("is_method", VBool is_method);
              ("returns", opt_str (_get_return_annotation ret))]
             ++ (if is_method then
                   [("is_classmethod",
                     VBool (existsb (fun dec => String.eqb (_get_name dec) "classmethod") decs));
                    ("is_staticmethod",
                     VBool (existsb (fun dec => String.eqb (_get_name dec) "staticmethod") decs));
                    ("is_private", VBool (startswith name "_"))]
                 else []))
  | _ => VNone
  end.

(** A [def] with a property decorator. *)
Definition is_property_method (n : node) : bool :=
  match n with
  | FunctionDef _ _ _ decs _ _ => existsb is_property_decorator decs
  | _ => false
  end.

(** The property record of the method [n]. *)
Definition property_record (n : node) : value :=
  match n with
  | FunctionDef name _ body _ _ ln =>
      VDict [("name", VStr name);
             ("docstring", opt_str (docstring_of_body body));
             ("line_number", VInt ln);
             ("type", VStr "property")]
  | _ => VNone
  end.

(** The record of a class definition [n]. *)
Definition class_record (n : node) : value :=
  match n with
  | ClassDef name bases _ body decs ln =>
      VDict [("name", VStr name);
             ("docstring", opt_str (docstring_of_body body));
             ("line_number", VInt ln);
             ("bases", VList (map (fun base => VStr (_get_name base)) bases));
             ("decorators", decorator_names decs);
             ("methods",
              VList (map (fun m => function_record m true) (filter is_FunctionDef body)));
             ("properties",
              VList (map property_record (filter is_property_method body)))]
  | _ => VNone
  end.

(** The constant records of one top-level statement. *)
Definition is_upper_name (target : node) : bool :=
  match target with
  | Name id => isupper id
  | _ => false
  end.

Definition constant_record (ln : Z) (v : node) (target : node) : value :=
  match target with
  | Name id => VDict [("name", VStr id);
                      ("line_number", VInt ln);
                      ("value", VStr (_get_value_repr v))]
  | _ => VNone
  end.

Definition constants_of_statement (n : node) : list value :=
  match n with
  | Assign targets v ln => map (constant_record ln v) (filter is_upper_name targets)
  | _ => []
  end.

End Records.

Definition def_ (name : string) (body : list node) (decorators : list node) (ln : Z) : node :=
  FunctionDef name no_args body decorators None ln.

Definition class_ (name : string) (body : list node) (ln : Z) : node :=
  ClassDef name [] [] body [] ln.

(** A module with a function [f] that holds a local function and a local
    class, a class [Outer] that holds a class and a method, and a coroutine
    [serve]. *)
Definition nested_module : node :=
  Module [def_ "f" [def_ "g" [pass_stmt] [] 2; class_ "Inner" [pass_stmt] 3] [] 1;
          class_ "Outer" [class_ "Nested" [pass_stmt] 5; def_ "m" [pass_stmt] [] 6] 4;
          AsyncFunctionDef "serve" no_args [pass_stmt] [] None 7].

(** A class with a property, a cached property and a plain method. *)
Definition class_with_properties : node :=
  class_ "Box"
    [def_ "size" [pass_stmt] [Name "property"] 2;
     def_ "area" [pass_stmt] [Attribute (Name "functools") "cached_property"] 4;
     def_ "volume" [pass_stmt] [Name "staticmethod"; Attribute (Name "builtins") "property"] 6;
     def_ "grow" [pass_stmt] [] 8] 1.

(** ** The calls into the runtime

    The nodes the extractors hand to [_get_name] and to [_get_value_repr]
    while they work on a module, in the order of the calls. *)

Inductive runtime_call : Type :=
| GetName (n : node)
| GetValueRepr (n : node).

Section Calls.
Context {lib : PyLib}.

(** [_get_annotation] calls [_get_name] unless there is no annotation. *)
Definition calls_of_annotation (annotation : option node) : list runtime_call :=
  map GetName (opt_node annotation).

(** [_extract_arguments]: for each plain parameter its annotation, then its
    default when it has one; then the annotations of [*args] and
    [**kwargs]. *)
Definition calls_of_arguments (a : arguments) : list runtime_call :=
  flat_map
    (fun ix : Z * arg_ node =>
       calls_of_annotation (annotation (snd ix))
       ++ (if len (args a) - len (defaults a) <=? fst ix then
             map GetValueRepr
               (opt_node (nth_error (defaults a)
                            (Z.to_nat (fst ix - (len (args a) - len (defaults a))))))
           else []))
    (enumerate (args a))
  ++ flat_map (fun v => calls_of_annotation (annotation v)) (opt_node (vararg a))
  ++ flat_map (fun k => calls_of_annotation (annotation k)) (opt_node (kwarg a)).

(** [_extract_function_info]: the arguments, the decorators, the return
    annotation. The two flags of a method call [_get_name] again, on
    decorators that have been through it. *)
Definition calls_of_function (n : node) : list runtime_call :=
  match n with
  | FunctionDef _ a _ decs ret _
  | AsyncFunctionDef _ a _ decs ret _ =>
      calls_of_arguments a ++ map GetName decs ++ map GetName (opt_node ret)
  | _ => []
  end.

(** One round of the loop of [_extract_classes]: the bases, the
    decorators, the methods. [_extract_properties] calls neither. *)
Definition calls_of_class (n : node) : list runtime_call :=
  match n with
  | ClassDef _ bases _ body decs _ =>
      map GetName bases ++ map GetName decs
      ++ flat_map calls_of_function (filter is_FunctionDef body)
  | _ => []
  end.

(** One round of the loop of [_extract_constants]: the assigned value, once
    for each target that gets a record. *)
Definition calls_of_statement (n : node) : list runtime_call :=
  match n with
  | Assign targets v _ => map (fun _ => GetValueRepr v) (filter is_upper_name targets)
  | _ => []
  end.

(** The extraction of [extract_from_file]: classes, functions, constants.
    [_extract_imports] and [ast.get_docstring] call neither. *)
Definition calls_of_module (tree : node) : list runtime_call :=
  match tree with
  | Module body =>
      flat_map calls_of_class (filter is_ClassDef (walk tree))
      ++ flat_map calls_of_function (filter is_FunctionDef body)
      ++ flat_map calls_of_statement body
  | _ => []
  end.

End Calls.

(** ** A sample runtime with the limits of CPython

    The interpreter allows 1000 nested calls, of which the sample leaves
    [sample_recursion_room] to [_get_name]; an integer of more than 4300
    decimal digits is not converted to a string. The sample does not bound
    the recursion of [ast.dump] itself. *)

Definition sample_recursion_room : nat := 990.

Definition sample_max_str_digits : nat := 4300.

Definition decimal_digits (z : Z) : nat := Decimal.nb_digits (N.to_uint (Z.abs_N z)).

Definition recursion_error : exn :=
  mk_exn RecursionError "maximum recursion depth exceeded".

Definition digits_error : exn :=
  mk_exn ValueError
    "Exceeds the limit (4300 digits) for integer string conversion; use sys.set_int_max_str_digits() to increase the limit".

(** [repr(c)] and [str(c)] *)
Definition conversion_error (c : constant) : option exn :=
  match c with
  | CInt z => if (sample_max_str_digits <? decimal_digits z)%nat
              then Some digits_error else None
  | _ => None
  end.

(** [ast.dump(n)] prints every constant of [n] with [repr]. *)
Definition dump_error (n : node) : option exn :=
  fold_right
    (fun m rest =>
       match m with
       | Constant c => match conversion_error c with Some e => Some e | None => rest end
       | _ => rest
       end)
    None (subnodes n).

(** [_get_name(n)] with [room] nested calls left. *)
Fixpoint get_name_error (room : nat) (n : node) : option exn :=
  match room with
  | O => Some recursion_error
  | S room' =>
      match n with
      | Name _ => None
      | Attribute v _ => get_name_error room' v
      | Constant c => conversion_error c
      | _ => dump_error n
      end
  end.

(** [_get_value_repr(n)] *)
Definition get_value_repr_error (n : node) : option exn :=
  match n with
  | Constant c => conversion_error c
  | Name _ | List_ _ | Dict_ _ _ => None
  | _ => dump_error n
  end.

Definition call_error (c : runtime_call) : option exn :=
  match c with
  | GetName n => get_name_error sample_recursion_room n
  | GetValueRepr n => get_value_repr_error n
  end.

(** The first call of the extraction that fails. *)
Definition sample_runtime_error (tree : node) : option exn :=
  fold_right
    (fun c rest => match call_error c with Some e => Some e | None => rest end)
    None (@calls_of_module sample_lib tree).

(** ** Sample world: a repository with one commit and one source file *)

Definition sample_commit : Commit :=
  mk_Commit "0123456789abcdef0123456789abcdef01234567" "first commit" "A. Dev"
            "2024-01-01T00:00:00+00:00" (Ok ["a.py"]).

Definition sample_repo : Repo :=
  mk_Repo (fun rev => Raise (mk_exn BadName ("Ref '" ++ rev ++ "' did not resolve to an object")))
          (Ok sample_commit).

(** [a.py] holds the class [Foo]; there is no [.docignore]. *)
Definition sample_env : Env :=
  mk_Env (Ok sample_repo)
         (Dir ["a.py"; "README.md"] [(".git", Dir ["hook.py"] [])])
         (fun _ => false)
         (fun path => if String.eqb path "a.py" then Ok "class Foo: ..."
                      else Raise (mk_exn OSError "No such file or directory"))
         (fun _ _ => Ok [class_Foo])
         (fun text => [text])
         (fun text => text)
         (fun _ => Ok (mk_PathSpec (fun _ => false)))
         (fun k => string_of_nat k)
         "project"
         (fun _ => None)
         (fun _ => None)
         sample_runtime_error.

(** The same place without a repository. *)
Definition sample_env_no_repo : Env :=
  mk_Env (Raise (mk_exn InvalidGitRepositoryError "."))
         (tree_here sample_env) (path_exists sample_env) (read_text sample_env)
         (ast_parse sample_env) (str_splitlines sample_env) (str_strip sample_env)
         (PathSpec_from_lines sample_env) (clock sample_env) (cwd_name sample_env)
         (mkdir_error sample_env) (open_error sample_env) (runtime_error sample_env).

(** The same place with a [.docignore] that cannot be read. *)
Definition sample_env_bad_docignore : Env :=
  mk_Env (git_Repo sample_env) (tree_here sample_env) (fun _ => true)
         (fun _ => Raise (mk_exn UnicodeDecodeError "invalid start byte"))
         (ast_parse sample_env) (str_splitlines sample_env) (str_strip sample_env)
         (PathSpec_from_lines sample_env) (clock sample_env) (cwd_name sample_env)
         (mkdir_error sample_env) (open_error sample_env) (runtime_error sample_env).

(** ** Comparing two runs *)

(** The same environment with another clock. *)
Definition with_clock (env : Env) (clock' : nat -> string) : Env :=
  mk_Env (git_Repo env) (tree_here env) (path_exists env) (read_text env)
         (ast_parse env) (str_splitlines env) (str_strip env)
         (PathSpec_from_lines env) clock' (cwd_name env)
         (mkdir_error env) (open_error env) (runtime_error env).

(** A record without its timestamp. *)
Definition erase_generated_at (v : value) : value :=
  match v with
  | VDict d => VDict (dict_remove "generated_at" d)
  | _ => v
  end.

(** What a run leaves behind, timestamps and clock readings apart. *)
Definition structural_output (s : State)
  : list string * list string * list (string * value) * option string :=
  (console s, made_dirs s,
   map (fun pv => (fst pv, erase_generated_at (snd pv))) (written s),
   current_file s).

(** Two results are the same when both raise the same exception or both
    return, with related values. *)
Definition same_result {A} (R : A -> A -> Prop) (r1 r2 : result A) : Prop :=
  match r1, r2 with
  | Ok a, Ok b => R a b
  | Raise e1, Raise e2 => e1 = e2
  | _, _ => False
  end.

(** Two computations agree when, from states with the same structural
    output, they end the same way in states with the same structural
    output. *)
Definition agree {A} (R : A -> A -> Prop) (m1 m2 : IO A) : Prop :=
  forall s1 s2 : State,
    structural_output s1 = structural_output s2 ->
    same_result R (fst (m1 s1)) (fst (m2 s2))
    /\ structural_output (snd (m1 s1)) = structural_output (snd (m2 s2)).

(** The state [s] after [k] more clock readings. *)
Definition with_ticks (s : State) (k : nat) : State :=
  mk_State (console s) (made_dirs s) (written s) k (current_file s).

(** ** More closed forms *)

(** The import entries of one node: one per imported name. *)
Definition import_entries (n : node) : list value :=
  match n with
  | Import names _ =>
      map (fun al => VDict [("type", VStr "import");
                            ("module", VStr (alias_name al));
                            ("alias", opt_str (asname al))])
          names
  | ImportFrom module names _ _ =>
      map (fun al => VDict [("type", VStr "from_import");
                            ("module", VStr (match module with Some m => m | None => "" end));
                            ("name", VStr (alias_name al));
                            ("alias", opt_str (asname al))])
          names
  | _ => []
  end.

(** The expression [base.a1.a2...an]. *)
Definition dotted (base : node) (attrs : list string) : node :=
  fold_left Attribute attrs base.

(** The decorator is the bare name [id]. *)
Definition is_bare_name (id : string) (decorator : node) : bool :=
  match decorator with
  | Name id' => String.eqb id' id
  | _ => false
  end.

(** The decorator is a name or an attribute access. *)
Definition is_name_or_attribute (decorator : node) : bool :=
  match decorator with
  | Name _ | Attribute _ _ => true
  | _ => false
  end.

(** Following [parts] down a nested structure map: the entry at that path. *)
Fixpoint lookup_path (parts : list string) (d : dict) : option value :=
  match parts with
  | [] => None
  | [filename] => dict_get filename d
  | part :: rest =>
      match dict_get part d with
      | Some (VDict below) => lookup_path rest below
      | _ => None
      end
  end.

(** Two paths part ways: at some position both have a segment and the
    segments differ. *)
Fixpoint diverge (p q : list string) : bool :=
  match p, q with
  | a :: p', b :: q' => if String.eqb a b then diverge p' q' else true
  | _, _ => false
  end.

Definition is_dict (v : value) : bool :=
  match v with VDict _ => true | _ => false end.

(** What holds of the structure map [d] after the files [done] have been
    put in: every one of them is found at its path, and every leaf is one of
    them. *)
Definition filed (d : dict) (done : list string) : Prop :=
  (forall f, In f done ->
             lookup_path (path_parts f) d = Some (VStr (f ++ ".json")))
  /\ (forall q v, lookup_path q d = Some v -> is_dict v = false ->
                  exists f, In f done /\ q = path_parts f /\ v = VStr (f ++ ".json")).

(** The paths [get_python_files] lists for the files of one directory. *)
Definition listed_here (root : string) (files : list string)
    (docignore_spec : option PathSpec) : list string :=
  flat_map
    (fun file =>
       if endswith file ".py" then
         if negb (should_ignore_file (os_path_relpath (os_path_join root file))
                                     docignore_spec)
         then [os_path_relpath (os_path_join root file)]
         else []
       else [])
    files.

(** ** The snapshot, step by step *)

Section SnapshotSteps.
Context {lib : PyLib}.
Variable env : Env.

(** Reading and parsing one file. *)
Definition parse_file (file_path : string) : result (list node) :=
  source_code <- read_text env file_path ;;
  ast_parse env source_code file_path.

(** What the [try] of [extract_from_file] gets through: the body of the
    module when the file is read and parsed and the runtime lets the
    extractors finish, the exception otherwise. *)
Definition analyse_file (file_path : string) : result (list node) :=
  body <- parse_file file_path ;;
  match runtime_error env (Module body) with
  | Some e => Raise e
  | None => Ok body
  end.

(** The record of one file, with [generated_at] as its timestamp. *)
Definition file_record (file_path generated_at : string) : value :=
  match analyse_file file_path with
  | Ok body =>
      VDict [("path", VStr file_path);
             ("module_docstring", opt_str (docstring_of_body body));
             ("imports", VList (flat_map import_entries (walk (Module body))));
             ("classes", VList (map class_record (filter is_ClassDef (walk (Module body)))));
             ("functions",
              VList (map (fun n => function_record n false) (filter is_FunctionDef body)));
             ("constants", VList (flat_map constants_of_statement body));
             ("generated_at", VStr generated_at)]
  | Raise e =>
      VDict [("path", VStr file_path);
             ("error", VStr (exn_msg e));
             ("generated_at", VStr generated_at)]
  end.

(** What [extract_from_file] prints for one file. *)
Definition file_warnings (file_path : string) : list string :=
  match analyse_file file_path with
  | Ok _ => []
  | Raise e => [("⚠️  Warning: Could not parse " ++ file_path ++ ": " ++ exn_msg e)%string]
  end.

(** Where the record of a file goes. *)
Definition record_path (py_file : string) : string :=
  (".docshadow/" ++ py_file ++ ".json")%string.

(** The state after the loop of [generate_documentation] over [files], when
    no directory and no record fails to be written. *)
Fixpoint snapshot_files (files : list string) (s : State) : State :=
  match files with
  | [] => s
  | py_file :: rest =>
      snapshot_files rest
        (mk_State
           (console s ++ [("  📄 Processing " ++ py_file ++ "...")%string]
              ++ file_warnings py_file)
           (made_dirs s ++ [path_parent (record_path py_file)])
           (written s ++ [(record_path py_file,
                           file_record py_file (clock env (ticks s)))])
           (S (ticks s))
           (Some py_file))
  end.

(** What [load_docignore] returns and prints. *)
Definition loaded_docignore (docignore_path : string) : option PathSpec * list string :=
  if negb (path_exists env docignore_path) then (None, [])
  else
    match (text <- read_text env docignore_path ;;
           PathSpec_from_lines env (str_splitlines env text)) with
    | Ok spec => (Some spec, [])
    | Raise e =>
        (None, [("⚠️  Warning: Could not load " ++ docignore_path ++ ": "
                  ++ exn_msg e)%string])
    end.

(** The content of [index.json]. *)
Definition index_record (commit : Commit) (files : list string) : value :=
  VDict [("commit", VStr (hexsha commit));
         ("short_commit", VStr (substring 0 7 (hexsha commit)));
         ("date", VStr (committed_datetime commit));
         ("message", VStr (str_strip env (message commit)));
         ("author", VStr (author commit));
         ("files", VList (map (fun f => VStr (f ++ ".json")) files))].

(** The content of [docshadow.json]. *)
Definition structure_record (commit : Commit) (structure : value)
    (generated_at : string) : value :=
  VDict [("project", VStr (cwd_name env));
         ("generated_at", VStr generated_at);
         ("commit", VStr (hexsha commit));
         ("structure", structure)].

End SnapshotSteps.

(** [class C(a.b.b. ... .b): pass], the base an attribute chain of 1000
    levels: a file that parses. *)
Definition deep_source : string :=
  "class C(a" ++ String.concat "" (repeat ".b" 1000) ++ "): pass".

Definition deep_class : node :=
  ClassDef "C" [dotted (Name "a") (repeat "b" 1000)] [] [pass_stmt] [] 1.

(** The sample place with [deep.py] as its one source file. *)
Definition sample_env_deep : Env :=
  mk_Env (git_Repo sample_env) (Dir ["deep.py"] [])
         (path_exists sample_env)
         (fun path => if String.eqb path "deep.py" then Ok deep_source
                      else Raise (mk_exn OSError "No such file or directory"))
         (fun _ _ => Ok [deep_class])
         (str_splitlines sample_env) (str_strip sample_env)
         (PathSpec_from_lines sample_env) (clock sample_env) (cwd_name sample_env)
         (mkdir_error sample_env) (open_error sample_env) (runtime_error sample_env).

(** The sample place with no Python file in it. *)
Definition sample_env_no_files : Env :=
  mk_Env (git_Repo sample_env) (Dir ["README.md"] [(".git", Dir ["hook.py"] [])])
         (path_exists sample_env) (read_text sample_env)
         (ast_parse sample_env) (str_splitlines sample_env) (str_strip sample_env)
         (PathSpec_from_lines sample_env) (clock sample_env) (cwd_name sample_env)
         (mkdir_error sample_env) (open_error sample_env) (runtime_error sample_env).

(** The sample place on a disk where [index.json] cannot be written. *)
Definition sample_env_index_fails : Env :=
  mk_Env (git_Repo sample_env) (tree_here sample_env)
         (path_exists sample_env) (read_text sample_env)
         (ast_parse sample_env) (str_splitlines sample_env) (str_strip sample_env)
         (PathSpec_from_lines sample_env) (clock sample_env) (cwd_name sample_env)
         (mkdir_error sample_env)
         (fun path => if String.eqb path ".docshadow/index.json"
                      then Some (mk_exn OSError "No space left on device")
                      else None)
         (runtime_error sample_env).

(** The commit a run is asked for: the given revision, or [HEAD] when none
    (or the empty string) is given. *)
Definition requested_commit (repo : Repo) (commit_hash : option string) : result Commit :=
  match commit_hash with
  | Some h => if String.eqb h "" then head_commit repo else repo_commit repo h
  | None => head_commit repo
  end.

(** The state when the loop over the files begins. *)
Definition after_setup (env : Env) (commit : Commit) (s : State) : State :=
  mk_State
    (console s
       ++ [("📝 Generating documentation for commit "
              ++ substring 0 7 (hexsha commit) ++ "...")%string]
       ++ snd (loaded_docignore env ".docignore"))
    (made_dirs s ++ [".docshadow"]) (written s) (ticks s) (current_file s).

(** ** [docshadow/commands]: the [generate] and [status] commands *)

(** What the commands call besides the above: [json.load] on a file, the
    name of the active branch, and the built-ins [str], [", ".join] and
    [len] on a loaded JSON value. *)
Record Builtins : Type := mk_Builtins {
  json_load : string -> result value;
  active_branch_name : Repo -> result string;
  py_format : value -> string;
  str_join : string -> value -> result string;
  py_len : value -> result nat
}.

(** [v.get(key, default)]: a value that is not a dict has no [get]. *)
Definition value_get (v : value) (key : string) (default : value) : result value :=
  match v with
  | VDict d => Ok (match dict_get key d with Some x => x | None => default end)
  | _ => Raise (attribute_error "get")
  end.

(** [bool(v)] *)
Definition truthy (v : value) : bool :=
  match v with
  | VNone => false
  | VBool b => b
  | VInt z => negb (z =? 0)
  | VStr s => negb (String.eqb s "")
  | VList l => match l with [] => false | _ => true end
  | VDict d => match d with [] => false | _ => true end
  end.

(** [needle in s] *)
Definition contains (s needle : string) : bool :=
  match String.index 0 needle s with Some _ => true | None => false end.

Section Commands.
Context {lib : PyLib}.
Variable env : Env.
Variable py : Builtins.

(** [generate_command] *)
Definition generate_command (commit_hash : option string) : IO bool :=
  if negb (path_exists env "docshadow.config.json") then
    echo "❌ Error: docShadow not initialized. Run 'doc init' first." ;;;
    ret false
  else
    loaded <~
      try_except
        (config <~ lift (json_load py "docshadow.config.json") ;; ret (Some config))
        (fun e =>
           echo ("❌ Error loading configuration: " ++ exn_msg e) ;;;
           ret None) ;;
    match loaded with
    | None => ret false
    | Some config =>
        success <~ generate_documentation env commit_hash ;;
        (if success : bool
         then echo "🎉 Documentation generation completed!"
         else echo "❌ Documentation generation failed.") ;;;
        ret success
    end.

(** [status_command], "Load and display configuration" *)
Definition show_configuration : IO unit :=
  try_except
    (config <~ lift (json_load py "docshadow.config.json") ;;
     echo "" ;;;
     echo "📋 Configuration:" ;;;
     project_name <~ lift (value_get config "project_name" (VStr "Unknown")) ;;
     echo ("   Project: " ++ py_format py project_name) ;;;
     languages <~ lift (value_get config "languages" (VList [])) ;;
     joined <~ lift (str_join py ", " languages) ;;
     echo ("   Languages: " ++ joined) ;;;
     output_dir <~ lift (value_get config "output_dir" (VStr ".docshadow/")) ;;
     echo ("   Output dir: " ++ py_format py output_dir) ;;;
     hooks <~ lift (value_get config "hooks" (VDict [])) ;;
     post_commit <~ lift (value_get hooks "post_commit" (VBool false)) ;;
     echo ("   Post-commit hook: "
             ++ (if truthy post_commit then "Enabled" else "Disabled")))
    (fun e => echo ("⚠️  Warning: Could not load configuration: " ++ exn_msg e)).

(** [status_command], "Check Git repository", once the repository is there *)
Definition show_git_info (repo : Repo) : IO unit :=
  echo "" ;;;
  echo "📁 Git Repository:" ;;;
  try_except
    (current_commit <~ lift (head_commit repo) ;;
     echo ("   Current commit: " ++ substring 0 7 (hexsha current_commit)) ;;;
     branch <~ lift (active_branch_name py repo) ;;
     echo ("   Branch: " ++ branch) ;;;
     echo ("   Last commit: "
             ++ substring 0 50 (str_strip env (message current_commit)) ++ "..."))
    (fun e => echo ("   ⚠️  Could not get Git info: " ++ exn_msg e)).

(** [status_command], the listing under "Check files to document" *)
Definition show_files (python_files : list string) : IO unit :=
  match python_files with
  | [] => echo "   ⚠️  No Python files found"
  | _ =>
      echo ("   Found " ++ string_of_nat (List.length python_files) ++ " Python files:") ;;;
      for_io (firstn 10 python_files) tt
        (fun _ py_file => echo ("     • " ++ py_file)) ;;;
      if (10 <? List.length python_files)%nat
      then echo ("     ... and " ++ string_of_nat (List.length python_files - 10) ++ " more")
      else ret tt
  end.

(** [status_command], "Check documentation status" *)
Definition show_documentation_status : IO unit :=
  echo "" ;;;
  echo "📚 Documentation status:" ;;;
  if path_exists env ".docshadow" then
    (if path_exists env ".docshadow/index.json" then
       try_except
         (index_data <~ lift (json_load py ".docshadow/index.json") ;;
          short_commit <~ lift (value_get index_data "short_commit" (VStr "Unknown")) ;;
          echo ("   Last documented commit: " ++ py_format py short_commit) ;;;
          date <~ lift (value_get index_data "date" (VStr "Unknown")) ;;
          echo ("   Documentation date: " ++ py_format py date) ;;;
          files <~ lift (value_get index_data "files" (VList [])) ;;
          count <~ lift (py_len py files) ;;
          echo ("   Documented files: " ++ string_of_nat count))
         (fun e => echo ("   ⚠️  Could not read index.json: " ++ exn_msg e))
     else
       echo "   ⚠️  No documentation generated yet" ;;;
       echo "   Run 'doc generate' to create documentation") ;;;
    (if path_exists env ".docshadow/docshadow.json"
     then echo "   ✅ Project structure mapping available"
     else echo "   ⚠️  Project structure mapping missing")
  else echo "   ❌ .docshadow/ directory not found".

(** [status_command], "Check Git hook" *)
Definition show_hook_status : IO unit :=
  echo "" ;;;
  echo "🔗 Git hook status:" ;;;
  if path_exists env ".git/hooks/post-commit" then
    try_except
      (hook_content <~ lift (read_text env ".git/hooks/post-commit") ;;
       if contains hook_content "docShadow"
       then echo "   ✅ Post-commit hook installed"
       else echo "   ⚠️  Post-commit hook exists but not for docShadow")
      (fun e => echo ("   ⚠️  Could not read hook file: " ++ exn_msg e))
  else
    echo "   ❌ Post-commit hook not installed" ;;;
    echo "   Run 'doc init' to install the hook".

(** [status_command], the advice at the end *)
Definition show_next_steps (python_files : list string) : IO unit :=
  echo "" ;;;
  echo "💡 Next steps:" ;;;
  match python_files with
  | [] => echo "   • Add Python files to your project"
  | _ =>
      if negb (path_exists env ".docshadow")
         || negb (path_exists env ".docshadow/index.json")
      then echo "   • Run 'doc generate' to create documentation"
      else
        echo "   • Make changes and commit to auto-generate docs" ;;;
        echo "   • Or run 'doc generate' to update documentation manually"
  end.

(** [status_command], all that follows [repo = get_git_repo()] *)
Definition report_repository (repo : option Repo) : IO unit :=
  match repo with
  | None => echo "❌ Not in a Git repository"
  | Some repo =>
      show_git_info repo ;;;
      echo "" ;;;
      echo "📄 Files to document:" ;;;
      docignore_spec <~ load_docignore env ".docignore" ;;
      let python_files := get_python_files env docignore_spec in
      show_files python_files ;;;
      show_documentation_status ;;;
      show_hook_status ;;;
      show_next_steps python_files
  end.

(** [status_command] *)
Definition status_command : IO unit :=
  echo "📊 docShadow Status" ;;;
  echo "====================" ;;;
  if negb (path_exists env "docshadow.config.json") then
    echo "❌ docShadow not initialized" ;;;
    echo "   Run 'doc init' to initialize."
  else
    echo "✅ docShadow initialized" ;;;
    show_configuration ;;;
    repo <~ get_git_repo env ;;
    report_repository repo.

End Commands.

(** Built-ins for the samples: a configuration and an index that load. *)
Definition sample_builtins : Builtins :=
  mk_Builtins
    (fun path => Ok (VDict [("project_name", VStr "demo");
                            ("languages", VList [VStr "python"])]))
    (fun _ => Ok "main")
    format_value
    (fun sep v => match v with
                  | VList items => Ok (String.concat sep (map format_value items))
                  | _ => Raise (mk_exn TypeError "can only join an iterable")
                  end)
    (fun v => match v with
              | VList items => Ok (List.length items)
              | _ => Raise (mk_exn TypeError "object has no len()")
              end).

(** The sample place after [doc init]. *)
Definition sample_env_initialized : Env :=
  mk_Env (git_Repo sample_env) (tree_here sample_env)
         (fun path => String.eqb path "docshadow.config.json")
         (read_text sample_env)
         (ast_parse sample_env) (str_splitlines sample_env) (str_strip sample_env)
         (PathSpec_from_lines sample_env) (clock sample_env) (cwd_name sample_env)
         (mkdir_error sample_env) (open_error sample_env) (runtime_error sample_env).

(** ** What a command leaves alone *)

(** A computation that only prints: it creates no directory, writes no
    file, reads no clock and leaves the current file as it is, whether it
    returns or raises. *)
Definition read_only {A} (m : IO A) : Prop :=
  forall s : State,
    made_dirs (snd (m s)) = made_dirs s
    /\ written (snd (m s)) = written s
    /\ ticks (snd (m s)) = ticks s
    /\ current_file (snd (m s)) = current_file s
    /\ exists printed, console (snd (m s)) = console s ++ printed.

(** A computation that does not raise. *)
Definition returns {A} (m : IO A) : Prop :=
  forall s : State, exists (a : A) (s' : State), m s = (Ok a, s').

(** * Properties *)

(** ** Lists and loops *)

Lemma list_sum_flat_map {X} (f : X -> list nat) (l : list X) :
  list_sum (flat_map f l) = list_sum (map (fun x => list_sum (f x)) l).
Proof.
  induction l as [|x l IH]; simpl; [reflexivity|].
  now rewrite list_sum_app, IH.
Qed.

Lemma map_some_nodes {A B} (f : A -> B) (l : list (option A)) :
  map f (some_nodes l) = flat_map (fun o => match o with Some x => [f x] | None => [] end) l.
Proof.
  unfold some_nodes. induction l as [|[x|] l IH]; simpl; congruence.
Qed.

Lemma flat_map_some_nodes {A B} (f : A -> list B) (l : list (option A)) :
  flat_map f (some_nodes l) = flat_map (fun o => match o with Some x => f x | None => [] end) l.
Proof.
  unfold some_nodes. induction l as [|[x|] l IH]; simpl; [reflexivity| |assumption].
  now rewrite IH.
Qed.

Lemma flat_map_map {A B C} (g : A -> B) (f : B -> list C) (l : list A) :
  flat_map f (map g l) = flat_map (fun x => f (g x)) l.
Proof.
  induction l as [|x l IH]; simpl; congruence.
Qed.

(** A loop that only appends: what it has appended at the end. *)
Lemma for_each_collect {X Y} (body : list Y -> X -> result (list Y)) (f : X -> list Y) :
  forall (l : list X) (acc : list Y),
    (forall acc x, In x l -> body acc x = Ok (acc ++ f x)) ->
    for_each l acc body = Ok (acc ++ flat_map f l).
Proof.
  induction l as [|x l IH]; intros acc Hbody; simpl.
  - now rewrite app_nil_r.
  - rewrite Hbody by now left. simpl.
    rewrite IH by (intros; apply Hbody; now right).
    now rewrite app_assoc.
Qed.

Lemma fold_left_collect {X Y} (body : list Y -> X -> list Y) (f : X -> list Y) :
  forall (l : list X) (acc : list Y),
    (forall acc x, In x l -> body acc x = acc ++ f x) ->
    fold_left body l acc = acc ++ flat_map f l.
Proof.
  induction l as [|x l IH]; intros acc Hbody; simpl.
  - now rewrite app_nil_r.
  - rewrite Hbody by now left.
    rewrite IH by (intros; apply Hbody; now right).
    now rewrite app_assoc.
Qed.

Lemma flat_map_filter_map {X Y} (p : X -> bool) (f : X -> Y) (l : list X) :
  flat_map (fun x => if p x then [f x] else []) l = map f (filter p l).
Proof.
  induction l as [|x l IH]; simpl; [reflexivity|].
  destruct (p x); simpl; congruence.
Qed.

Lemma flat_map_singleton {X Y} (f : X -> Y) (l : list X) :
  flat_map (fun x => [f x]) l = map f l.
Proof.
  induction l as [|x l IH]; simpl; congruence.
Qed.

(** ** The tree and its traversal *)

Lemma subnodes_children (n : node) :
  subnodes n = n :: flat_map subnodes (iter_child_nodes n).
Proof.
  destruct n; simpl;
    repeat (rewrite ?flat_map_app, ?flat_map_map, ?flat_map_some_nodes; simpl);
    rewrite ?app_nil_r; try reflexivity;
    repeat match goal with
           | |- context [opt_node ?o] => destruct o; simpl
           end;
    rewrite ?app_nil_r; try reflexivity.
Qed.

Lemma length_flat_map_sum {X Y} (f : X -> list Y) (l : list X) :
  List.length (flat_map f l) = list_sum (map (fun x => List.length (f x)) l).
Proof.
  induction l as [|x l IH]; simpl; [reflexivity|].
  now rewrite length_app, IH.
Qed.

Lemma node_size_children (n : node) :
  node_size n = S (List.length (flat_map subnodes (iter_child_nodes n))).
Proof.
  unfold node_size. now rewrite subnodes_children at 1.
Qed.

(** With one unit of fuel per node still to come, the queue is emptied and
    every node below it is yielded once. *)
Lemma walk_loop_complete :
  forall (fuel : nat) (todo : list node),
    (List.length (flat_map subnodes todo) <= fuel)%nat ->
    Permutation (walk_loop fuel todo) (flat_map subnodes todo).
Proof.
  induction fuel as [|fuel IH]; intros todo Hfuel.
  - destruct todo as [|n rest]; simpl in *; [constructor|].
    rewrite subnodes_children in Hfuel. simpl in Hfuel. lia.
  - destruct todo as [|n rest]; simpl; [constructor|].
    rewrite subnodes_children. simpl. constructor.
    simpl in Hfuel. rewrite subnodes_children in Hfuel. simpl in Hfuel.
    rewrite length_app in Hfuel.
    rewrite (Permutation_app_comm (flat_map subnodes (iter_child_nodes n))).
    rewrite <- flat_map_app. apply IH.
    rewrite flat_map_app, length_app. lia.
Qed.

(** [ast.walk] yields every node of the tree exactly once. *)
Lemma walk_subnodes (n : node) : Permutation (walk n) (subnodes n).
Proof.
  unfold walk.
  assert (Hfuel : (List.length (flat_map subnodes [n]) <= node_size n)%nat).
  { simpl. rewrite app_nil_r. unfold node_size. lia. }
  apply walk_loop_complete in Hfuel. simpl in Hfuel.
  now rewrite app_nil_r in Hfuel.
Qed.

(** More fuel changes nothing. *)
Lemma walk_loop_fuel :
  forall (fuel extra : nat) (todo : list node),
    (List.length (flat_map subnodes todo) <= fuel)%nat ->
    walk_loop (fuel + extra) todo = walk_loop fuel todo.
Proof.
  induction fuel as [|fuel IH]; intros extra todo Hfuel.
  - destruct todo as [|n rest]; simpl in *.
    + now destruct extra.
    + rewrite subnodes_children in Hfuel. simpl in Hfuel. lia.
  - destruct todo as [|n rest]; simpl; [reflexivity|].
    f_equal. apply IH.
    simpl in Hfuel. rewrite subnodes_children in Hfuel. simpl in Hfuel.
    rewrite length_app in Hfuel. rewrite flat_map_app, length_app. lia.
Qed.

Lemma filter_Permutation {X} (p : X -> bool) (l l' : list X) :
  Permutation l l' -> Permutation (filter p l) (filter p l').
Proof.
  induction 1; simpl.
  - constructor.
  - destruct (p x); [constructor|]; assumption.
  - destruct (p x), (p y); try constructor; apply Permutation_refl.
  - eapply Permutation_trans; eassumption.
Qed.

(** ** Arguments *)

Lemma nth_error_enumerate_from {X} (l : list X) :
  forall (k : Z) (i : nat),
    nth_error (enumerate_from k l) i
    = option_map (fun x => (k + Z.of_nat i, x)) (nth_error l i).
Proof.
  induction l as [|x l IH]; intros k i; destruct i; simpl; try reflexivity.
  - now rewrite Z.add_0_r.
  - rewrite IH. destruct (nth_error l i); simpl; [|reflexivity].
    do 2 f_equal. lia.
Qed.

Lemma in_enumerate_from {X} (l : list X) :
  forall (k i : Z) (x : X),
    In (i, x) (enumerate_from k l) -> k <= i < k + len l.
Proof.
  unfold len.
  induction l as [|y l IH]; intros k i x Hin; simpl in *; [contradiction|].
  destruct Hin as [Heq|Hin].
  - inversion Heq; subst. lia.
  - apply IH in Hin. lia.
Qed.

Lemma length_enumerate_from {X} (l : list X) :
  forall k, List.length (enumerate_from k l) = List.length l.
Proof.
  induction l as [|x l IH]; intros k; simpl; [reflexivity|]. now rewrite IH.
Qed.

Section ArgumentProperties.
Context {lib : PyLib}.

(** Inside the loop the index into [defaults] is never out of range. *)
Lemma default_index_in_range (a : arguments) (i : Z) :
  0 <= i < len (args a) ->
  len (args a) - len (defaults a) <= i ->
  exists d, list_getitem (defaults a) (i - (len (args a) - len (defaults a))) = Ok d
            /\ nth_error (defaults a)
                 (Z.to_nat (i - (len (args a) - len (defaults a)))) = Some d.
Proof.
  intros Hi Hfirst. unfold list_getitem.
  set (j := i - (len (args a) - len (defaults a))).
  assert (Hj : 0 <= j < len (defaults a)) by (unfold j; lia).
  destruct (Z.ltb_spec j 0) as [Hneg|_]; [lia|].
  destruct (Z.ltb_spec j 0) as [Hneg|_]; [lia|].
  destruct (nth_error (defaults a) (Z.to_nat j)) as [d|] eqn:Hnth.
  - now exists d.
  - apply nth_error_None in Hnth. unfold len in Hj. lia.
Qed.

Lemma regular_argument_ok (a : arguments) (i : Z) (x : arg_ node) :
  0 <= i < len (args a) ->
  regular_argument a i x = Ok (regular_entry a i x).
Proof.
  intros Hi. unfold regular_argument, regular_entry.
  destruct (Z.leb_spec (len (args a) - len (defaults a)) i) as [Hfirst|Hfirst].
  - destruct (default_index_in_range a Hi Hfirst) as (d & Hget & Hnth).
    destruct (Z.leb_spec 0 (i - (len (args a) - len (defaults a)))) as [_|Hneg]; [|lia].
    rewrite Hget, Hnth. reflexivity.
  - reflexivity.
Qed.

(** [_extract_arguments] never raises, and what it returns. *)
Lemma extract_arguments_ok (a : arguments) :
  _extract_arguments a
  = Ok (map (fun ix => regular_entry a (fst ix) (snd ix)) (enumerate (args a))
          ++ variadic_entries a).
Proof.
  unfold _extract_arguments.
  rewrite (for_each_collect _ (fun ix => [regular_entry a (fst ix) (snd ix)])).
  - simpl. rewrite flat_map_singleton.
    unfold variadic_entries.
    destruct (vararg a), (kwarg a); simpl; rewrite <- ?app_assoc, ?app_nil_r; reflexivity.
  - intros acc [i x] Hin. apply in_enumerate_from in Hin. simpl.
    rewrite regular_argument_ok by lia. reflexivity.
Qed.

End ArgumentProperties.

Section ArgumentTheorems.
Context {lib : PyLib}.

(** C3. A function with N plain positional parameters and K defaults,
    K <= N: the first N-K entries of the extracted argument list have
    [has_default] false and no default; the j-th default is paired with
    parameter N-K+j (the defaults are aligned to the right), whose entry has
    [has_default] true and the representation of that default; after the N
    entries come the [*args] entry and the [**kwargs] entry, when the
    function has them, each with its prefixed name, its optional type and
    its kind tag, and nothing else. *)
Theorem argument_default_pairing (a : arguments) :
  (List.length (defaults a) <= List.length (args a))%nat ->
  let N := List.length (args a) in
  let K := List.length (defaults a) in
  exists entries : list value,
    _extract_arguments a = Ok entries
    /\ (forall (i : nat) (x : arg_ node),
          nth_error (args a) i = Some x -> (i < N - K)%nat ->
          nth_error entries i
          = Some (VDict [("name", VStr (arg x));
                         ("type", opt_str (_get_annotation (annotation x)));
                         ("has_default", VBool false);
                         ("default", VNone)]))
    /\ (forall (j : nat) (x : arg_ node) (d : node),
          nth_error (args a) (N - K + j) = Some x ->
          nth_error (defaults a) j = Some d ->
          nth_error entries (N - K + j)
          = Some (VDict [("name", VStr (arg x));
                         ("type", opt_str (_get_annotation (annotation x)));
                         ("has_default", VBool true);
                         ("default", VStr (_get_default_value d))]))
    /\ skipn N entries
       = match vararg a with
         | Some v => [VDict [("name", VStr ("*" ++ arg v));
                             ("type", opt_str (_get_annotation (annotation v)));
                             ("is_vararg", VBool true)]]
         | None => []
         end
         ++ match kwarg a with
            | Some k => [VDict [("name", VStr ("**" ++ arg k));
                                ("type", opt_str (_get_annotation (annotation k)));
                                ("is_kwarg", VBool true)]]
            | None => []
            end.
Proof.
  intros HKN N K. eexists. split; [apply extract_arguments_ok|].
  assert (Hlen : List.length (map (fun ix => regular_entry a (fst ix) (snd ix))
                                  (enumerate (args a))) = N).
  { rewrite length_map. unfold enumerate. now rewrite length_enumerate_from. }
  assert (Hnth : forall i x, nth_error (args a) i = Some x ->
            nth_error (map (fun ix => regular_entry a (fst ix) (snd ix))
                           (enumerate (args a)) ++ variadic_entries a) i
            = Some (regular_entry a (Z.of_nat i) x)).
  { intros i x Hx. rewrite nth_error_app1.
    - rewrite nth_error_map. unfold enumerate.
      rewrite nth_error_enumerate_from, Hx. reflexivity.
    - rewrite Hlen. apply nth_error_Some. congruence. }
  repeat split.
  - intros i x Hx Hi. rewrite (Hnth _ _ Hx). unfold regular_entry, len.
    fold N K.
    destruct (Z.leb_spec (Z.of_nat N - Z.of_nat K) (Z.of_nat i)); [lia|reflexivity].
  - intros j x d Hx Hd. rewrite (Hnth _ _ Hx). unfold regular_entry, len.
    fold N K.
    destruct (Z.leb_spec (Z.of_nat N - Z.of_nat K) (Z.of_nat (N - K + j))); [|lia].
    replace (Z.to_nat (Z.of_nat (N - K + j) - (Z.of_nat N - Z.of_nat K))) with j by lia.
    rewrite Hd. reflexivity.
  - rewrite skipn_app, Hlen, Nat.sub_diag, skipn_all2 by lia. reflexivity.
Qed.

(** C10. The extracted arguments are the plain positional parameters, in
    order, then the [*args] entry if any, then the [**kwargs] entry if any;
    the positional-only and the keyword-only parameters (and the defaults
    of the latter) play no part in it. *)
Theorem arguments_only_plain_and_variadic (a : arguments) :
  exists regular : list value,
    _extract_arguments a = Ok (regular ++ variadic_entries a)
    /\ map (field "name") regular = map (fun x => Some (VStr (arg x))) (args a)
    /\ map (field "name") (variadic_entries a)
       = map (fun v => Some (VStr ("*" ++ arg v))) (opt_node (vararg a))
         ++ map (fun k => Some (VStr ("**" ++ arg k))) (opt_node (kwarg a))
    /\ forall (posonly kwonly : list (arg_ node)) (kw_dflts : list (option node)),
         _extract_arguments
           (mk_arguments posonly (args a) (vararg a) kwonly kw_dflts (kwarg a) (defaults a))
         = _extract_arguments a.
Proof.
  eexists. split; [apply extract_arguments_ok|]. split; [|split].
  - rewrite map_map. unfold enumerate. generalize 0.
    induction (args a) as [|x l IH]; intros k; simpl; [reflexivity|].
    now rewrite IH.
  - unfold variadic_entries. destruct (vararg a), (kwarg a); reflexivity.
  - intros posonly kwonly kw_dflts. rewrite !extract_arguments_ok. reflexivity.
Qed.

End ArgumentTheorems.

Lemma argument_default_pairing_witness :
  (List.length (defaults (mk_arguments [] [plain "self"; plain "x"; plain "y"] None [] []
                            None [Constant (CInt 1)]))
   <= List.length (args (mk_arguments [] [plain "self"; plain "x"; plain "y"] None [] []
                           None [Constant (CInt 1)])))%nat
  /\ exists entries : list value,
       @_extract_arguments sample_lib
         (mk_arguments [] [plain "self"; plain "x"; plain "y"] None [] [] None
            [Constant (CInt 1)]) = Ok entries
       /\ nth_error entries 2
          = Some (VDict [("name", VStr "y"); ("type", VNone);
                         ("has_default", VBool true); ("default", VStr "1")]).
Proof.
  assert (H : (List.length (defaults (mk_arguments [] [plain "self"; plain "x"; plain "y"]
                                        None [] [] None [Constant (CInt 1)]))
               <= List.length (args (mk_arguments [] [plain "self"; plain "x"; plain "y"]
                                       None [] [] None [Constant (CInt 1)])))%nat)
    by (simpl; lia).
  split; [exact H|].
  destruct (@argument_default_pairing sample_lib _ H) as (entries & Hrun & _ & Hdef & _).
  exists entries. split; [exact Hrun|].
  exact (Hdef 0%nat (plain "y") (Constant (CInt 1)) eq_refl eq_refl).
Defined.

(** ** Functions, methods, properties, classes *)

Section RecordProperties.
Context {lib : PyLib}.

Lemma extract_function_info_ok (n : node) (is_method : bool) :
  is_FunctionDef n || is_AsyncFunctionDef n = true ->
  _extract_function_info n is_method = Ok (function_record n is_method).
Proof.
  destruct n; simpl; try discriminate; intros _;
    rewrite extract_arguments_ok; simpl; destruct is_method; reflexivity.
Qed.

Lemma extract_functions_ok (body : list node) :
  _extract_functions (Module body)
  = Ok (map (fun n => function_record n false) (filter is_FunctionDef body)).
Proof.
  unfold _extract_functions. simpl.
  rewrite (for_each_collect _
             (fun n => if is_FunctionDef n then [function_record n false] else [])).
  - simpl. now rewrite flat_map_filter_map.
  - intros acc n _. destruct (is_FunctionDef n) eqn:Hdef.
    + rewrite extract_function_info_ok by now rewrite Hdef. reflexivity.
    + now rewrite app_nil_r.
Qed.

Lemma extract_methods_ok name bases kws body decs ln :
  _extract_methods (ClassDef name bases kws body decs ln)
  = Ok (map (fun n => function_record n true) (filter is_FunctionDef body)).
Proof.
  unfold _extract_methods. simpl.
  rewrite (for_each_collect _
             (fun n => if is_FunctionDef n then [function_record n true] else [])).
  - simpl. now rewrite flat_map_filter_map.
  - intros acc n _. destruct (is_FunctionDef n) eqn:Hdef.
    + rewrite extract_function_info_ok by now rewrite Hdef. reflexivity.
    + now rewrite app_nil_r.
Qed.

(** The inner loop stops at the first property decorator: one record at
    most, and one exactly when some decorator passes the test. *)
Lemma scan_decorators_ok name a body decs0 ret ln (acc : list value) :
  forall decs : list node,
    scan_decorators (FunctionDef name a body decs0 ret ln) name ln decs acc
    = Ok (acc ++ if existsb is_property_decorator decs
                 then [property_record (FunctionDef name a body decs0 ret ln)]
                 else []).
Proof.
  induction decs as [|d decs IH]; simpl.
  - now rewrite app_nil_r.
  - destruct (is_property_decorator d); simpl; [reflexivity|apply IH].
Qed.

Lemma extract_properties_ok name bases kws body decs ln :
  _extract_properties (ClassDef name bases kws body decs ln)
  = Ok (map property_record (filter is_property_method body)).
Proof.
  unfold _extract_properties. simpl.
  rewrite (for_each_collect _
             (fun n => if is_property_method n then [property_record n] else [])).
  - simpl. now rewrite flat_map_filter_map.
  - intros acc n _. destruct n; simpl; rewrite ?app_nil_r; try reflexivity.
    apply scan_decorators_ok.
Qed.

Lemma extract_classes_ok (tree : node) :
  _extract_classes tree = Ok (map class_record (filter is_ClassDef (walk tree))).
Proof.
  unfold _extract_classes.
  rewrite (for_each_collect _
             (fun n => if is_ClassDef n then [class_record n] else [])).
  - simpl. now rewrite flat_map_filter_map.
  - intros acc n _. destruct n; simpl; rewrite ?app_nil_r; try reflexivity.
    fold (_extract_methods (ClassDef name bases keywords body decorator_list lineno)).
    fold (_extract_properties (ClassDef name bases keywords body decorator_list lineno)).
    rewrite extract_methods_ok, extract_properties_ok. reflexivity.
Qed.

Lemma extract_constants_ok (body : list node) :
  _extract_constants (Module body) = Ok (flat_map constants_of_statement body).
Proof.
  unfold _extract_constants. simpl. f_equal.
  rewrite (fold_left_collect _ constants_of_statement); [reflexivity|].
  intros acc n _.
  destruct n as [| | | | | |targets v ln| | | | | | | | | | |];
    simpl; rewrite ?app_nil_r; try reflexivity.
  rewrite (fold_left_collect _
             (fun target => if is_upper_name target then [constant_record ln v target]
                            else [])).
  - now rewrite flat_map_filter_map.
  - intros acc' target _. destruct target; simpl; rewrite ?app_nil_r; try reflexivity.
    destruct (isupper id); [reflexivity|now rewrite app_nil_r].
Qed.

End RecordProperties.

Section ExtractionTheorems.
Context {lib : PyLib}.

Lemma filter_filter_async (body : list node) :
  filter is_FunctionDef (filter (fun n => negb (is_AsyncFunctionDef n)) body)
  = filter is_FunctionDef body.
Proof.
  induction body as [|n body IH]; simpl; [reflexivity|].
  destruct n; simpl; congruence.
Qed.

Lemma is_property_decorator_spec (d : node) :
  is_property_decorator d = true
  <-> d = Name "property" \/ exists v, d = Attribute v "property".
Proof.
  split.
  - destruct d; simpl; try discriminate; intros H; apply String.eqb_eq in H; subst.
    + now left.
    + right. now eexists.
  - intros [->|[v ->]]; reflexivity.
Qed.

Lemma function_record_is_async (n : node) (is_method : bool) :
  is_FunctionDef n = true ->
  field "is_async" (function_record n is_method) = Some (VBool false).
Proof.
  destruct n; simpl; try discriminate. reflexivity.
Qed.

Lemma Forall_map_filter {X Y} (p : X -> bool) (f : X -> Y) (P : Y -> Prop) (l : list X) :
  (forall x, p x = true -> P (f x)) -> Forall P (map f (filter p l)).
Proof.
  intros H. induction l as [|x l IH]; simpl; [constructor|].
  destruct (p x) eqn:Hp; simpl; [constructor; auto|assumption].
Qed.

(** C2, amended. The constants of a module are, statement by statement
    and target by target, one record for each target of a plain assignment
    statement ([ast.Assign]) that is itself a bare name passing
    [str.isupper]; the record has the name, the line number of the statement
    and the representation of the assigned value. Any other target (a name
    that is not upper-case, a tuple of names, an attribute, a subscript) and
    any other statement, an annotated assignment such as [MAX: int = 6]
    among them, yields nothing. On an ASCII name [str.isupper] asks for a
    capital letter and no small one, so that [MAX] and [MIN] pass and [max]
    does not; on any other name the Unicode database of the runtime
    decides. *)
Theorem constants_per_upper_name_target (body : list node) :
  _extract_constants (Module body)
  = Ok (flat_map
          (fun statement =>
             match statement with
             | Assign targets v ln =>
                 flat_map
                   (fun target =>
                      match target with
                      | Name id =>
                          if isupper id
                          then [VDict [("name", VStr id);
                                       ("line_number", VInt ln);
                                       ("value", VStr (_get_value_repr v))]]
                          else []
                      | _ => []
                      end)
                   targets
             | _ => []
             end)
          body)
  /\ (forall id : string,
        is_ascii id = true ->
        isupper id
        = negb (existsb is_ascii_lower (list_ascii_of_string id))
          && existsb is_ascii_upper (list_ascii_of_string id))
  /\ (forall id : string, is_ascii id = false -> isupper id = unicode_isupper id)
  /\ isupper "MAX" = true /\ isupper "MIN" = true /\ isupper "max" = false
  /\ (forall kind children,
        _extract_constants (Module [Other kind children]) = Ok []).
Proof.
  split; [|split; [|split; [|repeat split]]].
  - rewrite extract_constants_ok. f_equal.
    apply flat_map_ext. intros n.
    destruct n as [| | | | | |targets v ln| | | | | | | | | | |]; try reflexivity.
    simpl. rewrite <- flat_map_filter_map.
    apply flat_map_ext. intros target. destruct target; reflexivity.
  - intros id Hid. unfold isupper. now rewrite Hid.
  - intros id Hid. unfold isupper. now rewrite Hid.
Qed.

(** C4. One class record for every class definition anywhere in the tree,
    each with the same seven fields and none that links it to an enclosing or
    a nested class; the module's functions are the records of the [def]
    statements directly in the module body, in order, and of nothing else. *)
Theorem classes_everywhere_functions_top_level (body : list node) :
  exists classes functions : list value,
    _extract_classes (Module body) = Ok classes
    /\ _extract_functions (Module body) = Ok functions
    /\ Permutation classes
         (map class_record (filter is_ClassDef (subnodes (Module body))))
    /\ Forall (fun c => keys_of c = ["name"; "docstring"; "line_number"; "bases";
                                     "decorators"; "methods"; "properties"]) classes
    /\ functions = map (fun n => function_record n false) (filter is_FunctionDef body).
Proof.
  eexists. eexists.
  split; [apply extract_classes_ok|]. split; [apply extract_functions_ok|].
  split; [|split].
  - apply Permutation_map, filter_Permutation, walk_subnodes.
  - apply Forall_map_filter. intros n Hn. destruct n; try discriminate. reflexivity.
  - reflexivity.
Qed.

(** C5. A method of a class body is a property exactly when one of its
    decorators is the name [property] or an attribute access ending in
    [.property]; the properties of the class are one record for each such
    method and the methods of the class are one record for each [def] of the
    body, the properties among them included. *)
Theorem property_classification name bases kws (body : list node) decs ln :
  exists methods properties : list value,
    _extract_methods (ClassDef name bases kws body decs ln) = Ok methods
    /\ _extract_properties (ClassDef name bases kws body decs ln) = Ok properties
    /\ methods = map (fun n => function_record n true) (filter is_FunctionDef body)
    /\ properties = map property_record (filter is_property_method body)
    /\ (forall n : node,
          is_property_method n = true
          <-> exists fname a fbody fdecs ret fln,
                n = FunctionDef fname a fbody fdecs ret fln
                /\ exists d, In d fdecs
                             /\ (d = Name "property" \/ exists v, d = Attribute v "property"))
    /\ (forall n : node, is_property_method n = true -> is_FunctionDef n = true).
Proof.
  eexists. eexists.
  split; [apply extract_methods_ok|]. split; [apply extract_properties_ok|].
  split; [reflexivity|]. split; [reflexivity|]. split.
  - intros n. split.
    + destruct n; simpl; try discriminate. intros H.
      apply existsb_exists in H. destruct H as (d & Hin & Hd).
      do 6 eexists. split; [reflexivity|]. exists d. split; [assumption|].
      now apply is_property_decorator_spec.
    + intros (fname & a & fbody & fdecs & ret & fln & -> & d & Hin & Hd). simpl.
      apply existsb_exists. exists d. split; [assumption|].
      now apply is_property_decorator_spec.
  - intros n. destruct n; simpl; try discriminate. reflexivity.
Qed.

(** C9. An [async def] is reported nowhere: the module's functions and a
    class's methods are what they are without the async definitions of the
    body, and every record in them, and in the methods of every class record,
    has [is_async] false; the value would be true only on an async
    definition, which no collector passes on. *)
Theorem async_never_reported (body : list node) name bases kws decs ln :
  (exists functions : list value,
     _extract_functions (Module body) = Ok functions
     /\ _extract_functions (Module (filter (fun n => negb (is_AsyncFunctionDef n)) body))
        = Ok functions
     /\ Forall (fun r => field "is_async" r = Some (VBool false)) functions)
  /\ (exists methods : list value,
        _extract_methods (ClassDef name bases kws body decs ln) = Ok methods
        /\ _extract_methods
             (ClassDef name bases kws
                (filter (fun n => negb (is_AsyncFunctionDef n)) body) decs ln)
           = Ok methods
        /\ Forall (fun r => field "is_async" r = Some (VBool false)) methods)
  /\ (exists classes : list value,
        _extract_classes (Module body) = Ok classes
        /\ Forall (fun c => exists methods,
                     field "methods" c = Some (VList methods)
                     /\ Forall (fun r => field "is_async" r = Some (VBool false)) methods)
             classes)
  /\ (forall fname a fbody fdecs ret fln is_method,
        exists r, _extract_function_info
                    (AsyncFunctionDef fname a fbody fdecs ret fln) is_method = Ok r
                  /\ field "is_async" r = Some (VBool true)).
Proof.
  split; [|split; [|split]].
  - eexists. split; [apply extract_functions_ok|]. split.
    + rewrite extract_functions_ok, filter_filter_async. reflexivity.
    + apply Forall_map_filter. intros n Hn. now apply function_record_is_async.
  - eexists. split; [apply extract_methods_ok|]. split.
    + rewrite extract_methods_ok, filter_filter_async. reflexivity.
    + apply Forall_map_filter. intros n Hn. now apply function_record_is_async.
  - eexists. split; [apply extract_classes_ok|].
    apply Forall_map_filter. intros n Hn. destruct n; try discriminate.
    eexists. split; [reflexivity|].
    apply Forall_map_filter. intros m Hm. now apply function_record_is_async.
  - intros. eexists. split; [now apply extract_function_info_ok|].
    destruct is_method; reflexivity.
Qed.

End ExtractionTheorems.

(** [MAX, MIN = 1, 2] has a single target, the tuple; both names are
    upper-case and neither gets a record. *)
Lemma constants_tuple_target_counterexample :
  @_extract_constants sample_lib (Module [assign_tuple]) = Ok []
  /\ @isupper sample_lib "MAX" = true /\ @isupper sample_lib "MIN" = true.
Proof. repeat split; reflexivity. Qed.

Example constants_of_samples :
  @_extract_constants sample_lib (Module [assign_MAX; assign_lower; assign_chain])
  = Ok [VDict [("name", VStr "MAX"); ("line_number", VInt 1); ("value", VStr "1")];
        VDict [("name", VStr "MAX"); ("line_number", VInt 1); ("value", VStr "1")];
        VDict [("name", VStr "MIN"); ("line_number", VInt 1); ("value", VStr "1")]].
Proof. reflexivity. Qed.

(** ** One file *)

Section FileTheorems.
Context {lib : PyLib}.
Variable env : Env.

(** C1, amended. [extract_from_file] always returns a record and never
    raises; the record has the path it was given and the clock reading of
    the call as its [generated_at]. When the file cannot be read, or cannot
    be parsed, or parses and the runtime then stops the extraction with an
    exception, the record has the fields [path], [error] (the text of the
    exception) and [generated_at] and no other. Otherwise the record has
    [path], the five structural fields with what the five extractors return
    and [generated_at], and no [error]. So the record has either [error] or
    the structural fields, never both and never neither; a file without a
    syntax error can have either. *)
Theorem extract_from_file_total (file_path : string) (s : State) :
  exists (record : value) (s' : State),
    extract_from_file env file_path s = (Ok record, s')
    /\ field "path" record = Some (VStr file_path)
    /\ field "generated_at" record = Some (VStr (clock env (ticks s)))
    /\ ((exists e : exn,
           (read_text env file_path = Raise e
            \/ (exists source_code,
                  read_text env file_path = Ok source_code
                  /\ ast_parse env source_code file_path = Raise e)
            \/ (exists source_code body,
                  read_text env file_path = Ok source_code
                  /\ ast_parse env source_code file_path = Ok body
                  /\ runtime_error env (Module body) = Some e))
           /\ keys_of record = ["path"; "error"; "generated_at"]
           /\ field "error" record = Some (VStr (exn_msg e)))
        \/ (exists source_code body classes functions constants,
              read_text env file_path = Ok source_code
              /\ ast_parse env source_code file_path = Ok body
              /\ runtime_error env (Module body) = None
              /\ _extract_classes (Module body) = Ok classes
              /\ _extract_functions (Module body) = Ok functions
              /\ _extract_constants (Module body) = Ok constants
              /\ keys_of record = ["path"; "module_docstring"; "imports"; "classes";
                                   "functions"; "constants"; "generated_at"]
              /\ field "module_docstring" record = Some (opt_str (docstring_of_body body))
              /\ field "imports" record = Some (VList (_extract_imports (Module body)))
              /\ field "classes" record = Some (VList classes)
              /\ field "functions" record = Some (VList functions)
              /\ field "constants" record = Some (VList constants)))
    /\ (In "error" (keys_of record)
        <-> ~ (In "module_docstring" (keys_of record) /\ In "imports" (keys_of record)
               /\ In "classes" (keys_of record) /\ In "functions" (keys_of record)
               /\ In "constants" (keys_of record)))
    /\ (In "error" (keys_of record)
        <-> ~ (In "module_docstring" (keys_of record) \/ In "imports" (keys_of record)
               \/ In "classes" (keys_of record) \/ In "functions" (keys_of record)
               \/ In "constants" (keys_of record))).
Proof.
  assert (Herror : forall (e : exn) (t : string),
            let record := VDict [("path", VStr file_path); ("error", VStr (exn_msg e));
                                 ("generated_at", VStr t)] in
            (In "error" (keys_of record)
             <-> ~ (In "module_docstring" (keys_of record) /\ In "imports" (keys_of record)
                    /\ In "classes" (keys_of record) /\ In "functions" (keys_of record)
                    /\ In "constants" (keys_of record)))
            /\ (In "error" (keys_of record)
                <-> ~ (In "module_docstring" (keys_of record) \/ In "imports" (keys_of record)
                       \/ In "classes" (keys_of record) \/ In "functions" (keys_of record)
                       \/ In "constants" (keys_of record)))).
  { intros e t. simpl. split; (split; [|auto]).
    - intros _ (H & _). repeat destruct H as [H|H]; try discriminate H; contradiction.
    - intros _ H. repeat destruct H as [H|H]; try discriminate H; try contradiction. }
  unfold extract_from_file, interrupted, io_bind, try_except, set_current_file, lift,
    now_isoformat, echo, ret, raise.
  destruct (read_text env file_path) as [source_code|e] eqn:Hread.
  - destruct (ast_parse env source_code file_path) as [body|e] eqn:Hparse.
    + destruct (runtime_error env (Module body)) as [e|] eqn:Hruntime.
      * cbv beta iota zeta. do 2 eexists. split; [reflexivity|].
        split; [reflexivity|]. split; [reflexivity|]. split; [|apply Herror].
        left. exists e. split; [|split; reflexivity].
        right. right. exists source_code, body. auto.
      * cbv beta iota zeta.
        rewrite extract_classes_ok, extract_functions_ok, extract_constants_ok.
        cbv beta iota zeta. do 2 eexists. split; [reflexivity|].
        split; [reflexivity|]. split; [reflexivity|]. split; [|split].
        -- right. exists source_code, body. do 3 eexists.
           split; [reflexivity|]. split; [assumption|]. split; [assumption|].
           split; [apply extract_classes_ok|]. split; [apply extract_functions_ok|].
           split; [apply extract_constants_ok|].
           repeat split; reflexivity.
        -- simpl. split.
           ++ intros H. repeat destruct H as [H|H]; try discriminate H; contradiction.
           ++ intros H. exfalso. apply H. repeat split; auto 10.
        -- simpl. split.
           ++ intros H. repeat destruct H as [H|H]; try discriminate H; contradiction.
           ++ intros H. exfalso. apply H. auto.
    + cbv beta iota zeta. do 2 eexists. split; [reflexivity|].
      split; [reflexivity|]. split; [reflexivity|]. split; [|apply Herror].
      left. exists e. split; [|split; reflexivity].
      right. left. exists source_code. auto.
  - cbv beta iota zeta. do 2 eexists. split; [reflexivity|].
    split; [reflexivity|]. split; [reflexivity|]. split; [|apply Herror].
    left. exists e. split; [|split; reflexivity]. now left.
Qed.

End FileTheorems.

(** [deep.py] is read and parsed without a syntax error, and its record is
    an error record with one warning printed: the base of its class is an
    attribute chain of 1000 levels, which [_get_name] does not get to the end
    of. *)
Lemma extract_from_file_deep_chain_counterexample :
  read_text sample_env_deep "deep.py" = Ok deep_source
  /\ ast_parse sample_env_deep deep_source "deep.py" = Ok [deep_class]
  /\ fst (@extract_from_file sample_lib sample_env_deep "deep.py" initial_state)
     = Ok (VDict [("path", VStr "deep.py");
                  ("error", VStr "maximum recursion depth exceeded");
                  ("generated_at", VStr "0")])
  /\ console (snd (@extract_from_file sample_lib sample_env_deep "deep.py" initial_state))
     = ["⚠️  Warning: Could not parse deep.py: maximum recursion depth exceeded"].
Proof.
  split; [vm_compute; reflexivity|]. split; [vm_compute; reflexivity|].
  split; vm_compute; reflexivity.
Qed.

(** An assignment of an integer of 4301 digits, as [BIG = 0x...] can be:
    [repr] refuses the value and the extraction stops; with 4300 digits it
    goes through. *)
Example long_integer_stops_the_extraction :
  sample_runtime_error (Module [Assign [Name "BIG"] (Constant (CInt (10 ^ 4300))) 1])
  = Some digits_error
  /\ sample_runtime_error
       (Module [Assign [Name "BIG"] (Constant (CInt (10 ^ 4300 - 1))) 1])
     = None
  /\ sample_runtime_error
       (Module [Assign [Name "big"] (Constant (CInt (10 ^ 4300))) 1])
     = None.
Proof.
  split; [vm_compute; reflexivity|]. split; vm_compute; reflexivity.
Qed.

(** The chain that is one level short of the room goes through. *)
Example attribute_chain_within_the_room :
  sample_runtime_error
    (Module [ClassDef "C" [dotted (Name "a") (repeat "b" 989)] [] [pass_stmt] [] 1])
  = None
  /\ sample_runtime_error
       (Module [ClassDef "C" [dotted (Name "a") (repeat "b" 990)] [] [pass_stmt] [] 1])
     = Some recursion_error
  /\ sample_runtime_error (Module [Expr (dotted (Name "a") (repeat "b" 1000))]) = None.
Proof.
  split; [vm_compute; reflexivity|]. split; vm_compute; reflexivity.
Qed.

(** Upper-case beyond ASCII, in the sample library. *)
Example isupper_beyond_ascii :
  @isupper sample_lib "É" = true /\ @isupper sample_lib "MAXé" = false
  /\ @isupper sample_lib "MAX_1" = true /\ @isupper sample_lib "_" = false.
Proof. repeat split; reflexivity. Qed.

(** ** The ignore file and the commit *)

Section SetupTheorems.
Context {lib : PyLib}.
Variable env : Env.

(** [load_docignore] never raises. *)
Lemma load_docignore_returns (docignore_path : string) (s : State) :
  exists (spec : option PathSpec) (s' : State),
    load_docignore env docignore_path s = (Ok spec, s').
Proof.
  unfold load_docignore, try_except, io_bind, lift, ret, echo.
  destruct (path_exists env docignore_path); simpl; [|now eauto].
  destruct (read_text env docignore_path); simpl; [|now eauto].
  destruct (PathSpec_from_lines env _); simpl; eauto.
Qed.

(** C7. Without an ignore file [load_docignore] returns no matcher and
    says nothing; when the file is there and reading it or compiling its
    patterns fails, it returns no matcher after one warning on the console,
    and it does not raise. With no matcher, [should_ignore_file] is false
    for every path. *)
Theorem docignore_fallback_excludes_nothing (docignore_path : string) (s : State) :
  (path_exists env docignore_path = false
   \/ (exists e, read_text env docignore_path = Raise e)
   \/ (exists text e, read_text env docignore_path = Ok text
                      /\ PathSpec_from_lines env (str_splitlines env text) = Raise e)) ->
  exists s' : State,
    load_docignore env docignore_path s = (Ok None, s')
    /\ (path_exists env docignore_path = false -> s' = s)
    /\ (path_exists env docignore_path = true ->
        exists e, s' = mk_State
                         (console s ++ [("⚠️  Warning: Could not load " ++ docignore_path
                                           ++ ": " ++ exn_msg e)%string])
                         (made_dirs s) (written s) (ticks s) (current_file s))
    /\ forall relative_path : string, should_ignore_file relative_path None = false.
Proof.
  intros Hfail.
  unfold load_docignore, try_except, io_bind, lift, ret, echo.
  destruct (path_exists env docignore_path) eqn:Hexists; simpl.
  - destruct Hfail as [Habsent|[(e & Hread)|(text & e & Hread & Hcompile)]].
    + discriminate.
    + rewrite Hread. simpl. eexists. split; [reflexivity|].
      split; [discriminate|]. split; [|reflexivity]. intros _. now exists e.
    + rewrite Hread. simpl. rewrite Hcompile. simpl. eexists. split; [reflexivity|].
      split; [discriminate|]. split; [|reflexivity]. intros _. now exists e.
  - exists s. split; [reflexivity|]. split; [reflexivity|]. split; [discriminate|reflexivity].
Qed.

Lemma get_git_repo_run (s : State) :
  get_git_repo env s
  = match git_Repo env with
    | Ok repo => (Ok (Some repo), s)
    | Raise e =>
        if exn_class_eqb (exn_kind e) InvalidGitRepositoryError then (Ok None, s)
        else (Raise e, s)
    end.
Proof.
  unfold get_git_repo, try_except_class, io_bind, lift, ret.
  destruct (git_Repo env); reflexivity.
Qed.

(** C6. With no repository, or with an explicitly given commit that the
    repository cannot resolve, [generate_documentation] returns [False]
    after one message on the console; it raises nothing, creates no
    directory, writes no record, no index and no structure map, reads no
    clock and starts on no source file. *)
Theorem generation_aborts_before_any_file (commit_hash : option string) (s : State) :
  ((exists e, git_Repo env = Raise e)
   \/ (exists repo h e, git_Repo env = Ok repo
                        /\ commit_hash = Some h /\ h <> ""
                        /\ repo_commit repo h = Raise e)) ->
  exists report : string,
    generate_documentation env commit_hash s
    = (Ok false,
       mk_State (console s ++ [report]) (made_dirs s) (written s) (ticks s)
                (current_file s)).
Proof.
  intros [(e & Hrepo)|(repo & h & e & Hrepo & -> & Hh & Hcommit)];
    unfold generate_documentation, try_except; unfold io_bind at 1;
    rewrite get_git_repo_run, Hrepo.
  - destruct (exn_class_eqb (exn_kind e) InvalidGitRepositoryError);
      simpl; eexists; reflexivity.
  - unfold io_bind at 1. unfold get_commit_info.
    apply String.eqb_neq in Hh. rewrite Hh. simpl.
    unfold io_bind at 1. unfold try_except_class, io_bind, lift. rewrite Hcommit.
    destruct (exn_class_eqb (exn_kind e) BadName); simpl; eexists; reflexivity.
Qed.

End SetupTheorems.

Lemma docignore_fallback_witness :
  (path_exists sample_env_bad_docignore ".docignore" = false
   \/ (exists e, read_text sample_env_bad_docignore ".docignore" = Raise e)
   \/ (exists text e,
         read_text sample_env_bad_docignore ".docignore" = Ok text
         /\ PathSpec_from_lines sample_env_bad_docignore
              (str_splitlines sample_env_bad_docignore text) = Raise e))
  /\ exists s' : State,
       load_docignore sample_env_bad_docignore ".docignore" initial_state = (Ok None, s')
       /\ List.length (console s') = 1%nat.
Proof.
  assert (H : path_exists sample_env_bad_docignore ".docignore" = false
              \/ (exists e, read_text sample_env_bad_docignore ".docignore" = Raise e)
              \/ (exists text e,
                    read_text sample_env_bad_docignore ".docignore" = Ok text
                    /\ PathSpec_from_lines sample_env_bad_docignore
                         (str_splitlines sample_env_bad_docignore text) = Raise e)).
  { right. left. eexists. reflexivity. }
  split; [exact H|].
  destruct (docignore_fallback_excludes_nothing sample_env_bad_docignore ".docignore"
              initial_state H) as (s' & Hrun & _ & Hwarn & _).
  exists s'. split; [exact Hrun|].
  destruct (Hwarn eq_refl) as (e & ->). reflexivity.
Defined.

Lemma generation_aborts_witness :
  ((exists e, git_Repo sample_env = Raise e)
   \/ (exists repo h e, git_Repo sample_env = Ok repo
                        /\ Some "deadbeef" = Some h /\ h <> ""
                        /\ repo_commit repo h = Raise e))
  /\ exists report : string,
       @generate_documentation sample_lib sample_env (Some "deadbeef") initial_state
       = (Ok false, mk_State [report] [] [] 0 None).
Proof.
  assert (H : (exists e, git_Repo sample_env = Raise e)
              \/ (exists repo h e, git_Repo sample_env = Ok repo
                                   /\ Some "deadbeef" = Some h /\ h <> ""
                                   /\ repo_commit repo h = Raise e)).
  { right. exists sample_repo, "deadbeef". eexists.
    repeat split; try reflexivity. discriminate. }
  split; [exact H|].
  exact (@generation_aborts_before_any_file sample_lib sample_env (Some "deadbeef")
           initial_state H).
Defined.

(** A run that goes through writes one record per file, the index and the
    structure map. *)
Example generation_writes_the_snapshot :
  fst (@generate_documentation sample_lib sample_env None initial_state) = Ok true
  /\ map fst (written (snd (@generate_documentation sample_lib sample_env None initial_state)))
     = [".docshadow/a.py.json"; ".docshadow/index.json"; ".docshadow/docshadow.json"].
Proof. split; reflexivity. Qed.

(** ** Two runs that differ in the clock *)

Lemma structural_output_eq (s1 s2 : State) :
  structural_output s1 = structural_output s2
  <-> console s1 = console s2 /\ made_dirs s1 = made_dirs s2
      /\ map (fun pv => (fst pv, erase_generated_at (snd pv))) (written s1)
         = map (fun pv => (fst pv, erase_generated_at (snd pv))) (written s2)
      /\ current_file s1 = current_file s2.
Proof.
  unfold structural_output. split.
  - intros H. inversion H. auto.
  - intros (-> & -> & -> & ->). reflexivity.
Qed.

Lemma agree_ret {A} (R : A -> A -> Prop) (a b : A) :
  R a b -> agree R (ret a) (ret b).
Proof. intros Hab s1 s2 Hs. now split. Qed.

Lemma agree_lift {A} (R : A -> A -> Prop) (r1 r2 : result A) :
  same_result R r1 r2 -> agree R (lift r1) (lift r2).
Proof. intros Hr s1 s2 Hs. now split. Qed.

Lemma same_result_refl {A} (r : result A) : same_result eq r r.
Proof. destruct r; reflexivity. Qed.

Lemma agree_bind {A B} (R : A -> A -> Prop) (Q : B -> B -> Prop)
      (m1 m2 : IO A) (k1 k2 : A -> IO B) :
  agree R m1 m2 ->
  (forall a b, R a b -> agree Q (k1 a) (k2 b)) ->
  agree Q (io_bind m1 k1) (io_bind m2 k2).
Proof.
  intros Hm Hk s1 s2 Hs. unfold io_bind.
  destruct (Hm s1 s2 Hs) as [Hr Hs'].
  destruct (m1 s1) as [[a|e1] t1], (m2 s2) as [[b|e2] t2]; simpl in *;
    try contradiction.
  - now apply Hk.
  - now split.
Qed.

Lemma agree_try_except {A} (R : A -> A -> Prop) (m1 m2 : IO A) (h1 h2 : exn -> IO A) :
  agree R m1 m2 ->
  (forall e, agree R (h1 e) (h2 e)) ->
  agree R (try_except m1 h1) (try_except m2 h2).
Proof.
  intros Hm Hh s1 s2 Hs. unfold try_except.
  destruct (Hm s1 s2 Hs) as [Hr Hs'].
  destruct (m1 s1) as [[a|e1] t1], (m2 s2) as [[b|e2] t2]; simpl in *;
    try contradiction.
  - now split.
  - subst e2. now apply Hh.
Qed.

Lemma agree_try_except_class {A} (R : A -> A -> Prop) (m1 m2 : IO A)
      (cls : exn_class) (h1 h2 : IO A) :
  agree R m1 m2 ->
  agree R h1 h2 ->
  agree R (try_except_class m1 cls h1) (try_except_class m2 cls h2).
Proof.
  intros Hm Hh s1 s2 Hs. unfold try_except_class.
  destruct (Hm s1 s2 Hs) as [Hr Hs'].
  destruct (m1 s1) as [[a|e1] t1], (m2 s2) as [[b|e2] t2]; simpl in *;
    try contradiction.
  - now split.
  - subst e2. destruct (exn_class_eqb (exn_kind e1) cls); [now apply Hh|now split].
Qed.

Lemma agree_for_io {X S} (R : S -> S -> Prop) (body1 body2 : S -> X -> IO S) :
  (forall acc1 acc2 x, R acc1 acc2 -> agree R (body1 acc1 x) (body2 acc2 x)) ->
  forall (l : list X) (acc1 acc2 : S),
    R acc1 acc2 -> agree R (for_io l acc1 body1) (for_io l acc2 body2).
Proof.
  intros Hbody. induction l as [|x l IH]; intros acc1 acc2 Hacc; simpl.
  - now apply agree_ret.
  - eapply agree_bind; [now apply Hbody|]. intros a b Hab. now apply IH.
Qed.

Lemma agree_echo (msg : string) : agree eq (echo msg) (echo msg).
Proof.
  intros s1 s2 Hs. apply structural_output_eq in Hs.
  destruct Hs as (Hc & Hd & Hw & Hf). split; [reflexivity|].
  apply structural_output_eq. simpl. rewrite Hc. auto.
Qed.

Lemma agree_set_current_file (file_path : string) :
  agree eq (set_current_file file_path) (set_current_file file_path).
Proof.
  intros s1 s2 Hs. apply structural_output_eq in Hs.
  destruct Hs as (Hc & Hd & Hw & Hf). split; [reflexivity|].
  apply structural_output_eq. simpl. auto.
Qed.

Lemma agree_ensure_directory (env : Env) (clock' : nat -> string) (path : string) :
  agree eq (ensure_directory env path) (ensure_directory (with_clock env clock') path).
Proof.
  intros s1 s2 Hs. apply structural_output_eq in Hs.
  destruct Hs as (Hc & Hd & Hw & Hf). unfold ensure_directory. simpl.
  destruct (mkdir_error env path); simpl.
  - split; [reflexivity|]. apply structural_output_eq. auto.
  - split; [reflexivity|]. apply structural_output_eq. simpl. rewrite Hd. auto.
Qed.

Lemma agree_write_json (env : Env) (clock' : nat -> string) (path : string)
      (data1 data2 : value) :
  erase_generated_at data1 = erase_generated_at data2 ->
  agree eq (write_json env path data1) (write_json (with_clock env clock') path data2).
Proof.
  intros Hdata s1 s2 Hs. apply structural_output_eq in Hs.
  destruct Hs as (Hc & Hd & Hw & Hf). unfold write_json. simpl.
  destruct (open_error env path); simpl.
  - split; [reflexivity|]. apply structural_output_eq. auto.
  - split; [reflexivity|]. apply structural_output_eq. simpl.
    rewrite !map_app, Hw. simpl. rewrite Hdata. auto.
Qed.

(** The clock is the one place where the two runs may read different
    values. *)
Lemma agree_now (env : Env) (clock' : nat -> string) :
  agree (fun _ _ => True) (now_isoformat env) (now_isoformat (with_clock env clock')).
Proof.
  intros s1 s2 Hs. apply structural_output_eq in Hs.
  destruct Hs as (Hc & Hd & Hw & Hf). split; [exact I|].
  apply structural_output_eq. simpl. auto.
Qed.

Lemma agree_interrupted (env : Env) (clock' : nat -> string) (tree : node) :
  agree eq (interrupted env tree) (interrupted (with_clock env clock') tree).
Proof.
  intros s1 s2 Hs. unfold interrupted, raise, ret. simpl.
  destruct (runtime_error env tree); simpl; split; auto.
Qed.

Section RunsAgree.
Context {lib : PyLib}.
Variable env : Env.
Variable clock' : nat -> string.

Lemma agree_extract_from_file (file_path : string) :
  agree (fun record1 record2 => erase_generated_at record1 = erase_generated_at record2)
        (extract_from_file env file_path)
        (extract_from_file (with_clock env clock') file_path).
Proof.
  unfold extract_from_file.
  eapply agree_bind; [apply agree_set_current_file|]. intros _ _ _.
  apply agree_try_except.
  - eapply agree_bind; [apply agree_lift, same_result_refl|].
    intros source_code ? <-. simpl ast_parse.
    eapply agree_bind; [apply agree_lift, same_result_refl|].
    intros body ? <-. cbv zeta.
    eapply agree_bind; [apply agree_interrupted|]. intros _ _ _.
    eapply agree_bind; [apply agree_lift, same_result_refl|]. intros ? ? <-.
    eapply agree_bind; [apply agree_lift, same_result_refl|]. intros ? ? <-.
    eapply agree_bind; [apply agree_lift, same_result_refl|]. intros ? ? <-.
    eapply agree_bind; [apply agree_lift, same_result_refl|]. intros ? ? <-.
    eapply agree_bind; [apply agree_now|]. intros t1 t2 _.
    apply agree_ret. reflexivity.
  - intros e.
    eapply agree_bind; [apply agree_echo|]. intros _ _ _.
    eapply agree_bind; [apply agree_now|]. intros t1 t2 _.
    apply agree_ret. reflexivity.
Qed.

Lemma agree_get_git_repo :
  agree eq (get_git_repo env) (get_git_repo (with_clock env clock')).
Proof.
  unfold get_git_repo. apply agree_try_except_class.
  - eapply agree_bind; [apply agree_lift, same_result_refl|]. intros ? ? <-.
    now apply agree_ret.
  - now apply agree_ret.
Qed.

Lemma agree_get_commit_info (repo : Repo) (commit_hash : option string) :
  agree eq (get_commit_info env repo commit_hash)
           (get_commit_info (with_clock env clock') repo commit_hash).
Proof.
  unfold get_commit_info.
  eapply agree_bind.
  - destruct (match commit_hash with Some h => negb (String.eqb h "") | None => false end).
    + apply agree_try_except_class.
      * eapply agree_bind; [apply agree_lift, same_result_refl|]. intros ? ? <-.
        now apply agree_ret.
      * eapply agree_bind; [apply agree_echo|]. intros _ _ _. now apply agree_ret.
    + eapply agree_bind; [apply agree_lift, same_result_refl|]. intros ? ? <-.
      now apply agree_ret.
  - intros found ? <-. destruct found as [commit|]; [|now apply agree_ret].
    eapply agree_bind; [apply agree_lift, same_result_refl|]. intros ? ? <-.
    now apply agree_ret.
Qed.

Lemma agree_load_docignore (docignore_path : string) :
  agree eq (load_docignore env docignore_path)
           (load_docignore (with_clock env clock') docignore_path).
Proof.
  unfold load_docignore. simpl path_exists.
  destruct (negb (path_exists env docignore_path)); [now apply agree_ret|].
  apply agree_try_except.
  - eapply agree_bind; [apply agree_lift, same_result_refl|]. intros ? ? <-.
    eapply agree_bind; [apply agree_lift, same_result_refl|]. intros ? ? <-.
    now apply agree_ret.
  - intros e. eapply agree_bind; [apply agree_echo|]. intros _ _ _. now apply agree_ret.
Qed.

Lemma agree_generate_documentation (commit_hash : option string) :
  agree eq (generate_documentation env commit_hash)
           (generate_documentation (with_clock env clock') commit_hash).
Proof.
  unfold generate_documentation.
  apply agree_try_except.
  2:{ intros e. eapply agree_bind; [apply agree_echo|]. intros _ _ _. now apply agree_ret. }
  eapply agree_bind; [apply agree_get_git_repo|]. intros repo ? <-.
  destruct repo as [repo|].
  2:{ eapply agree_bind; [apply agree_echo|]. intros _ _ _. now apply agree_ret. }
  eapply agree_bind; [apply agree_get_commit_info|]. intros commit_info ? <-.
  destruct commit_info as [commit_info|]; [|now apply agree_ret].
  eapply agree_bind; [apply agree_lift, same_result_refl|]. intros ? ? <-.
  eapply agree_bind; [apply agree_echo|]. intros _ _ _.
  eapply agree_bind; [apply agree_load_docignore|]. intros docignore_spec ? <-.
  change (get_python_files (with_clock env clock') docignore_spec)
    with (get_python_files env docignore_spec).
  destruct (get_python_files env docignore_spec) as [|py_file0 others] eqn:Hfiles.
  { eapply agree_bind; [apply agree_echo|]. intros _ _ _. now apply agree_ret. }
  eapply agree_bind; [apply agree_ensure_directory|]. intros _ _ _.
  eapply agree_bind.
  { apply (agree_for_io (R := eq)); [|reflexivity].
    intros documented_files ? py_file <-.
    eapply agree_bind; [apply agree_echo|]. intros _ _ _.
    eapply agree_bind; [apply agree_extract_from_file|]. intros record1 record2 Hrecord.
    cbv zeta.
    eapply agree_bind; [apply agree_ensure_directory|]. intros _ _ _.
    eapply agree_bind; [now apply agree_write_json|]. intros _ _ _.
    now apply agree_ret. }
  intros documented_files ? <-.
  eapply agree_bind; [apply agree_lift, same_result_refl|]. intros ? ? <-.
  eapply agree_bind; [apply agree_lift, same_result_refl|]. intros ? ? <-.
  eapply agree_bind; [apply agree_lift, same_result_refl|]. intros ? ? <-.
  eapply agree_bind; [apply agree_lift, same_result_refl|]. intros ? ? <-.
  eapply agree_bind; [apply agree_lift, same_result_refl|]. intros ? ? <-.
  cbv zeta.
  eapply agree_bind; [now apply agree_write_json|]. intros _ _ _.
  eapply agree_bind; [apply agree_lift, same_result_refl|]. intros ? ? <-.
  eapply agree_bind; [apply agree_now|]. intros t1 t2 _.
  eapply agree_bind; [apply agree_lift, same_result_refl|]. intros ? ? <-.
  cbv zeta.
  eapply agree_bind; [apply agree_write_json; reflexivity|]. intros _ _ _.
  eapply agree_bind; [apply agree_echo|]. intros _ _ _.
  eapply agree_bind; [apply agree_echo|]. intros _ _ _.
  eapply agree_bind; [apply agree_echo|]. intros _ _ _.
  eapply agree_bind; [apply agree_echo|]. intros _ _ _.
  now apply agree_ret.
Qed.

End RunsAgree.

Lemma dict_get_remove (key removed : string) (d : dict) :
  key <> removed -> dict_get key (dict_remove removed d) = dict_get key d.
Proof.
  intros Hneq. induction d as [|[k v] d IH]; simpl; [reflexivity|].
  destruct (String.eqb_spec removed k) as [->|Hk]; simpl.
  - destruct (String.eqb_spec key k) as [->|_]; [contradiction|exact IH].
  - destruct (String.eqb key k); [reflexivity|exact IH].
Qed.

Lemma erase_generated_at_fields (v1 v2 : value) :
  erase_generated_at v1 = erase_generated_at v2 ->
  forall key, key <> "generated_at" -> field key v1 = field key v2.
Proof.
  intros Herase key Hkey.
  assert (H : field key (erase_generated_at v1) = field key (erase_generated_at v2))
    by now rewrite Herase.
  assert (Hfield : forall v, field key (erase_generated_at v) = field key v).
  { intros v. destruct v; try reflexivity. unfold field. simpl.
    now apply dict_get_remove. }
  now rewrite !Hfield in H.
Qed.

Lemma same_result_eq {A} (r1 r2 : result A) : same_result eq r1 r2 -> r1 = r2.
Proof.
  destruct r1, r2; simpl; try contradiction; congruence.
Qed.

(** What a run writes does not change what the next run finds: a hidden
    directory such as [.docshadow] is never walked into. *)
Lemma hidden_directory_not_walked (root : string) (files : list string)
      (dirs : list (string * dirtree)) (hidden : string) (below : dirtree)
      (docignore_spec : option PathSpec) :
  startswith hidden "." = true ->
  python_files_under root (Dir files (dirs ++ [(hidden, below)])) docignore_spec
  = python_files_under root (Dir files dirs) docignore_spec.
Proof.
  intros Hhidden. simpl. f_equal.
  induction dirs as [|[d sub] dirs IH]; simpl.
  - now rewrite Hhidden.
  - now rewrite IH.
Qed.

Section SnapshotTheorems.
Context {lib : PyLib}.

(** C8. Two runs of the snapshot in the same environment (the same files,
    the same repository and commit), whose clocks differ in any way: both
    end with the same outcome and the same console output, create the same
    directories and write the same files in the same order; each file
    holds the same record but for the value of [generated_at], so every
    other field (the module docstring, imports, classes, functions and
    constants of a source file, the fields of the index, the structure map)
    is the same in both runs. *)
Theorem snapshot_repeatable_up_to_timestamp (env : Env) (clock' : nat -> string)
        (commit_hash : option string) (s : State) (k : nat) :
  let run1 := generate_documentation env commit_hash s in
  let run2 := generate_documentation (with_clock env clock') commit_hash (with_ticks s k) in
  fst run1 = fst run2
  /\ console (snd run1) = console (snd run2)
  /\ made_dirs (snd run1) = made_dirs (snd run2)
  /\ map (fun pv => (fst pv, erase_generated_at (snd pv))) (written (snd run1))
     = map (fun pv => (fst pv, erase_generated_at (snd pv))) (written (snd run2))
  /\ Forall2 (fun file1 file2 =>
                fst file1 = fst file2
                /\ forall key, key <> "generated_at" ->
                               field key (snd file1) = field key (snd file2))
             (written (snd run1)) (written (snd run2)).
Proof.
  intros run1 run2.
  assert (Hstart : structural_output s = structural_output (with_ticks s k)) by reflexivity.
  destruct (agree_generate_documentation env clock' commit_hash Hstart) as [Hres Hout].
  fold run1 run2 in Hres, Hout.
  apply same_result_eq in Hres. apply structural_output_eq in Hout.
  destruct Hout as (Hc & Hd & Hw & _).
  repeat (split; [assumption|]).
  clear - Hw. revert Hw.
  generalize (written (snd run1)) (written (snd run2)). clear.
  induction l as [|[p1 v1] l IH]; intros [|[p2 v2] l'] Hw; simpl in *;
    try discriminate; constructor.
  - inversion Hw; subst. split; [reflexivity|].
    now apply erase_generated_at_fields.
  - inversion Hw. now apply IH.
Qed.

End SnapshotTheorems.

(** ** The sample trees *)

Example nested_module_classes :
  option_map (map (field "name"))
    (match @_extract_classes sample_lib nested_module with
     | Ok classes => Some classes
     | Raise _ => None
     end)
  = Some [Some (VStr "Outer"); Some (VStr "Inner"); Some (VStr "Nested")].
Proof. reflexivity. Qed.

Example nested_module_functions :
  option_map (map (field "name"))
    (match @_extract_functions sample_lib nested_module with
     | Ok functions => Some functions
     | Raise _ => None
     end)
  = Some [Some (VStr "f")].
Proof. reflexivity. Qed.

Example properties_of_sample_class :
  @_extract_properties sample_lib class_with_properties
  = Ok [VDict [("name", VStr "size"); ("docstring", VNone);
               ("line_number", VInt 2); ("type", VStr "property")];
        VDict [("name", VStr "volume"); ("docstring", VNone);
               ("line_number", VInt 6); ("type", VStr "property")]].
Proof. reflexivity. Qed.

Example methods_of_sample_class :
  option_map (map (field "name"))
    (match @_extract_methods sample_lib class_with_properties with
     | Ok methods => Some methods
     | Raise _ => None
     end)
  = Some [Some (VStr "size"); Some (VStr "area"); Some (VStr "volume"); Some (VStr "grow")].
Proof. reflexivity. Qed.

(** * Further properties of the extractor *)

(** ** Strings *)

Lemma append_assoc (s1 s2 s3 : string) : ((s1 ++ s2) ++ s3 = s1 ++ (s2 ++ s3))%string.
Proof. induction s1 as [|c s1 IH]; simpl; congruence. Qed.

Lemma append_nil_r (s : string) : (s ++ "")%string = s.
Proof. induction s as [|c s IH]; simpl; congruence. Qed.

Lemma length_append (s1 s2 : string) :
  String.length (s1 ++ s2) = (String.length s1 + String.length s2)%nat.
Proof. induction s1 as [|c s1 IH]; simpl; congruence. Qed.

Lemma list_ascii_of_append (s1 s2 : string) :
  list_ascii_of_string (s1 ++ s2)
  = list_ascii_of_string s1 ++ list_ascii_of_string s2.
Proof. induction s1 as [|c s1 IH]; simpl; congruence. Qed.

(** ** The order of [ast.walk] *)

(** The queue is yielded as it stands before any child of its nodes. *)
Lemma walk_loop_level :
  forall (todo pending : list node) (fuel : nat),
    (List.length todo <= fuel)%nat ->
    walk_loop fuel (todo ++ pending)
    = todo ++ walk_loop (fuel - List.length todo)
                        (pending ++ flat_map iter_child_nodes todo).
Proof.
  induction todo as [|n todo IH]; intros pending fuel Hfuel; simpl.
  - now rewrite Nat.sub_0_r, app_nil_r.
  - destruct fuel as [|fuel]; simpl in *; [lia|].
    f_equal. rewrite <- app_assoc, IH by lia. now rewrite <- app_assoc.
Qed.

Lemma node_size_Module (body : list node) :
  (S (List.length body) <= node_size (Module body))%nat.
Proof.
  unfold node_size. simpl. apply le_n_S.
  induction body as [|n body IH]; simpl; [lia|].
  rewrite length_app, subnodes_children. simpl. lia.
Qed.

(** The walk of a module: the module, its statements in order, then
    everything below them. *)
Lemma walk_Module (body : list node) :
  exists deeper : list node, walk (Module body) = Module body :: body ++ deeper.
Proof.
  unfold walk. pose proof (node_size_Module body) as Hsize.
  destruct (node_size (Module body)) as [|fuel]; [lia|]. simpl.
  assert (Hlevel : (List.length body <= fuel)%nat) by lia.
  apply (walk_loop_level body []) in Hlevel. rewrite app_nil_r in Hlevel.
  rewrite Hlevel. eexists. reflexivity.
Qed.

Lemma filter_app_map {X Y} (p : X -> bool) (f : X -> Y) (l1 l2 : list X) :
  map f (filter p (l1 ++ l2)) = map f (filter p l1) ++ map f (filter p l2).
Proof. now rewrite filter_app, map_app. Qed.

Section MoreExtraction.
Context {lib : PyLib}.

Lemma extract_imports_ok (tree : node) :
  _extract_imports tree = flat_map import_entries (walk tree).
Proof.
  unfold _extract_imports.
  rewrite (fold_left_collect _ import_entries); [reflexivity|].
  intros acc n _. destruct n; simpl; rewrite ?app_nil_r; try reflexivity.
  - rewrite (fold_left_collect _
               (fun al => [VDict [("type", VStr "import");
                                  ("module", VStr (alias_name al));
                                  ("alias", opt_str (asname al))]])).
    + now rewrite flat_map_singleton.
    + reflexivity.
  - rewrite (fold_left_collect _
               (fun al => [VDict [("type", VStr "from_import");
                                  ("module", VStr (match module with
                                                   | Some m => m
                                                   | None => ""
                                                   end));
                                  ("name", VStr (alias_name al));
                                  ("alias", opt_str (asname al))]])).
    + now rewrite flat_map_singleton.
    + intros acc' al _. destruct module as [m|]; [|reflexivity].
      destruct (String.eqb_spec m ""); subst; reflexivity.
Qed.

(** X1. The imports of a file are the entries of every [import] and
    [from ... import] statement anywhere in the tree, one per imported
    name (those inside functions, classes and conditionals included); the
    entries of the statements directly in the module body come first, in
    source order. A relative import without a module name has the empty
    string as its module. *)
Theorem imports_from_the_whole_tree (body : list node) :
  Permutation (_extract_imports (Module body))
              (flat_map import_entries (subnodes (Module body)))
  /\ (exists deeper : list value,
        _extract_imports (Module body) = flat_map import_entries body ++ deeper)
  /\ (forall names level ln,
        import_entries (ImportFrom None names level ln)
        = map (fun al => VDict [("type", VStr "from_import");
                                ("module", VStr "");
                                ("name", VStr (alias_name al));
                                ("alias", opt_str (asname al))])
              names).
Proof.
  split; [|split].
  - rewrite extract_imports_ok. apply Permutation_flat_map, walk_subnodes.
  - rewrite extract_imports_ok. destruct (walk_Module body) as (deeper & ->).
    simpl. rewrite flat_map_app. eexists. reflexivity.
  - reflexivity.
Qed.

(** X2. The classes of a module are listed breadth first: the records of
    the classes defined directly in the module body come first, in source
    order, and the records of all nested classes follow. *)
Theorem classes_top_level_first (body : list node) :
  exists deeper : list node,
    walk (Module body) = Module body :: body ++ deeper
    /\ _extract_classes (Module body)
       = Ok (map class_record (filter is_ClassDef body)
               ++ map class_record (filter is_ClassDef deeper)).
Proof.
  destruct (walk_Module body) as (deeper & Hwalk).
  exists deeper. split; [exact Hwalk|].
  rewrite extract_classes_ok, Hwalk. simpl. now rewrite filter_app_map.
Qed.

(** X3. A dotted access [base.a1.a2...an] on a plain identifier resolves
    to the identifier and the attribute names joined with dots. *)
Theorem get_name_dotted_chain (id : string) (attrs : list string) :
  _get_name (dotted (Name id) attrs) = String.concat "." (id :: attrs).
Proof.
  unfold dotted.
  assert (H : forall (base : node) (prefix : list string),
             prefix <> [] ->
             _get_name base = String.concat "." prefix ->
             _get_name (fold_left Attribute attrs base)
             = String.concat "." (prefix ++ attrs)).
  { induction attrs as [|a attrs IH]; intros base prefix Hne Hbase; simpl.
    - now rewrite app_nil_r.
    - rewrite (IH (Attribute base a) (prefix ++ [a])).
      + now rewrite <- app_assoc.
      + now destruct prefix.
      + simpl. rewrite Hbase. clear - Hne.
        induction prefix as [|p [|q prefix] IHp]; simpl in *.
        * contradiction.
        * reflexivity.
        * rewrite <- IHp by discriminate.
          now rewrite !append_assoc. }
  apply (H (Name id) [id]); [discriminate|reflexivity].
Qed.

End MoreExtraction.

Lemma append_dot_neq (x a target : string) :
  ~ In "."%char (list_ascii_of_string target) ->
  String.eqb (x ++ "." ++ a) target = false.
Proof.
  intros Hnodot. apply String.eqb_neq. intros Heq. apply Hnodot.
  rewrite <- Heq, list_ascii_of_append. apply in_or_app. right. now left.
Qed.

Section MethodFlags.
Context {lib : PyLib}.

Lemma get_name_eqb_bare (target : string) (d : node) :
  ~ In "."%char (list_ascii_of_string target) ->
  is_name_or_attribute d = true ->
  String.eqb (_get_name d) target = is_bare_name target d.
Proof.
  intros Hnodot Hd. destruct d; try discriminate; simpl.
  - reflexivity.
  - now apply append_dot_neq.
Qed.

Lemma existsb_get_name_bare (target : string) (decs : list node) :
  ~ In "."%char (list_ascii_of_string target) ->
  forallb is_name_or_attribute decs = true ->
  existsb (fun dec => String.eqb (_get_name dec) target) decs
  = existsb (is_bare_name target) decs.
Proof.
  intros Hnodot. induction decs as [|d decs IH]; simpl; [reflexivity|].
  intros H. apply andb_prop in H. destruct H as [Hd Hdecs].
  now rewrite get_name_eqb_bare, IH.
Qed.

(** X4. For a method whose decorators are names or dotted accesses,
    [is_classmethod] (and [is_staticmethod]) is true exactly when one
    decorator is the bare name [classmethod] ([staticmethod]): a dotted
    access such as [builtins.classmethod] does not count, unlike what the
    property test accepts. *)
Theorem method_flags_need_bare_names name a body (decs : list node) ret ln :
  forallb is_name_or_attribute decs = true ->
  exists r : value,
    _extract_function_info (FunctionDef name a body decs ret ln) true = Ok r
    /\ field "is_classmethod" r
       = Some (VBool (existsb (is_bare_name "classmethod") decs))
    /\ field "is_staticmethod" r
       = Some (VBool (existsb (is_bare_name "staticmethod") decs)).
Proof.
  intros Hdecs. eexists. split; [now apply extract_function_info_ok|].
  simpl.
  rewrite !existsb_get_name_bare; try assumption; try (split; reflexivity).
  - simpl. intuition discriminate.
  - simpl. intuition discriminate.
Qed.

(** X5. The record of a module-level function has eight fields and is
    marked [is_method] false; the record of a method has the same eight and
    then [is_classmethod], [is_staticmethod] and [is_private], and is marked
    [is_method] true. *)
Theorem function_and_method_fields (body : list node) name bases kws decs ln :
  (exists functions : list value,
     _extract_functions (Module body) = Ok functions
     /\ Forall (fun r =>
                  keys_of r = ["name"; "docstring"; "line_number"; "arguments";
                               "decorators"; "is_async"; "is_method"; "returns"]
                  /\ field "is_method" r = Some (VBool false))
               functions)
  /\ (exists methods : list value,
        _extract_methods (ClassDef name bases kws body decs ln) = Ok methods
        /\ Forall (fun r =>
                     keys_of r = ["name"; "docstring"; "line_number"; "arguments";
                                  "decorators"; "is_async"; "is_method"; "returns";
                                  "is_classmethod"; "is_staticmethod"; "is_private"]
                     /\ field "is_method" r = Some (VBool true))
                  methods).
Proof.
  split.
  - eexists. split; [apply extract_functions_ok|].
    apply Forall_map_filter. intros n Hn. destruct n; try discriminate.
    split; reflexivity.
  - eexists. split; [apply extract_methods_ok|].
    apply Forall_map_filter. intros n Hn. destruct n; try discriminate.
    split; reflexivity.
Qed.

End MethodFlags.

Lemma method_flags_witness :
  forallb is_name_or_attribute
    [Attribute (Name "builtins") "classmethod"; Name "staticmethod"] = true
  /\ exists r : value,
       @_extract_function_info sample_lib
         (FunctionDef "make" no_args [pass_stmt]
            [Attribute (Name "builtins") "classmethod"; Name "staticmethod"] None 1)
         true = Ok r
       /\ field "is_classmethod" r = Some (VBool false)
       /\ field "is_staticmethod" r = Some (VBool true).
Proof.
  assert (H : forallb is_name_or_attribute
                [Attribute (Name "builtins") "classmethod"; Name "staticmethod"] = true)
    by reflexivity.
  split; [exact H|].
  exact (@method_flags_need_bare_names sample_lib "make" no_args [pass_stmt]
           [Attribute (Name "builtins") "classmethod"; Name "staticmethod"] None 1 H).
Defined.

(** ** The structure map *)

Lemma dict_get_set_same (k : string) (v : value) (d : dict) :
  dict_get k (dict_set k v d) = Some v.
Proof.
  induction d as [|[k' v'] d IH]; simpl.
  - now rewrite String.eqb_refl.
  - destruct (String.eqb_spec k k') as [->|Hk]; simpl.
    + now rewrite String.eqb_refl.
    + destruct (String.eqb_spec k k'); [contradiction|exact IH].
Qed.

Lemma dict_get_set_other (k k' : string) (v : value) (d : dict) :
  k <> k' -> dict_get k (dict_set k' v d) = dict_get k d.
Proof.
  intros Hneq. induction d as [|[k0 v0] d IH]; simpl.
  - destruct (String.eqb_spec k k'); [contradiction|reflexivity].
  - destruct (String.eqb_spec k' k0) as [->|Hk0]; simpl.
    + destruct (String.eqb_spec k k0); [contradiction|reflexivity].
    + destruct (String.eqb k k0); [reflexivity|exact IH].
Qed.

Lemma dict_keys_set (k : string) (v : value) (d : dict) :
  dict_keys (dict_set k v d)
  = if dict_has k d then dict_keys d else dict_keys d ++ [k].
Proof.
  unfold dict_has, dict_keys.
  induction d as [|[k' v'] d IH]; simpl; [reflexivity|].
  destruct (String.eqb_spec k k') as [->|Hk]; simpl; [reflexivity|].
  rewrite IH. now destruct (dict_get k d).
Qed.

Lemma dict_has_set (k : string) (v : value) (d : dict) :
  dict_has k (dict_set k v d) = true.
Proof. unfold dict_has. now rewrite dict_get_set_same. Qed.

Lemma add_file_unfold (part next : string) (rest : list string) (leaf : string)
      (d : dict) :
  add_file (part :: next :: rest) leaf d
  = match dict_get part (if dict_has part d then d else dict_set part (VDict []) d) with
    | Some (VDict below) =>
        below' <- add_file (next :: rest) leaf below ;;
        Ok (dict_set part (VDict below')
              (if dict_has part d then d else dict_set part (VDict []) d))
    | _ => Raise (mk_exn TypeError "string indices must be integers")
    end.
Proof. reflexivity. Qed.

(** The shape of one step of [add_file] on a path of two segments or
    more. *)
Lemma add_file_step (part next : string) (rest : list string) (leaf : string)
      (d d' : dict) :
  add_file (part :: next :: rest) leaf d = Ok d' ->
  exists below below' : dict,
    dict_get part (if dict_has part d then d else dict_set part (VDict []) d)
    = Some (VDict below)
    /\ (dict_has part d = false -> below = [])
    /\ (dict_has part d = true -> dict_get part d = Some (VDict below))
    /\ add_file (next :: rest) leaf below = Ok below'
    /\ d' = dict_set part (VDict below')
              (if dict_has part d then d else dict_set part (VDict []) d).
Proof.
  rewrite add_file_unfold. intros Hadd.
  destruct (dict_has part d) eqn:Hhas.
  - destruct (dict_get part d) as [[| | | | |below]|] eqn:Hget; try discriminate.
    destruct (add_file (next :: rest) leaf below) as [below'|e] eqn:Hbelow;
      try discriminate.
    simpl in Hadd. inversion Hadd; subst.
    exists below, below'.
    split; [reflexivity|]. split; [discriminate|]. split; [reflexivity|].
    split; [exact Hbelow|reflexivity].
  - rewrite dict_get_set_same in Hadd.
    destruct (add_file (next :: rest) leaf []) as [below'|e] eqn:Hbelow;
      try discriminate.
    simpl in Hadd. inversion Hadd; subst.
    exists [], below'.
    split; [apply dict_get_set_same|]. split; [reflexivity|]. split; [discriminate|].
    split; [exact Hbelow|reflexivity].
Qed.

Lemma lookup_path_unfold (part next : string) (rest : list string) (d : dict) :
  lookup_path (part :: next :: rest) d
  = match dict_get part d with
    | Some (VDict below) => lookup_path (next :: rest) below
    | _ => None
    end.
Proof. reflexivity. Qed.

Lemma lookup_path_nil (q : list string) : lookup_path q [] = None.
Proof. destruct q as [|a [|b q]]; reflexivity. Qed.

Lemma lookup_path_same_entry (b : string) (q : list string) (d1 d2 : dict) :
  dict_get b d1 = dict_get b d2 ->
  lookup_path (b :: q) d1 = lookup_path (b :: q) d2.
Proof.
  intros Hget. destruct q as [|c q]; simpl; [assumption|]. now rewrite Hget.
Qed.

Lemma dict_has_false (k : string) (d : dict) :
  dict_has k d = false -> dict_get k d = None.
Proof. unfold dict_has. now destruct (dict_get k d). Qed.

Lemma dict_get_current (b part : string) (d : dict) :
  b <> part ->
  dict_get b (if dict_has part d then d else dict_set part (VDict []) d) = dict_get b d.
Proof.
  intros Hneq. destruct (dict_has part d); [reflexivity|].
  now apply dict_get_set_other.
Qed.

Lemma add_file_lookup_all :
  forall (parts : list string) (leaf : string) (d d' : dict),
    add_file parts leaf d = Ok d' ->
    lookup_path parts d' = Some (VStr leaf)
    /\ (forall q more, parts = q ++ more -> q <> [] -> more <> [] ->
          exists below, lookup_path q d' = Some (VDict below))
    /\ (forall more, more <> [] -> lookup_path (parts ++ more) d' = None).
Proof.
  induction parts as [|part rest IH]; intros leaf d d' Hadd; [discriminate|].
  destruct rest as [|next rest].
  - simpl in Hadd. inversion Hadd; subst. split; [|split].
    + simpl. apply dict_get_set_same.
    + intros q more Hsplit Hq Hmore. destruct q as [|a q]; [contradiction|].
      destruct q; destruct more; try contradiction; discriminate.
    + intros more Hmore. destruct more as [|m more]; [contradiction|].
      simpl. now rewrite dict_get_set_same.
  - apply add_file_step in Hadd.
    destruct Hadd as (below & below' & _ & _ & _ & Hbelow & ->).
    destruct (IH _ _ _ Hbelow) as (Hleaf & Hdirs & Hbeyond). split; [|split].
    + rewrite lookup_path_unfold, dict_get_set_same. exact Hleaf.
    + intros q more Hsplit Hq Hmore. destruct q as [|a q]; [contradiction|].
      simpl in Hsplit. inversion Hsplit; subst a.
      destruct q as [|b q].
      * simpl. rewrite dict_get_set_same. now eexists.
      * rewrite lookup_path_unfold, dict_get_set_same.
        apply (Hdirs (b :: q) more); [assumption|discriminate|assumption].
    + intros more Hmore.
      change ((part :: next :: rest) ++ more) with (part :: next :: (rest ++ more)).
      rewrite lookup_path_unfold, dict_get_set_same.
      now apply (Hbeyond more).
Qed.

Lemma add_file_frame :
  forall (parts q : list string) (leaf : string) (d d' : dict),
    diverge parts q = true ->
    add_file parts leaf d = Ok d' ->
    lookup_path q d' = lookup_path q d.
Proof.
  induction parts as [|part rest IH]; intros q leaf d d' Hdiv Hadd; [discriminate|].
  destruct q as [|b q]; [discriminate|]. simpl in Hdiv.
  destruct (String.eqb_spec part b) as [<-|Hneq].
  - destruct rest as [|next rest]; [discriminate|].
    destruct q as [|c q]; [discriminate|].
    apply add_file_step in Hadd.
    destruct Hadd as (below & below' & _ & Hfresh & Hold & Hbelow & ->).
    rewrite !lookup_path_unfold, dict_get_set_same.
    rewrite (IH _ _ _ _ Hdiv Hbelow).
    destruct (dict_has part d) eqn:Hhas.
    + now rewrite (Hold eq_refl).
    + rewrite (dict_has_false _ _ Hhas), (Hfresh eq_refl). apply lookup_path_nil.
  - assert (Hb : b <> part) by congruence.
    apply lookup_path_same_entry.
    destruct rest as [|next rest].
    + simpl in Hadd. inversion Hadd; subst. now apply dict_get_set_other.
    + apply add_file_step in Hadd.
      destruct Hadd as (below & below' & _ & _ & _ & _ & ->).
      rewrite dict_get_set_other by assumption. now apply dict_get_current.
Qed.

(** X6. After [add_file] has put a file into the structure map, following
    the file's path segments leads to the file's leaf (whatever was there
    before is replaced: the last writer wins), every directory on the way
    is a nested map, and nothing is found below the file itself. *)
Theorem add_file_then_lookup (parts : list string) (leaf : string) (d d' : dict) :
  add_file parts leaf d = Ok d' ->
  lookup_path parts d' = Some (VStr leaf)
  /\ (forall q more, parts = q ++ more -> q <> [] -> more <> [] ->
        exists below, lookup_path q d' = Some (VDict below))
  /\ (forall more, more <> [] -> lookup_path (parts ++ more) d' = None).
Proof.
  intros Hadd.
  destruct (@add_file_lookup_all parts leaf d d' Hadd) as (Hleaf & Hdirs & Hbeyond).
  split; [exact Hleaf|]. split; [exact Hdirs|exact Hbeyond].
Qed.

(** X7. Putting one file into the structure map leaves every path that
    parts ways with the file's path as it was. *)
Theorem add_file_keeps_other_paths (parts q : list string) (leaf : string) (d d' : dict) :
  diverge parts q = true ->
  add_file parts leaf d = Ok d' ->
  lookup_path q d' = lookup_path q d.
Proof.
  intros Hdiv Hadd. rewrite (@add_file_frame parts q leaf d d' Hdiv Hadd). reflexivity.
Qed.

(** X8. [add_file] keeps the order of the entries at the top of the map:
    when the first segment of the path is already a key the keys are
    unchanged, otherwise the segment becomes the last key. *)
Theorem add_file_key_order (part : string) (rest : list string) (leaf : string)
        (d d' : dict) :
  add_file (part :: rest) leaf d = Ok d' ->
  dict_keys d' = if dict_has part d then dict_keys d else dict_keys d ++ [part].
Proof.
  intros Hadd. destruct rest as [|next rest].
  - simpl in Hadd. inversion Hadd; subst. apply dict_keys_set.
  - apply add_file_step in Hadd.
    destruct Hadd as (below & below' & _ & _ & _ & _ & ->).
    rewrite dict_keys_set.
    destruct (dict_has part d) eqn:Hhas.
    + now rewrite Hhas.
    + now rewrite dict_has_set, dict_keys_set, Hhas.
Qed.

Lemma add_file_through_leaf :
  forall (q more : list string) (leaf : string) (d : dict) (v : value),
    q <> [] -> more <> [] ->
    lookup_path q d = Some v -> is_dict v = false ->
    exists e, add_file (q ++ more) leaf d = Raise e /\ exn_kind e = TypeError.
Proof.
  induction q as [|a q IH]; intros more leaf d v Hq Hmore Hlookup Hv; [contradiction|].
  destruct more as [|m more]; [contradiction|].
  destruct q as [|b q].
  - simpl in Hlookup. change ([a] ++ m :: more) with (a :: m :: more).
    rewrite add_file_unfold. unfold dict_has. rewrite Hlookup, Hlookup.
    destruct v; try discriminate; eexists; split; reflexivity.
  - rewrite lookup_path_unfold in Hlookup.
    destruct (dict_get a d) as [[| | | | |below]|] eqn:Hget; try discriminate.
    change ((a :: b :: q) ++ m :: more) with (a :: b :: (q ++ m :: more)).
    rewrite add_file_unfold. unfold dict_has. rewrite Hget, Hget.
    destruct (IH (m :: more) leaf below v) as (e & Hraise & Hkind);
      try assumption; try discriminate.
    change (b :: q ++ m :: more) with ((b :: q) ++ m :: more).
    rewrite Hraise. exists e. split; [reflexivity|assumption].
Qed.

Lemma add_file_succeeds :
  forall (parts : list string) (leaf : string) (d : dict),
    parts <> [] ->
    (forall q more v, parts = q ++ more -> q <> [] -> more <> [] ->
                      lookup_path q d = Some v -> is_dict v = true) ->
    exists d', add_file parts leaf d = Ok d'.
Proof.
  induction parts as [|part rest IH]; intros leaf d Hne Hdirs; [contradiction|].
  destruct rest as [|next rest]; [now eexists|].
  rewrite add_file_unfold.
  destruct (dict_has part d) eqn:Hhas.
  - unfold dict_has in Hhas. destruct (dict_get part d) as [v|] eqn:Hget; [|discriminate].
    assert (Hv : is_dict v = true).
    { apply (Hdirs [part] (next :: rest) v); try reflexivity; try discriminate.
      exact Hget. }
    destruct v as [| | | | |below]; try discriminate.
    destruct (IH leaf below) as (below' & Hbelow); [discriminate| |].
    + intros q more v Hsplit Hq Hmore Hlookup.
      destruct q as [|b q]; [contradiction|].
      apply (Hdirs (part :: b :: q) more v); try assumption; try discriminate.
      * simpl. simpl in Hsplit. now rewrite Hsplit.
      * now rewrite lookup_path_unfold, Hget.
    + rewrite Hbelow. now eexists.
  - rewrite dict_get_set_same.
    destruct (IH leaf []) as (below' & Hbelow); [discriminate| |].
    + intros q more v _ _ _ Hlookup. now rewrite lookup_path_nil in Hlookup.
    + rewrite Hbelow. now eexists.
Qed.

(** X9. [add_file] succeeds exactly when the path has a segment and no
    directory on the way is already taken by something that is not a nested
    map (a file's leaf); in that case it raises [TypeError], and on an empty
    path [IndexError]. *)
Theorem add_file_succeeds_iff (parts : list string) (leaf : string) (d : dict) :
  ((exists d', add_file parts leaf d = Ok d')
   <-> parts <> []
       /\ forall q more v, parts = q ++ more -> q <> [] -> more <> [] ->
                           lookup_path q d = Some v -> is_dict v = true)
  /\ (parts = [] -> exists e, add_file parts leaf d = Raise e /\ exn_kind e = IndexError)
  /\ (forall q more v, parts = q ++ more -> q <> [] -> more <> [] ->
        lookup_path q d = Some v -> is_dict v = false ->
        exists e, add_file parts leaf d = Raise e /\ exn_kind e = TypeError).
Proof.
  split; [split|split].
  - intros (d' & Hadd). split.
    + intros ->. discriminate.
    + intros q more v -> Hq Hmore Hlookup.
      destruct (is_dict v) eqn:Hv; [reflexivity|].
      destruct (@add_file_through_leaf q more leaf d v Hq Hmore Hlookup Hv) as (e & Hraise & _).
      congruence.
  - intros (Hne & Hdirs). now apply add_file_succeeds.
  - intros ->. eexists. split; reflexivity.
  - intros q more v -> Hq Hmore Hlookup Hv.
    now apply (@add_file_through_leaf q more leaf d v Hq Hmore Hlookup Hv).
Qed.

Lemma diverge_prefix (q more : list string) : diverge (q ++ more) q = false.
Proof.
  induction q as [|a q IH]; simpl.
  - now destruct more.
  - now rewrite String.eqb_refl.
Qed.

Lemma app_more_nil {X} (p more : list X) : p = p ++ more -> more = [].
Proof.
  intros H. apply (f_equal (@List.length X)) in H. rewrite length_app in H.
  destruct more; [reflexivity|simpl in H; lia].
Qed.

(** Two paths are equal, part ways, or one runs through the other. *)
Lemma path_trichotomy :
  forall p q : list string,
    p = q \/ diverge p q = true
    \/ (exists more, more <> [] /\ p = q ++ more)
    \/ (exists more, more <> [] /\ q = p ++ more).
Proof.
  induction p as [|a p IH]; intros [|b q].
  - now left.
  - right. right. right. exists (b :: q). split; [discriminate|reflexivity].
  - right. right. left. exists (a :: p). split; [discriminate|reflexivity].
  - simpl. destruct (String.eqb_spec a b) as [<-|Hneq]; [|now right; left].
    destruct (IH q) as [->|[Hdiv|[(more & Hmore & ->)|(more & Hmore & ->)]]].
    + now left.
    + now right; left.
    + right. right. left. now exists more.
    + right. right. right. now exists more.
Qed.

Lemma add_files_filed :
  forall (todo done : list string) (d : dict),
    (forall f, In f (done ++ todo) -> path_parts f <> []) ->
    (forall f g, In f (done ++ todo) -> In g (done ++ todo) ->
                 f = g \/ diverge (path_parts f) (path_parts g) = true) ->
    filed d done ->
    exists d',
      for_each todo d
        (fun structure py_file =>
           add_file (path_parts py_file) (py_file ++ ".json") structure) = Ok d'
      /\ filed d' (done ++ todo).
Proof.
  induction todo as [|f todo IH]; intros done d Hparts Hapart [Hfound Hleaves].
  - exists d. rewrite app_nil_r. now repeat split.
  - assert (Hf : In f (done ++ f :: todo)) by (apply in_or_app; right; now left).
    assert (Hdone : forall g, In g done -> In g (done ++ f :: todo))
      by (intros g Hg; apply in_or_app; now left).
    destruct (@add_file_succeeds (path_parts f) (f ++ ".json") d) as (d1 & Hadd).
    { now apply Hparts. }
    { intros q more v Hsplit Hq Hmore Hlookup.
      destruct (is_dict v) eqn:Hv; [reflexivity|exfalso].
      destruct (Hleaves q v Hlookup Hv) as (g & Hg & -> & _).
      destruct (Hapart f g Hf (Hdone g Hg)) as [->|Hdiv].
      - apply app_more_nil in Hsplit. contradiction.
      - rewrite Hsplit, diverge_prefix in Hdiv. discriminate. }
    destruct (@add_file_lookup_all _ _ _ _ Hadd) as (Hleaf & Hdirs & Hbeyond).
    simpl. rewrite Hadd. simpl.
    destruct (IH (done ++ [f]) d1) as (d' & Hrun & Hfiled).
    + intros g Hg. apply Hparts. now rewrite <- app_assoc in Hg.
    + intros g h Hg Hh. apply Hapart; now rewrite <- app_assoc in *.
    + split.
      * intros g Hg. apply in_app_or in Hg. destruct Hg as [Hg|[<-|[]]]; [|exact Hleaf].
        destruct (Hapart f g Hf (Hdone g Hg)) as [<-|Hdiv]; [exact Hleaf|].
        rewrite (@add_file_frame _ _ _ _ _ Hdiv Hadd). now apply Hfound.
      * intros q v Hlookup Hv.
        destruct (path_trichotomy (path_parts f) q)
          as [<-|[Hdiv|[(more & Hmore & Hsplit)|(more & Hmore & ->)]]].
        -- exists f. split; [apply in_or_app; right; now left|].
           split; [reflexivity|]. congruence.
        -- rewrite (@add_file_frame _ _ _ _ _ Hdiv Hadd) in Hlookup.
           destruct (Hleaves q v Hlookup Hv) as (g & Hg & Hq & Hleaf').
           exists g. split; [apply in_or_app; now left|now split].
        -- destruct q as [|b q].
           { destruct (path_parts f); discriminate. }
           destruct (Hdirs (b :: q) more Hsplit) as (below & Hbelow);
             [discriminate|assumption|].
           rewrite Hbelow in Hlookup. inversion Hlookup; subst. discriminate.
        -- rewrite (Hbeyond more Hmore) in Hlookup. discriminate.
    + exists d'. split; [exact Hrun|]. now rewrite <- app_assoc in Hfiled.
Qed.

(** X10. When every file has a path and no file's path runs through
    another file's path, [_build_project_structure] succeeds; in the map it
    returns every file is found at its path segments with the file name plus
    [.json] as its leaf, and every leaf of the map is such a file. *)
Theorem project_structure_files (python_files : list string) :
  (forall f, In f python_files -> path_parts f <> []) ->
  (forall f g, In f python_files -> In g python_files ->
               f = g \/ diverge (path_parts f) (path_parts g) = true) ->
  exists structure : dict,
    _build_project_structure python_files = Ok (VDict structure)
    /\ (forall f, In f python_files ->
                  lookup_path (path_parts f) structure = Some (VStr (f ++ ".json")))
    /\ (forall q v, lookup_path q structure = Some v -> is_dict v = false ->
                    exists f, In f python_files /\ q = path_parts f
                              /\ v = VStr (f ++ ".json")).
Proof.
  intros Hparts Hapart.
  destruct (@add_files_filed python_files [] []) as (d' & Hrun & Hfound & Hleaves).
  - exact Hparts.
  - exact Hapart.
  - split.
    + intros f [].
    + intros q v Hlookup. now rewrite lookup_path_nil in Hlookup.
  - exists d'. unfold _build_project_structure, dict in *. rewrite Hrun. simpl.
    split; [reflexivity|]. split; assumption.
Qed.

(** ** File discovery *)

Lemma dirtree_induction (P : dirtree -> Prop) :
  (forall files dirs, Forall (fun ds => P (snd ds)) dirs -> P (Dir files dirs)) ->
  forall t, P t.
Proof.
  intros H. fix IH 1. intros [files dirs]. apply H.
  induction dirs as [|[d sub] dirs IHdirs]; constructor.
  - apply IH.
  - exact IHdirs.
Qed.

Lemma python_files_under_unfold (root : string) (files : list string)
      (dirs : list (string * dirtree)) (docignore_spec : option PathSpec) :
  python_files_under root (Dir files dirs) docignore_spec
  = listed_here root files docignore_spec
    ++ flat_map (fun ds => if negb (startswith (fst ds) ".")
                           then python_files_under (os_path_join root (fst ds)) (snd ds)
                                                   docignore_spec
                           else [])
                dirs.
Proof.
  simpl. f_equal.
  - rewrite (fold_left_collect _
               (fun file =>
                  if endswith file ".py" then
                    if negb (should_ignore_file (os_path_relpath (os_path_join root file))
                                                docignore_spec)
                    then [os_path_relpath (os_path_join root file)]
                    else []
                  else [])); [reflexivity|].
    intros acc file _. destruct (endswith file ".py"); [|now rewrite app_nil_r].
    destruct (negb _); [reflexivity|now rewrite app_nil_r].
  - induction dirs as [|[d sub] dirs IH]; simpl; [reflexivity|]. now rewrite IH.
Qed.

Lemma filter_flat_map {X Y} (p : Y -> bool) (f : X -> list Y) (l : list X) :
  filter p (flat_map f l) = flat_map (fun x => filter p (f x)) l.
Proof.
  induction l as [|x l IH]; simpl; [reflexivity|]. now rewrite filter_app, IH.
Qed.

Lemma flat_map_ext_Forall {X Y} (f g : X -> list Y) (l : list X) :
  Forall (fun x => f x = g x) l -> flat_map f l = flat_map g l.
Proof.
  induction 1 as [|x l Hx _ IH]; simpl; [reflexivity|]. now rewrite Hx, IH.
Qed.

(** X11. Ignoring and discovering commute: what [get_python_files] lists
    with a matcher is what it lists without one, less the paths the matcher
    excludes, in the same order. *)
Theorem discovery_filters_by_matcher (root : string) (t : dirtree)
        (docignore_spec : option PathSpec) :
  python_files_under root t docignore_spec
  = filter (fun path => negb (should_ignore_file path docignore_spec))
           (python_files_under root t None).
Proof.
  revert root. induction t as [files dirs IH] using dirtree_induction. intros root.
  rewrite !python_files_under_unfold, filter_app. f_equal.
  - unfold listed_here. rewrite filter_flat_map. apply flat_map_ext. intros file.
    destruct (endswith file ".py"); [|reflexivity]. simpl.
    destruct (negb _); reflexivity.
  - rewrite filter_flat_map. apply flat_map_ext_Forall.
    induction IH as [|[d sub] dirs Hsub _ IHdirs]; constructor; [|exact IHdirs].
    simpl. destruct (negb (startswith d ".")); [apply Hsub|reflexivity].
Qed.

(** X12. A directory whose name begins with a dot is not walked into,
    wherever it stands among the sub-directories and whatever it holds. *)
Theorem hidden_directories_are_skipped (root : string) (files : list string)
        (before after : list (string * dirtree)) (hidden : string) (below : dirtree)
        (docignore_spec : option PathSpec) :
  startswith hidden "." = true ->
  python_files_under root (Dir files (before ++ (hidden, below) :: after)) docignore_spec
  = python_files_under root (Dir files (before ++ after)) docignore_spec.
Proof.
  intros Hhidden. rewrite !python_files_under_unfold. f_equal.
  rewrite !flat_map_app. simpl. now rewrite Hhidden.
Qed.

Lemma substring_all (s : string) : substring 0 (String.length s) s = s.
Proof. induction s as [|c s IH]; simpl; congruence. Qed.

Lemma substring_append_right (pre s : string) :
  substring (String.length pre) (String.length s) (pre ++ s) = s.
Proof. induction pre as [|c pre IH]; simpl; [apply substring_all|exact IH]. Qed.

Lemma substring_split :
  forall (s : string) (m : nat),
    (m <= String.length s)%nat ->
    s = (substring 0 m s ++ substring m (String.length s - m) s)%string.
Proof.
  induction s as [|c s IH]; intros m Hm.
  - destruct m; [reflexivity|simpl in Hm; lia].
  - destruct m as [|m]; simpl.
    + now rewrite substring_all.
    + f_equal. apply IH. simpl in Hm. lia.
Qed.

(** [endswith] holds exactly of the strings written [pre ++ suffix]. *)
Lemma endswith_iff (s suffix : string) :
  endswith s suffix = true <-> exists pre, s = (pre ++ suffix)%string.
Proof.
  unfold endswith. split.
  - intros H. apply andb_prop in H. destruct H as [Hlen Heq].
    apply Nat.leb_le in Hlen. apply String.eqb_eq in Heq.
    exists (substring 0 (String.length s - String.length suffix) s).
    assert (Hsplit := @substring_split s (String.length s - String.length suffix)).
    replace (String.length s - (String.length s - String.length suffix))%nat
      with (String.length suffix) in Hsplit by lia.
    rewrite Heq in Hsplit. apply Hsplit. lia.
  - intros (pre & ->). rewrite length_append.
    replace (String.length pre + String.length suffix - String.length suffix)%nat
      with (String.length pre) by lia.
    rewrite substring_append_right, String.eqb_refl, andb_true_r.
    apply Nat.leb_le. lia.
Qed.

Lemma prefix_dot_slash (p : string) :
  String.prefix "./" p = true -> exists rest, p = ("./" ++ rest)%string.
Proof.
  intros H. apply prefix_correct in H.
  destruct p as [|c1 [|c2 rest]]; simpl in H; try discriminate.
  injection H as -> ->. now exists rest.
Qed.

(** The relative path of [root/file] still ends with [file]. *)
Lemma relpath_join_suffix (root file : string) :
  exists pre, os_path_relpath (os_path_join root file) = (pre ++ file)%string.
Proof.
  unfold os_path_relpath, os_path_join.
  destruct (String.prefix "./" (root ++ "/" ++ file)) eqn:Hprefix.
  - apply prefix_dot_slash in Hprefix. destruct Hprefix as (rest & Hrest).
    rewrite Hrest.
    replace (substring 2 (String.length ("./" ++ rest) - 2) ("./" ++ rest)) with rest.
    2:{ simpl. rewrite ?Nat.sub_0_r. symmetry. apply substring_all. }
    destruct root as [|c1 [|c2 root]]; simpl in Hrest.
    + inversion Hrest.
    + inversion Hrest; subst. now exists "".
    + inversion Hrest; subst. exists (root ++ "/")%string. now rewrite append_assoc.
  - now exists (root ++ "/")%string; rewrite append_assoc.
Qed.

(** X13. Every path [get_python_files] lists ends in [.py] and is not
    excluded by the matcher. *)
Theorem discovered_files_are_python_and_kept (root : string) (t : dirtree)
        (docignore_spec : option PathSpec) :
  Forall (fun path => endswith path ".py" = true
                      /\ should_ignore_file path docignore_spec = false)
         (python_files_under root t docignore_spec).
Proof.
  revert root. induction t as [files dirs IH] using dirtree_induction. intros root.
  rewrite python_files_under_unfold. apply Forall_app. split.
  - unfold listed_here. apply Forall_flat_map. apply Forall_forall. intros file _.
    destruct (endswith file ".py") eqn:Hpy; [|constructor].
    destruct (should_ignore_file _ docignore_spec) eqn:Hkeep; simpl; constructor;
      [|constructor].
    split; [|exact Hkeep].
    apply endswith_iff in Hpy. destruct Hpy as (stem & ->).
    destruct (relpath_join_suffix root (stem ++ ".py")) as (pre & ->).
    apply endswith_iff. exists (pre ++ stem)%string. now rewrite append_assoc.
  - apply Forall_flat_map.
    induction IH as [|[d sub] dirs Hsub _ IHdirs]; constructor; [|exact IHdirs].
    simpl. destruct (negb (startswith d ".")); [apply Hsub|constructor].
Qed.

(** ** The snapshot, step by step *)

Section SnapshotRun.
Context {lib : PyLib}.
Variable env : Env.

(** What [extract_from_file] returns and does, in one equation. *)
Lemma extract_from_file_run (file_path : string) (s : State) :
  extract_from_file env file_path s
  = (Ok (file_record env file_path (clock env (ticks s))),
     mk_State (console s ++ file_warnings env file_path) (made_dirs s) (written s)
              (S (ticks s)) (Some file_path)).
Proof.
  unfold extract_from_file, interrupted, file_record, file_warnings, analyse_file,
    parse_file, io_bind, try_except, set_current_file, lift, now_isoformat, echo,
    ret, raise.
  destruct (read_text env file_path) as [source_code|e]; cbv beta iota zeta.
  - cbn [bind].
    destruct (ast_parse env source_code file_path) as [body|e]; cbv beta iota zeta.
    + cbn [bind].
      destruct (runtime_error env (Module body)) as [e|]; cbv beta iota zeta.
      * reflexivity.
      * rewrite extract_classes_ok, extract_functions_ok, extract_constants_ok,
          extract_imports_ok.
        simpl. now rewrite app_nil_r.
    + reflexivity.
  - reflexivity.
Qed.

Lemma load_docignore_run (docignore_path : string) (s : State) :
  load_docignore env docignore_path s
  = (Ok (fst (loaded_docignore env docignore_path)),
     mk_State (console s ++ snd (loaded_docignore env docignore_path))
              (made_dirs s) (written s) (ticks s) (current_file s)).
Proof.
  unfold load_docignore, loaded_docignore, try_except, io_bind, lift, ret, echo.
  destruct s as [c m w t f].
  destruct (path_exists env docignore_path); simpl.
  - destruct (read_text env docignore_path); simpl; [|reflexivity].
    destruct (PathSpec_from_lines env _); simpl; [|reflexivity].
    now rewrite app_nil_r.
  - now rewrite app_nil_r.
Qed.

(** The loop over the files, when nothing fails to be written. *)
Lemma per_file_loop :
  forall (files documented : list string) (s : State),
    (forall f, In f files ->
               mkdir_error env (path_parent (record_path f)) = None
               /\ open_error env (record_path f) = None) ->
    for_io files documented
      (fun documented_files py_file =>
         echo ("  📄 Processing " ++ py_file ++ "...") ;;;
         doc_data <~ extract_from_file env py_file ;;
         let output_path := (".docshadow/" ++ py_file ++ ".json")%string in
         ensure_directory env (path_parent output_path) ;;;
         write_json env output_path doc_data ;;;
         ret (documented_files ++ [(py_file ++ ".json")%string])) s
    = (Ok (documented ++ map (fun f => (f ++ ".json")%string) files),
       snapshot_files env files s).
Proof.
  induction files as [|f files IH]; intros documented s Hfine; simpl.
  - unfold ret. now rewrite app_nil_r.
  - destruct (Hfine f (or_introl eq_refl)) as [Hmkdir Hopen].
    unfold record_path in Hmkdir, Hopen.
    unfold io_bind at 1. unfold io_bind, echo, ensure_directory, write_json, ret.
    cbv beta iota zeta. rewrite extract_from_file_run.
    cbn [console made_dirs written ticks current_file].
    cbn [append] in Hmkdir, Hopen. rewrite Hmkdir.
    cbn [console made_dirs written ticks current_file]. rewrite Hopen.
    cbn [console made_dirs written ticks current_file].
    rewrite IH by (intros g Hg; apply Hfine; now right).
    rewrite <- !app_assoc. reflexivity.
Qed.

Lemma written_snapshot_files :
  forall (files : list string) (s : State),
    map fst (written (snapshot_files env files s))
    = map fst (written s) ++ map record_path files
    /\ made_dirs (snapshot_files env files s)
       = made_dirs s ++ map (fun f => path_parent (record_path f)) files
    /\ ticks (snapshot_files env files s) = (ticks s + List.length files)%nat.
Proof.
  induction files as [|f files IH]; intros s.
  - simpl. rewrite !app_nil_r. repeat split. lia.
  - cbn [snapshot_files].
    destruct (IH (mk_State
                    (console s ++ [("  📄 Processing " ++ f ++ "...")%string]
                       ++ file_warnings env f)
                    (made_dirs s ++ [path_parent (record_path f)])
                    (written s ++ [(record_path f, file_record env f (clock env (ticks s)))])
                    (S (ticks s)) (Some f))) as (Hw & Hd & Ht).
    rewrite Hw, Hd, Ht. cbn [written made_dirs ticks map List.length].
    rewrite map_app, <- !app_assoc. cbn [map fst app].
    repeat split. lia.
Qed.

End SnapshotRun.

Lemma io_bind_ok {A B} (m : IO A) (k : A -> IO B) (s s' : State) (a : A) :
  m s = (Ok a, s') -> io_bind m k s = k a s'.
Proof. intros H. unfold io_bind. now rewrite H. Qed.

Lemma io_bind_raise {A B} (m : IO A) (k : A -> IO B) (s s' : State) (e : exn) :
  m s = (Raise e, s') -> io_bind m k s = (Raise e, s').
Proof. intros H. unfold io_bind. now rewrite H. Qed.

(** One step of a run: the first computation of a sequence returns. *)
Ltac io_step tac :=
  erewrite io_bind_ok by tac; cbv beta match;
  cbn [console made_dirs written ticks current_file].

Lemma state_eta (s : State) :
  mk_State (console s) (made_dirs s) (written s) (ticks s) (current_file s) = s.
Proof. now destruct s. Qed.

Section Orchestrator.
Context {lib : PyLib}.
Variable env : Env.

Lemma get_commit_info_ok (repo : Repo) (commit_hash : option string) (commit : Commit)
      (changed : list string) (s : State) :
  requested_commit repo commit_hash = Ok commit ->
  stats_files commit = Ok changed ->
  get_commit_info env repo commit_hash s
  = (Ok (Some (VDict [("hash", VStr (hexsha commit));
                      ("short_hash", VStr (substring 0 7 (hexsha commit)));
                      ("message", VStr (str_strip env (message commit)));
                      ("author", VStr (author commit));
                      ("date", VStr (committed_datetime commit));
                      ("files_changed", VList (map VStr changed))])), s).
Proof.
  unfold requested_commit, get_commit_info. intros Hcommit Hstats.
  destruct commit_hash as [h|].
  - destruct (String.eqb h ""); simpl.
    + unfold io_bind, lift, ret. rewrite Hcommit. cbv beta match.
      now rewrite Hstats.
    + unfold io_bind, try_except_class, lift, ret. rewrite Hcommit. cbv beta match.
      now rewrite Hstats.
  - simpl. unfold io_bind, lift, ret. rewrite Hcommit. cbv beta match.
    now rewrite Hstats.
Qed.

(** X14. When the commit is given explicitly and the repository fails to
    resolve it, [get_commit_info] turns only [BadName] into a message and
    no result; any other exception goes up to its caller as it is, with
    nothing printed. *)
Theorem commit_lookup_failure (repo : Repo) (h : string) (e : exn) (s : State) :
  h <> "" ->
  repo_commit repo h = Raise e ->
  get_commit_info env repo (Some h) s
  = if exn_class_eqb (exn_kind e) BadName
    then (Ok None,
          mk_State (console s ++ [("❌ Error: Commit " ++ h ++ " not found.")%string])
                   (made_dirs s) (written s) (ticks s) (current_file s))
    else (Raise e, s).
Proof.
  intros Hh Hcommit. unfold get_commit_info.
  apply String.eqb_neq in Hh. rewrite Hh. simpl negb. cbv beta match.
  unfold io_bind at 1. unfold try_except_class, io_bind, lift. rewrite Hcommit.
  destruct (exn_class_eqb (exn_kind e) BadName); reflexivity.
Qed.

(** X15. [generate_documentation] never raises: whatever the repository,
    the files and the disk do, it returns [True] or [False]. *)
Theorem generate_documentation_returns (commit_hash : option string) (s : State) :
  exists (ok : bool) (s' : State),
    generate_documentation env commit_hash s = (Ok ok, s').
Proof.
  unfold generate_documentation, try_except.
  match goal with
  | |- exists ok s', match ?run with _ => _ end = _ =>
      destruct run as [[ok|e] s1]
  end.
  - now eauto.
  - unfold io_bind, echo, ret. now eauto.
Qed.

(** X19. With a repository and a commit but no Python file to document,
    [generate_documentation] returns [True] after saying so; it creates no
    directory, not even [.docshadow], writes nothing and reads no clock. *)
Theorem generate_documentation_no_files (commit_hash : option string) (repo : Repo)
      (commit : Commit) (changed : list string) (s : State) :
  git_Repo env = Ok repo ->
  requested_commit repo commit_hash = Ok commit ->
  stats_files commit = Ok changed ->
  get_python_files env (fst (loaded_docignore env ".docignore")) = [] ->
  generate_documentation env commit_hash s
  = (Ok true,
     mk_State
       (console s
          ++ [("📝 Generating documentation for commit "
                 ++ substring 0 7 (hexsha commit) ++ "...")%string]
          ++ snd (loaded_docignore env ".docignore")
          ++ ["⚠️  No Python files found to document."])
       (made_dirs s) (written s) (ticks s) (current_file s)).
Proof.
  intros Hrepo Hcommit Hstats Hfiles.
  unfold generate_documentation, try_except.
  io_step ltac:(rewrite get_git_repo_run, Hrepo; reflexivity).
  io_step ltac:(eapply get_commit_info_ok; eassumption).
  io_step ltac:(reflexivity).
  io_step ltac:(reflexivity).
  io_step ltac:(rewrite load_docignore_run; reflexivity).
  cbv zeta. rewrite Hfiles.
  unfold io_bind, echo, ret.
  cbn [console made_dirs written ticks current_file format_value].
  now rewrite <- !app_assoc.
Qed.

Lemma generate_documentation_success (commit_hash : option string) (repo : Repo)
      (commit : Commit) (changed files : list string) (structure : value) (s : State) :
  git_Repo env = Ok repo ->
  requested_commit repo commit_hash = Ok commit ->
  stats_files commit = Ok changed ->
  get_python_files env (fst (loaded_docignore env ".docignore")) = files ->
  files <> [] ->
  mkdir_error env ".docshadow" = None ->
  (forall f, In f files ->
             mkdir_error env (path_parent (record_path f)) = None
             /\ open_error env (record_path f) = None) ->
  open_error env ".docshadow/index.json" = None ->
  _build_project_structure files = Ok structure ->
  open_error env ".docshadow/docshadow.json" = None ->
  generate_documentation env commit_hash s
  = (Ok true,
     let s1 := snapshot_files env files (after_setup env commit s) in
     mk_State
       (console s1
          ++ ["✅ Documentation generated successfully!";
              ("   📁 " ++ string_of_nat (List.length files) ++ " files documented")%string;
              "   📋 Index: .docshadow/index.json";
              "   🗺️  Structure: .docshadow/docshadow.json"])
       (made_dirs s1)
       (written s1
          ++ [(".docshadow/index.json", index_record env commit files);
              (".docshadow/docshadow.json",
               structure_record env commit structure (clock env (ticks s1)))])
       (S (ticks s1)) (current_file s1)).
Proof.
  intros Hrepo Hcommit Hstats Hfiles Hsome Hmkdir Hfine Hindex Hstructure Hmap.
  unfold generate_documentation, try_except.
  io_step ltac:(rewrite get_git_repo_run, Hrepo; reflexivity).
  io_step ltac:(eapply get_commit_info_ok; eassumption).
  io_step ltac:(reflexivity).
  io_step ltac:(reflexivity).
  io_step ltac:(rewrite load_docignore_run; reflexivity).
  cbv zeta. rewrite Hfiles.
  destruct files as [|f0 rest]; [contradiction|]. cbv beta match.
  io_step ltac:(unfold ensure_directory; rewrite Hmkdir; reflexivity).
  io_step ltac:(apply per_file_loop; exact Hfine).
  io_step ltac:(reflexivity).
  io_step ltac:(reflexivity).
  io_step ltac:(reflexivity).
  io_step ltac:(reflexivity).
  io_step ltac:(reflexivity).
  io_step ltac:(unfold write_json; rewrite Hindex; reflexivity).
  io_step ltac:(unfold lift; rewrite Hstructure; reflexivity).
  io_step ltac:(reflexivity).
  io_step ltac:(reflexivity).
  io_step ltac:(unfold write_json; cbn [written]; rewrite Hmap; reflexivity).
  unfold io_bind, echo, ret.
  cbn [console made_dirs written ticks current_file format_value].
  unfold after_setup, index_record, structure_record.
  rewrite !app_nil_l, length_map, map_map, <- !app_assoc. reflexivity.
Qed.

Lemma generate_documentation_index_fails (commit_hash : option string) (repo : Repo)
      (commit : Commit) (changed files : list string) (e : exn) (s : State) :
  git_Repo env = Ok repo ->
  requested_commit repo commit_hash = Ok commit ->
  stats_files commit = Ok changed ->
  get_python_files env (fst (loaded_docignore env ".docignore")) = files ->
  files <> [] ->
  mkdir_error env ".docshadow" = None ->
  (forall f, In f files ->
             mkdir_error env (path_parent (record_path f)) = None
             /\ open_error env (record_path f) = None) ->
  open_error env ".docshadow/index.json" = Some e ->
  generate_documentation env commit_hash s
  = (Ok false,
     let s1 := snapshot_files env files (after_setup env commit s) in
     mk_State
       (console s1 ++ [("❌ Error generating documentation: " ++ exn_msg e)%string])
       (made_dirs s1) (written s1) (ticks s1) (current_file s1)).
Proof.
  intros Hrepo Hcommit Hstats Hfiles Hsome Hmkdir Hfine Hindex.
  unfold generate_documentation, try_except.
  io_step ltac:(rewrite get_git_repo_run, Hrepo; reflexivity).
  io_step ltac:(eapply get_commit_info_ok; eassumption).
  io_step ltac:(reflexivity).
  io_step ltac:(reflexivity).
  io_step ltac:(rewrite load_docignore_run; reflexivity).
  cbv zeta. rewrite Hfiles.
  destruct files as [|f0 rest]; [contradiction|]. cbv beta match.
  io_step ltac:(unfold ensure_directory; rewrite Hmkdir; reflexivity).
  io_step ltac:(apply per_file_loop; exact Hfine).
  io_step ltac:(reflexivity).
  io_step ltac:(reflexivity).
  io_step ltac:(reflexivity).
  io_step ltac:(reflexivity).
  io_step ltac:(reflexivity).
  erewrite io_bind_raise by (unfold write_json; rewrite Hindex; reflexivity).
  cbv beta match. unfold io_bind, echo, ret.
  cbn [console made_dirs written ticks current_file].
  unfold after_setup. rewrite <- !app_assoc. reflexivity.
Qed.

End Orchestrator.

Section SnapshotExtras.
Context {lib : PyLib}.
Variable env : Env.

(** X16. [extract_from_file] reads the clock once and stamps the record
    with that reading, makes the file the current one and writes nothing. It
    prints nothing when the file is read and parsed and the runtime lets the
    extraction finish, and one warning otherwise; the warning goes with the
    [error] field of the record. *)
Theorem extract_from_file_effects (file_path : string) (s : State) :
  exists (record : value) (s' : State),
    extract_from_file env file_path s = (Ok record, s')
    /\ field "generated_at" record = Some (VStr (clock env (ticks s)))
    /\ ticks s' = S (ticks s)
    /\ current_file s' = Some file_path
    /\ written s' = written s /\ made_dirs s' = made_dirs s
    /\ (exists printed,
          console s' = console s ++ printed
          /\ (printed = []
              <-> exists source_code body,
                    read_text env file_path = Ok source_code
                    /\ ast_parse env source_code file_path = Ok body
                    /\ runtime_error env (Module body) = None)
          /\ (printed = [] <-> field "error" record = None)
          /\ (List.length printed <= 1)%nat).
Proof.
  do 2 eexists. split; [apply extract_from_file_run|].
  cbn [console made_dirs written ticks current_file].
  split.
  - unfold file_record. destruct (analyse_file env file_path); reflexivity.
  - repeat (split; [reflexivity|]).
    exists (file_warnings env file_path). split; [reflexivity|].
    unfold file_warnings, file_record, analyse_file, parse_file.
    destruct (read_text env file_path) as [source_code|e] eqn:Hread; cbn [bind].
    + destruct (ast_parse env source_code file_path) as [body|e] eqn:Hparse; cbn [bind].
      * destruct (runtime_error env (Module body)) as [e|] eqn:Hruntime.
        -- split; [|split; [|simpl; lia]].
           ++ split; [discriminate|].
              intros (source_code' & body' & Hs & Hb & Hr).
              injection Hs as <-. rewrite Hparse in Hb. injection Hb as <-.
              rewrite Hruntime in Hr. discriminate.
           ++ split; discriminate.
        -- split; [|split; [|simpl; lia]].
           ++ split; [|reflexivity]. intros _. now exists source_code, body.
           ++ split; reflexivity.
      * split; [|split; [|simpl; lia]].
        -- split; [discriminate|].
           intros (source_code' & body' & Hs & Hb & _).
           injection Hs as <-. rewrite Hparse in Hb. discriminate.
        -- split; discriminate.
    + split; [|split; [|simpl; lia]].
      * split; [discriminate|]. intros (source_code' & body' & Hs & _). discriminate.
      * split; discriminate.
Qed.

(** X17. A run that meets no failure returns [True] and has written, after
    what was there, one record per discovered file in discovery order (a
    file that does not parse has its record like the others), then the index,
    which lists every discovered file, then the structure map; it has
    created [.docshadow] and the directory of each record, and read the
    clock once per file and once for the structure map. *)
Theorem complete_snapshot (commit_hash : option string) (repo : Repo)
        (commit : Commit) (changed files : list string) (structure : value) (s : State) :
  git_Repo env = Ok repo ->
  requested_commit repo commit_hash = Ok commit ->
  stats_files commit = Ok changed ->
  get_python_files env (fst (loaded_docignore env ".docignore")) = files ->
  files <> [] ->
  (forall path, mkdir_error env path = None) ->
  (forall path, open_error env path = None) ->
  _build_project_structure files = Ok structure ->
  exists s' : State,
    generate_documentation env commit_hash s = (Ok true, s')
    /\ map fst (written s')
       = map fst (written s) ++ map record_path files
         ++ [".docshadow/index.json"; ".docshadow/docshadow.json"]
    /\ In (".docshadow/index.json", index_record env commit files) (written s')
    /\ In (".docshadow/docshadow.json",
           structure_record env commit structure
             (clock env (ticks s + List.length files)))
          (written s')
    /\ made_dirs s'
       = made_dirs s ++ ".docshadow" :: map (fun f => path_parent (record_path f)) files
    /\ ticks s' = S (ticks s + List.length files).
Proof.
  intros Hrepo Hcommit Hstats Hfiles Hsome Hmkdir Hopen Hstructure.
  eexists. split.
  { eapply generate_documentation_success; try eassumption; try apply Hmkdir;
      try apply Hopen.
    intros f _. split; [apply Hmkdir|apply Hopen]. }
  cbv zeta. cbn [console made_dirs written ticks current_file].
  destruct (written_snapshot_files env files (after_setup env commit s))
    as (Hw & Hd & Ht).
  change (written (after_setup env commit s)) with (written s) in Hw.
  change (made_dirs (after_setup env commit s)) with (made_dirs s ++ [".docshadow"]) in Hd.
  change (ticks (after_setup env commit s)) with (ticks s) in Ht.
  split; [|split; [|split; [|split]]].
  - rewrite map_app, Hw, <- app_assoc. reflexivity.
  - apply in_or_app. right. now left.
  - apply in_or_app. right. right. left. now rewrite Ht.
  - rewrite Hd, <- app_assoc. reflexivity.
  - now rewrite Ht.
Qed.

(** X18. When everything goes well up to the index and the index cannot be
    written, the run returns [False] after an error message, and the records
    of the files written so far stay: the snapshot directory then holds the
    records without an index and without a structure map. *)
Theorem index_failure_leaves_records (commit_hash : option string) (repo : Repo)
        (commit : Commit) (changed files : list string) (e : exn) (s : State) :
  git_Repo env = Ok repo ->
  requested_commit repo commit_hash = Ok commit ->
  stats_files commit = Ok changed ->
  get_python_files env (fst (loaded_docignore env ".docignore")) = files ->
  files <> [] ->
  mkdir_error env ".docshadow" = None ->
  (forall f, In f files ->
             mkdir_error env (path_parent (record_path f)) = None
             /\ open_error env (record_path f) = None) ->
  open_error env ".docshadow/index.json" = Some e ->
  exists s' : State,
    generate_documentation env commit_hash s = (Ok false, s')
    /\ map fst (written s') = map fst (written s) ++ map record_path files
    /\ exists printed,
         console s'
         = console s ++ printed
             ++ [("❌ Error generating documentation: " ++ exn_msg e)%string].
Proof.
  intros Hrepo Hcommit Hstats Hfiles Hsome Hmkdir Hfine Hindex.
  eexists. split.
  { eapply generate_documentation_index_fails; eassumption. }
  cbv zeta. cbn [console made_dirs written ticks current_file].
  destruct (written_snapshot_files env files (after_setup env commit s))
    as (Hw & _ & _).
  change (written (after_setup env commit s)) with (written s) in Hw.
  split; [exact Hw|].
  assert (Hconsole : forall fs t, exists printed,
             console (snapshot_files env fs t) = console t ++ printed).
  { induction fs as [|f fs IH]; intros t.
    - exists []. simpl. now rewrite app_nil_r.
    - cbn [snapshot_files].
      destruct (IH (mk_State
                      (console t ++ [("  📄 Processing " ++ f ++ "...")%string]
                         ++ file_warnings env f)
                      (made_dirs t ++ [path_parent (record_path f)])
                      (written t ++ [(record_path f,
                                      file_record env f (clock env (ticks t)))])
                      (S (ticks t)) (Some f))) as (printed & ->).
      cbn [console]. eexists. rewrite <- app_assoc. reflexivity. }
  destruct (Hconsole files (after_setup env commit s)) as (printed & ->).
  assert (Hsetup : exists before, console (after_setup env commit s) = console s ++ before)
    by (eexists; reflexivity).
  destruct Hsetup as (before & ->).
  exists (before ++ printed). now rewrite <- !app_assoc.
Qed.

End SnapshotExtras.

(** ** The properties above on the sample inputs *)

Lemma add_file_then_lookup_witness :
  add_file ["pkg"; "mod.py"] "pkg/mod.py.json" [("a.py", VStr "a.py.json")]
  = Ok [("a.py", VStr "a.py.json"); ("pkg", VDict [("mod.py", VStr "pkg/mod.py.json")])]
  /\ lookup_path ["pkg"; "mod.py"]
       [("a.py", VStr "a.py.json"); ("pkg", VDict [("mod.py", VStr "pkg/mod.py.json")])]
     = Some (VStr "pkg/mod.py.json").
Proof.
  assert (H : add_file ["pkg"; "mod.py"] "pkg/mod.py.json" [("a.py", VStr "a.py.json")]
              = Ok [("a.py", VStr "a.py.json");
                    ("pkg", VDict [("mod.py", VStr "pkg/mod.py.json")])])
    by reflexivity.
  split; [exact H|].
  exact (proj1 (@add_file_then_lookup _ _ _ _ H)).
Defined.

Lemma add_file_keeps_other_paths_witness :
  diverge ["pkg"; "mod.py"] ["pkg"; "other.py"] = true
  /\ add_file ["pkg"; "mod.py"] "pkg/mod.py.json"
       [("pkg", VDict [("other.py", VStr "pkg/other.py.json")])]
     = Ok [("pkg", VDict [("other.py", VStr "pkg/other.py.json");
                          ("mod.py", VStr "pkg/mod.py.json")])]
  /\ lookup_path ["pkg"; "other.py"]
       [("pkg", VDict [("other.py", VStr "pkg/other.py.json");
                       ("mod.py", VStr "pkg/mod.py.json")])]
     = lookup_path ["pkg"; "other.py"]
         [("pkg", VDict [("other.py", VStr "pkg/other.py.json")])].
Proof.
  assert (Hdiv : diverge ["pkg"; "mod.py"] ["pkg"; "other.py"] = true) by reflexivity.
  assert (Hadd : add_file ["pkg"; "mod.py"] "pkg/mod.py.json"
                   [("pkg", VDict [("other.py", VStr "pkg/other.py.json")])]
                 = Ok [("pkg", VDict [("other.py", VStr "pkg/other.py.json");
                                      ("mod.py", VStr "pkg/mod.py.json")])])
    by reflexivity.
  split; [exact Hdiv|]. split; [exact Hadd|].
  exact (@add_file_keeps_other_paths _ _ _ _ _ Hdiv Hadd).
Defined.

Lemma add_file_key_order_witness :
  add_file ["pkg"; "mod.py"] "pkg/mod.py.json" [("a.py", VStr "a.py.json")]
  = Ok [("a.py", VStr "a.py.json"); ("pkg", VDict [("mod.py", VStr "pkg/mod.py.json")])]
  /\ dict_keys [("a.py", VStr "a.py.json");
                ("pkg", VDict [("mod.py", VStr "pkg/mod.py.json")])]
     = ["a.py"; "pkg"].
Proof.
  assert (H : add_file ["pkg"; "mod.py"] "pkg/mod.py.json" [("a.py", VStr "a.py.json")]
              = Ok [("a.py", VStr "a.py.json");
                    ("pkg", VDict [("mod.py", VStr "pkg/mod.py.json")])])
    by reflexivity.
  split; [exact H|].
  exact (@add_file_key_order _ _ _ _ _ H).
Defined.

Lemma project_structure_files_witness :
  (forall f, In f ["a.py"; "pkg/b.py"; "pkg/sub/c.py"] -> path_parts f <> [])
  /\ (forall f g, In f ["a.py"; "pkg/b.py"; "pkg/sub/c.py"] ->
                  In g ["a.py"; "pkg/b.py"; "pkg/sub/c.py"] ->
                  f = g \/ diverge (path_parts f) (path_parts g) = true)
  /\ exists structure : dict,
       _build_project_structure ["a.py"; "pkg/b.py"; "pkg/sub/c.py"] = Ok (VDict structure)
       /\ lookup_path ["pkg"; "sub"; "c.py"] structure = Some (VStr "pkg/sub/c.py.json").
Proof.
  assert (Hparts : forall f, In f ["a.py"; "pkg/b.py"; "pkg/sub/c.py"] ->
                             path_parts f <> []).
  { intros f [<-|[<-|[<-|[]]]]; discriminate. }
  assert (Hapart : forall f g, In f ["a.py"; "pkg/b.py"; "pkg/sub/c.py"] ->
                               In g ["a.py"; "pkg/b.py"; "pkg/sub/c.py"] ->
                               f = g \/ diverge (path_parts f) (path_parts g) = true).
  { intros f g [<-|[<-|[<-|[]]]] [<-|[<-|[<-|[]]]];
      first [left; reflexivity | right; reflexivity]. }
  split; [exact Hparts|]. split; [exact Hapart|].
  destruct (@project_structure_files _ Hparts Hapart) as (structure & Hrun & Hfound & _).
  exists structure. split; [exact Hrun|].
  exact (Hfound "pkg/sub/c.py" (or_intror (or_intror (or_introl eq_refl)))).
Defined.

Lemma hidden_directories_are_skipped_witness :
  startswith ".git" "." = true
  /\ python_files_under "." (Dir ["a.py"] ([] ++ (".git", Dir ["hook.py"] []) :: [])) None
     = python_files_under "." (Dir ["a.py"] ([] ++ [])) None.
Proof.
  assert (H : startswith ".git" "." = true) by reflexivity.
  split; [exact H|].
  exact (@hidden_directories_are_skipped "." ["a.py"] [] [] ".git" (Dir ["hook.py"] []) None H).
Defined.

Lemma commit_lookup_failure_witness :
  "deadbeef" <> ""
  /\ repo_commit sample_repo "deadbeef"
     = Raise (mk_exn BadName "Ref 'deadbeef' did not resolve to an object")
  /\ get_commit_info sample_env sample_repo (Some "deadbeef") initial_state
     = (Ok None, mk_State ["❌ Error: Commit deadbeef not found."] [] [] 0 None).
Proof.
  assert (Hh : "deadbeef" <> "") by discriminate.
  assert (Hcommit : repo_commit sample_repo "deadbeef"
                    = Raise (mk_exn BadName "Ref 'deadbeef' did not resolve to an object"))
    by reflexivity.
  split; [exact Hh|]. split; [exact Hcommit|].
  exact (@commit_lookup_failure sample_env sample_repo "deadbeef" _ initial_state Hh Hcommit).
Defined.

Lemma complete_snapshot_witness :
  git_Repo sample_env = Ok sample_repo
  /\ requested_commit sample_repo None = Ok sample_commit
  /\ stats_files sample_commit = Ok ["a.py"]
  /\ get_python_files sample_env (fst (loaded_docignore sample_env ".docignore")) = ["a.py"]
  /\ ["a.py"] <> []
  /\ (forall path, mkdir_error sample_env path = None)
  /\ (forall path, open_error sample_env path = None)
  /\ _build_project_structure ["a.py"] = Ok (VDict [("a.py", VStr "a.py.json")])
  /\ exists s' : State,
       @generate_documentation sample_lib sample_env None initial_state = (Ok true, s')
       /\ map fst (written s')
          = [".docshadow/a.py.json"; ".docshadow/index.json"; ".docshadow/docshadow.json"].
Proof.
  assert (H1 : git_Repo sample_env = Ok sample_repo) by reflexivity.
  assert (H2 : requested_commit sample_repo None = Ok sample_commit) by reflexivity.
  assert (H3 : stats_files sample_commit = Ok ["a.py"]) by reflexivity.
  assert (H4 : get_python_files sample_env (fst (loaded_docignore sample_env ".docignore"))
               = ["a.py"]) by reflexivity.
  assert (H5 : ["a.py"] <> []) by discriminate.
  assert (H6 : forall path, mkdir_error sample_env path = None) by reflexivity.
  assert (H7 : forall path, open_error sample_env path = None) by reflexivity.
  assert (H8 : _build_project_structure ["a.py"] = Ok (VDict [("a.py", VStr "a.py.json")]))
    by reflexivity.
  repeat (split; [assumption|]).
  destruct (@complete_snapshot sample_lib sample_env None sample_repo sample_commit
              ["a.py"] ["a.py"] (VDict [("a.py", VStr "a.py.json")]) initial_state
              H1 H2 H3 H4 H5 H6 H7 H8) as (s' & Hrun & Hpaths & _).
  exists s'. split; [exact Hrun|exact Hpaths].
Defined.

Lemma index_failure_leaves_records_witness :
  git_Repo sample_env_index_fails = Ok sample_repo
  /\ requested_commit sample_repo None = Ok sample_commit
  /\ stats_files sample_commit = Ok ["a.py"]
  /\ get_python_files sample_env_index_fails
       (fst (loaded_docignore sample_env_index_fails ".docignore")) = ["a.py"]
  /\ ["a.py"] <> []
  /\ mkdir_error sample_env_index_fails ".docshadow" = None
  /\ (forall f, In f ["a.py"] ->
                mkdir_error sample_env_index_fails (path_parent (record_path f)) = None
                /\ open_error sample_env_index_fails (record_path f) = None)
  /\ open_error sample_env_index_fails ".docshadow/index.json"
     = Some (mk_exn OSError "No space left on device")
  /\ exists s' : State,
       @generate_documentation sample_lib sample_env_index_fails None initial_state
       = (Ok false, s')
       /\ map fst (written s') = [".docshadow/a.py.json"].
Proof.
  assert (H1 : git_Repo sample_env_index_fails = Ok sample_repo) by reflexivity.
  assert (H2 : requested_commit sample_repo None = Ok sample_commit) by reflexivity.
  assert (H3 : stats_files sample_commit = Ok ["a.py"]) by reflexivity.
  assert (H4 : get_python_files sample_env_index_fails
                 (fst (loaded_docignore sample_env_index_fails ".docignore")) = ["a.py"])
    by reflexivity.
  assert (H5 : ["a.py"] <> []) by discriminate.
  assert (H6 : mkdir_error sample_env_index_fails ".docshadow" = None) by reflexivity.
  assert (H7 : forall f, In f ["a.py"] ->
                 mkdir_error sample_env_index_fails (path_parent (record_path f)) = None
                 /\ open_error sample_env_index_fails (record_path f) = None).
  { intros f [<-|[]]. split; reflexivity. }
  assert (H8 : open_error sample_env_index_fails ".docshadow/index.json"
               = Some (mk_exn OSError "No space left on device")) by reflexivity.
  repeat (split; [assumption|]).
  destruct (@index_failure_leaves_records sample_lib sample_env_index_fails None
              sample_repo sample_commit ["a.py"] ["a.py"]
              (mk_exn OSError "No space left on device") initial_state
              H1 H2 H3 H4 H5 H6 H7 H8) as (s' & Hrun & Hpaths & _).
  exists s'. split; [exact Hrun|exact Hpaths].
Defined.

Lemma generate_documentation_no_files_witness :
  git_Repo sample_env_no_files = Ok sample_repo
  /\ requested_commit sample_repo None = Ok sample_commit
  /\ stats_files sample_commit = Ok ["a.py"]
  /\ get_python_files sample_env_no_files
       (fst (loaded_docignore sample_env_no_files ".docignore")) = []
  /\ @generate_documentation sample_lib sample_env_no_files None initial_state
     = (Ok true,
        mk_State ["📝 Generating documentation for commit 0123456...";
                  "⚠️  No Python files found to document."] [] [] 0 None).
Proof.
  assert (H1 : git_Repo sample_env_no_files = Ok sample_repo) by reflexivity.
  assert (H2 : requested_commit sample_repo None = Ok sample_commit) by reflexivity.
  assert (H3 : stats_files sample_commit = Ok ["a.py"]) by reflexivity.
  assert (H4 : get_python_files sample_env_no_files
                 (fst (loaded_docignore sample_env_no_files ".docignore")) = [])
    by reflexivity.
  repeat (split; [assumption|]).
  exact (@generate_documentation_no_files sample_lib sample_env_no_files None sample_repo
           sample_commit ["a.py"] initial_state H1 H2 H3 H4).
Defined.

(** ** The commands *)

Lemma read_only_ret {A} (a : A) : read_only (ret a).
Proof. intros s. simpl. repeat split. exists []. now rewrite app_nil_r. Qed.

Lemma read_only_lift {A} (r : result A) : read_only (lift r).
Proof. intros s. simpl. repeat split. exists []. now rewrite app_nil_r. Qed.

Lemma read_only_echo (msg : string) : read_only (echo msg).
Proof. intros s. simpl. repeat split. now exists [msg]. Qed.

Lemma read_only_bind {A B} (m : IO A) (k : A -> IO B) :
  read_only m -> (forall a, read_only (k a)) -> read_only (io_bind m k).
Proof.
  intros Hm Hk s. unfold io_bind.
  destruct (Hm s) as (Hd & Hw & Ht & Hf & printed & Hc).
  destruct (m s) as [[a|e] s1]; simpl in *.
  - destruct (Hk a s1) as (Hd' & Hw' & Ht' & Hf' & printed' & Hc').
    rewrite Hd', Hw', Ht', Hf', Hc', Hd, Hw, Ht, Hf, Hc. repeat split.
    exists (printed ++ printed'). now rewrite app_assoc.
  - repeat split; try assumption. now exists printed.
Qed.

Lemma read_only_try_except {A} (m : IO A) (handler : exn -> IO A) :
  read_only m -> (forall e, read_only (handler e)) -> read_only (try_except m handler).
Proof.
  intros Hm Hh s. unfold try_except.
  destruct (Hm s) as (Hd & Hw & Ht & Hf & printed & Hc).
  destruct (m s) as [[a|e] s1]; simpl in *.
  - repeat split; try assumption. now exists printed.
  - destruct (Hh e s1) as (Hd' & Hw' & Ht' & Hf' & printed' & Hc').
    rewrite Hd', Hw', Ht', Hf', Hc', Hd, Hw, Ht, Hf, Hc. repeat split.
    exists (printed ++ printed'). now rewrite app_assoc.
Qed.

Lemma read_only_try_except_class {A} (m : IO A) (cls : exn_class) (handler : IO A) :
  read_only m -> read_only handler -> read_only (try_except_class m cls handler).
Proof.
  intros Hm Hh s. unfold try_except_class.
  destruct (Hm s) as (Hd & Hw & Ht & Hf & printed & Hc).
  destruct (m s) as [[a|e] s1]; simpl in *.
  - repeat split; try assumption. now exists printed.
  - destruct (exn_class_eqb (exn_kind e) cls).
    + destruct (Hh s1) as (Hd' & Hw' & Ht' & Hf' & printed' & Hc').
      rewrite Hd', Hw', Ht', Hf', Hc', Hd, Hw, Ht, Hf, Hc. repeat split.
      exists (printed ++ printed'). now rewrite app_assoc.
    + simpl. repeat split; try assumption. now exists printed.
Qed.

Lemma read_only_for_io {X S} (body : S -> X -> IO S) :
  (forall acc x, read_only (body acc x)) ->
  forall (l : list X) (acc : S), read_only (for_io l acc body).
Proof.
  intros Hbody. induction l as [|x l IH]; intros acc; simpl.
  - apply read_only_ret.
  - apply read_only_bind; [apply Hbody|]. intros acc'. apply IH.
Qed.

Lemma returns_ret {A} (a : A) : returns (ret a).
Proof. intros s. now exists a, s. Qed.

Lemma returns_echo (msg : string) : returns (echo msg).
Proof. intros s. eexists. eexists. reflexivity. Qed.

Lemma returns_bind {A B} (m : IO A) (k : A -> IO B) :
  returns m -> (forall a, returns (k a)) -> returns (io_bind m k).
Proof.
  intros Hm Hk s. unfold io_bind. destruct (Hm s) as (a & s1 & ->). apply Hk.
Qed.

Lemma returns_try_except {A} (m : IO A) (handler : exn -> IO A) :
  (forall e, returns (handler e)) -> returns (try_except m handler).
Proof.
  intros Hh s. unfold try_except. destruct (m s) as [[a|e] s1].
  - now exists a, s1.
  - apply Hh.
Qed.

Lemma returns_for_io {X S} (body : S -> X -> IO S) :
  (forall acc x, returns (body acc x)) ->
  forall (l : list X) (acc : S), returns (for_io l acc body).
Proof.
  intros Hbody. induction l as [|x l IH]; intros acc; simpl.
  - apply returns_ret.
  - apply returns_bind; [apply Hbody|]. intros acc'. apply IH.
Qed.

(** Taking a computation apart along its sequence, handlers and branches. *)
Ltac only_prints :=
  repeat first
    [ apply read_only_echo
    | apply read_only_ret
    | apply read_only_lift
    | apply read_only_bind; [|intros ?]
    | apply read_only_try_except_class
    | apply read_only_try_except; [|intros ?]
    | apply read_only_for_io; intros ? ?
    | match goal with
      | |- read_only (if ?b then _ else _) => destruct b
      | |- read_only (match ?x with _ => _ end) => destruct x
      | |- read_only (let _ := _ in _) => cbv zeta
      end ].

Ltac never_raises :=
  repeat first
    [ apply returns_echo
    | apply returns_ret
    | apply returns_try_except; intros ?
    | apply returns_bind; [|intros ?]
    | apply returns_for_io; intros ? ?
    | match goal with
      | |- returns (if ?b then _ else _) => destruct b
      | |- returns (match ?x with _ => _ end) => destruct x
      | |- returns (let _ := _ in _) => cbv zeta
      end ].

Section CommandProperties.
Context {lib : PyLib}.
Variable env : Env.
Variable py : Builtins.

Lemma read_only_get_git_repo : read_only (get_git_repo env).
Proof. unfold get_git_repo. only_prints. Qed.

Lemma read_only_load_docignore (path : string) : read_only (load_docignore env path).
Proof. unfold load_docignore. only_prints. Qed.

Lemma returns_load_docignore (path : string) : returns (load_docignore env path).
Proof. unfold load_docignore. never_raises. Qed.

Lemma read_only_report_repository (repo : option Repo) :
  read_only (report_repository env py repo).
Proof.
  unfold report_repository, show_git_info, show_files, show_documentation_status,
    show_hook_status, show_next_steps.
  destruct repo as [repo|]; [|apply read_only_echo].
  apply read_only_bind; [only_prints|]. intros _.
  apply read_only_bind; [only_prints|]. intros _.
  apply read_only_bind; [only_prints|]. intros _.
  apply read_only_bind; [apply read_only_load_docignore|]. intros docignore_spec.
  cbv zeta. only_prints.
Qed.

Lemma returns_report_repository (repo : option Repo) :
  returns (report_repository env py repo).
Proof.
  unfold report_repository, show_git_info, show_files, show_documentation_status,
    show_hook_status, show_next_steps.
  destruct repo as [repo|]; [|apply returns_echo].
  apply returns_bind; [never_raises|]. intros _.
  apply returns_bind; [never_raises|]. intros _.
  apply returns_bind; [never_raises|]. intros _.
  apply returns_bind; [apply returns_load_docignore|]. intros docignore_spec.
  cbv zeta. never_raises.
Qed.

(** X20. [status_command] only prints: whatever it finds, and whether it
    returns or raises, it creates no directory, writes no file, reads no
    clock, and adds its lines after what was on the console. *)
Theorem status_command_only_prints (s : State) :
  made_dirs (snd (status_command env py s)) = made_dirs s
  /\ written (snd (status_command env py s)) = written s
  /\ ticks (snd (status_command env py s)) = ticks s
  /\ current_file (snd (status_command env py s)) = current_file s
  /\ exists printed, console (snd (status_command env py s)) = console s ++ printed.
Proof.
  assert (H : read_only (status_command env py)).
  { unfold status_command, show_configuration.
    apply read_only_bind; [only_prints|]. intros _.
    apply read_only_bind; [only_prints|]. intros _.
    destruct (negb (path_exists env "docshadow.config.json")); [only_prints|].
    apply read_only_bind; [only_prints|]. intros _.
    apply read_only_bind; [only_prints|]. intros _.
    apply read_only_bind; [apply read_only_get_git_repo|]. intros repo.
    apply read_only_report_repository. }
  exact (H s).
Qed.

(** X21. [status_command] raises in one case only: docShadow is
    initialized and opening the repository fails with something other than
    [InvalidGitRepositoryError], which then goes up to the caller. Every
    other failure (configuration, git data, index, hook file) is printed. *)
Theorem status_command_raises_iff (s : State) :
  (exists e, fst (status_command env py s) = Raise e)
  <-> path_exists env "docshadow.config.json" = true
      /\ exists e, git_Repo env = Raise e
                   /\ exn_class_eqb (exn_kind e) InvalidGitRepositoryError = false.
Proof.
  unfold status_command.
  io_step ltac:(reflexivity). io_step ltac:(reflexivity).
  destruct (path_exists env "docshadow.config.json") eqn:Hinit; cbn [negb].
  - io_step ltac:(reflexivity).
    assert (Hconfig : returns (show_configuration py))
      by (unfold show_configuration; never_raises).
    match goal with
    | |- context [io_bind (show_configuration py) ?k ?s1] =>
        destruct (Hconfig s1) as ([] & s2 & Hrun); rewrite (@io_bind_ok _ _ _ _ _ _ _ Hrun)
    end.
    unfold io_bind at 1. rewrite get_git_repo_run.
    destruct (git_Repo env) as [repo|e] eqn:Hrepo.
    + destruct (returns_report_repository (Some repo) s2) as ([] & s3 & ->).
      split; [intros (e & He); discriminate|].
      intros (_ & e & He & _). discriminate.
    + destruct (exn_class_eqb (exn_kind e) InvalidGitRepositoryError) eqn:Hkind.
      * destruct (returns_report_repository None s2) as ([] & s3 & ->).
        split; [intros (e' & He'); discriminate|].
        intros (_ & e' & He' & Hkind'). inversion He'; subst. congruence.
      * split; [|intros _; now exists e].
        intros _. split; [reflexivity|]. now exists e.
  - split; [intros (e & He); discriminate|]. intros (H & _). discriminate.
Qed.

(** What the loop over the first ten files prints. *)
Lemma bullets_run (files : list string) (s : State) :
  for_io files tt (fun _ py_file => echo ("     • " ++ py_file)) s
  = (Ok tt,
     mk_State (console s ++ map (fun f => ("     • " ++ f)%string) files)
              (made_dirs s) (written s) (ticks s) (current_file s)).
Proof.
  revert s. induction files as [|f files IH]; intros s; simpl.
  - unfold ret. now rewrite app_nil_r, state_eta.
  - unfold io_bind, echo. rewrite IH. cbn [console made_dirs written ticks current_file].
    now rewrite <- app_assoc.
Qed.

(** X22. [status_command] names at most ten files: after the line with
    their number come the first ten files found, one per line, and, when
    there are more, one line with how many are left out. *)
Theorem show_files_lists_ten (python_files : list string) (s : State) :
  python_files <> [] ->
  exists lines : list string,
    show_files python_files s
    = (Ok tt, mk_State (console s ++ lines) (made_dirs s) (written s) (ticks s)
                       (current_file s))
    /\ lines
       = [("   Found " ++ string_of_nat (List.length python_files)
             ++ " Python files:")%string]
         ++ map (fun f => ("     • " ++ f)%string) (firstn 10 python_files)
         ++ (if (10 <? List.length python_files)%nat
             then [("     ... and " ++ string_of_nat (List.length python_files - 10)
                      ++ " more")%string]
             else [])
    /\ (List.length lines <= 12)%nat.
Proof.
  intros Hsome. eexists. split; [|split; [reflexivity|]].
  - unfold show_files. destruct python_files as [|f0 rest]; [contradiction|].
    io_step ltac:(reflexivity).
    io_step ltac:(apply bullets_run).
    destruct (10 <? List.length (f0 :: rest))%nat.
    + unfold echo. cbn [console made_dirs written ticks current_file].
      now rewrite <- !app_assoc.
    + unfold ret. now rewrite app_nil_r, <- !app_assoc.
  - rewrite !length_app, length_map, length_firstn. simpl List.length at 1.
    destruct (10 <? List.length python_files)%nat; simpl List.length; lia.
Qed.

Lemma generate_documentation_total (commit_hash : option string) :
  returns (generate_documentation env commit_hash).
Proof.
  unfold generate_documentation. never_raises.
Qed.

(** X23. [generate_command] never raises and never looks into the loaded
    configuration. Without a configuration file, or with one that does not
    load, it prints one error and returns [False] with nothing else done; with
    one that loads it runs [generate_documentation], prints one line more
    and returns what the run returned. *)
Theorem generate_command_outcome (commit_hash : option string) (s : State) :
  exists (ok : bool) (s' : State),
    generate_command env py commit_hash s = (Ok ok, s')
    /\ (path_exists env "docshadow.config.json" = false
        \/ (exists e, json_load py "docshadow.config.json" = Raise e) ->
        ok = false
        /\ exists line,
             s' = mk_State (console s ++ [line]) (made_dirs s) (written s) (ticks s)
                           (current_file s))
    /\ (path_exists env "docshadow.config.json" = true ->
        (exists config, json_load py "docshadow.config.json" = Ok config) ->
        exists (s1 : State) (line : string),
          generate_documentation env commit_hash s = (Ok ok, s1)
          /\ s' = mk_State (console s1 ++ [line]) (made_dirs s1) (written s1) (ticks s1)
                           (current_file s1)).
Proof.
  unfold generate_command.
  destruct (path_exists env "docshadow.config.json") eqn:Hinit; cbn [negb].
  - unfold try_except, lift. unfold io_bind at 1. unfold io_bind at 1.
    destruct (json_load py "docshadow.config.json") as [config|e] eqn:Hload.
    + cbv beta match. unfold ret at 1. cbv beta match.
      destruct (generate_documentation_total commit_hash s) as (ok & s1 & Hrun).
      rewrite (@io_bind_ok _ _ _ _ _ _ _ Hrun).
      destruct ok; [exists true|exists false]; eexists;
        (split; [unfold io_bind, echo, ret; reflexivity|]);
        (split; [intros [Habsent|(e & He)]; discriminate|]);
        intros _ _; exists s1; eexists; (split; [exact Hrun|reflexivity]).
    + cbv beta match. unfold io_bind, echo, ret. cbv beta match.
      exists false. eexists. split; [reflexivity|]. split.
      * intros _. split; [reflexivity|]. eexists. reflexivity.
      * intros _ (config & Hconfig). discriminate.
  - unfold io_bind, echo, ret. exists false. eexists. split; [reflexivity|]. split.
    + intros _. split; [reflexivity|]. eexists. reflexivity.
    + discriminate.
Qed.

End CommandProperties.

Lemma show_files_lists_ten_witness :
  ["a.py"; "b.py"] <> []
  /\ exists lines : list string,
       show_files ["a.py"; "b.py"] initial_state
       = (Ok tt, mk_State ([] ++ lines) [] [] 0 None)
       /\ (List.length lines <= 12)%nat.
Proof.
  assert (H : ["a.py"; "b.py"] <> []) by discriminate.
  split; [exact H|].
  destruct (@show_files_lists_ten ["a.py"; "b.py"] initial_state H)
    as (lines & Hrun & _ & Hlen).
  exists lines. split; [exact Hrun|exact Hlen].
Defined.
